(** * VittaManthan AI service: query understanding and retrieval orchestration

    A shallow embedding of the decision logic of the transaction question
    answering service:

    - [app/utils/filters.py]     : [extract_filters_from_query], [apply_filters]
    - [app/utils/query_mode.py]  : [detect_query_mode], [calculate_statistics]
    - [app/utils/cache.py]       : [cleanup_expired_cache], [get_cached_query],
                                   [cache_query_results]
    - [app/api/transactions.py]  : the [/prompt] endpoint [query_with_prompt]

    Modelling choices, fixed once for the whole development:

    - A Python [str] is a Rocq [string].  Prompts are modelled on their ASCII
      range: [str.lower], [\d] and [\s] act on ASCII characters, and a
      byte above 127 is an opaque character without case that is neither a
      digit nor white space.  Non ASCII literals of the source are kept as
      their UTF-8 bytes.
    - A Python [float] is a binary64 number: a rational that the format
      represents, an infinity or a NaN; arithmetic rounds to nearest, ties
      to even.
    - A transaction is a JSON object, that is a finite map from field names
      to JSON values ([gmap string pyval]).
    - A raised exception is the [Raise] case of the [result] type; the
      exception classes that the code can meet are enumerated in [exn].
    - The clock, the text generator, the similarity index, the md5 digest
      and the Pydantic constructors are collaborators of the service: they
      are parameters of the functions that use them. *)

From Stdlib Require Import ZArith QArith Qminmax Ascii String List Bool Lia.
From stdpp Require Import base option list gmap strings fin_maps.

Set Warnings "-register-all".

Open Scope string_scope.
Open Scope Z_scope.

(* ===================================================================== *)
(** * Part I: definitions                                                 *)
(* ===================================================================== *)

(** ** Exceptions *)

Inductive exn : Type :=
| ValueError
| TypeError
| AttributeError
| IndexError
| OverflowError
| HTTPException (status : Z).

Inductive result (A : Type) : Type :=
| Ok (a : A)
| Raise (e : exn).

Arguments Ok {A} a.
Arguments Raise {A} e.

Definition rbind {A B : Type} (m : result A) (f : A -> result B) : result B :=
  match m with
  | Ok a => f a
  | Raise e => Raise e
  end.

#[global] Instance result_ret : MRet result := fun A a => Ok a.
#[global] Instance result_bind : MBind result := fun A B f m => rbind m f.

(** [[f(x) for x in l]] for a fallible [f]: the first exception aborts. *)
Fixpoint rmap {A B : Type} (f : A -> result B) (l : list A) : result (list B) :=
  match l with
  | [] => Ok []
  | x :: l' => y ← f x; ys ← rmap f l'; Ok (y :: ys)
  end.

(** [[x for x in l if p(x)]] for a fallible test [p]. *)
Fixpoint rfilter {A : Type} (p : A -> result bool) (l : list A) : result (list A) :=
  match l with
  | [] => Ok []
  | x :: l' =>
      b ← p x; ys ← rfilter p l'; Ok (if (b : bool) then x :: ys else ys)
  end.

Definition is_ok {A : Type} (m : result A) : bool :=
  match m with Ok _ => true | Raise _ => false end.

(** ** Characters and strings, as Python sees them *)

Definition code (c : ascii) : N := N_of_ascii c.

Definition between_codes (lo hi : N) (c : ascii) : bool :=
  ((lo <=? code c) && (code c <=? hi))%N.

Definition is_digit (c : ascii) : bool := between_codes 48 57 c.
Definition is_upper (c : ascii) : bool := between_codes 65 90 c.
Definition is_lower (c : ascii) : bool := between_codes 97 122 c.
Definition is_hex_lower (c : ascii) : bool := is_digit c || between_codes 97 102 c.

(** [\w]: letters, digits and the underscore.  The bytes of a non ASCII
    character count as letters, as the Devanagari consonants do. *)
Definition is_word (c : ascii) : bool :=
  is_digit c || is_upper c || is_lower c || (code c =? 95)%N || (128 <=? code c)%N.

(** [\s]: tab, line feed, vertical tab, form feed, carriage return, the
    four separators 28 to 31 and the space. *)
Definition is_space (c : ascii) : bool :=
  between_codes 9 13 c || between_codes 28 31 c || (code c =? 32)%N.

(** [.] without DOTALL: everything but the line feed. *)
Definition is_dot (c : ascii) : bool := negb (code c =? 10)%N.

Definition is_char (x : ascii) (c : ascii) : bool := (code x =? code c)%N.

Definition lower_char (c : ascii) : ascii :=
  if is_upper c then ascii_of_N (code c + 32) else c.

Definition upper_char (c : ascii) : ascii :=
  if is_lower c then ascii_of_N (code c - 32) else c.

Fixpoint smap (f : ascii -> ascii) (s : string) : string :=
  match s with
  | EmptyString => EmptyString
  | String c s' => String (f c) (smap f s')
  end.

(** [s.lower()] and [s.upper()] *)
Definition lower (s : string) : string := smap lower_char s.
Definition upper (s : string) : string := smap upper_char s.

(** [s.startswith(p)] *)
Fixpoint startswith (p s : string) : bool :=
  match p, s with
  | EmptyString, _ => true
  | String a p', String b s' => is_char a b && startswith p' s'
  | String _ _, EmptyString => false
  end.

(** [needle in hay] on strings *)
Fixpoint str_in (needle hay : string) : bool :=
  startswith needle hay ||
  match hay with
  | EmptyString => false
  | String _ hay' => str_in needle hay'
  end.

(** [any(w in s for w in words)] *)
Definition any_in (words : list string) (s : string) : bool :=
  existsb (fun w => str_in w s) words.

(** [s[:n]] *)
Fixpoint take_str (n : nat) (s : string) : string :=
  match n, s with
  | S n', String c s' => String c (take_str n' s')
  | _, _ => EmptyString
  end.

(** [s[n:]] *)
Fixpoint drop_str (n : nat) (s : string) : string :=
  match n, s with
  | S n', String _ s' => drop_str n' s'
  | _, _ => s
  end.

(** [s.replace(old, "")] for a one character [old] *)
Fixpoint remove_char (x : ascii) (s : string) : string :=
  match s with
  | EmptyString => EmptyString
  | String c s' => if is_char x c then remove_char x s' else String c (remove_char x s')
  end.

Fixpoint drop_spaces (s : string) : string :=
  match s with
  | String c s' => if is_space c then drop_spaces s' else s
  | EmptyString => EmptyString
  end.

Fixpoint srev_app (s acc : string) : string :=
  match s with
  | EmptyString => acc
  | String c s' => srev_app s' (String c acc)
  end.

Definition srev (s : string) : string := srev_app s EmptyString.

(** [s.strip()] *)
Definition strip (s : string) : string :=
  srev (drop_spaces (srev (drop_spaces s))).

(** [s.split()]: the maximal runs of characters that are not white space. *)
Fixpoint split_ws_aux (s : string) (cur : string) : list string :=
  match s with
  | EmptyString => match cur with EmptyString => [] | _ => [srev cur] end
  | String c s' =>
      if is_space c
      then match cur with
           | EmptyString => split_ws_aux s' EmptyString
           | _ => srev cur :: split_ws_aux s' EmptyString
           end
      else split_ws_aux s' (String c cur)
  end.

Definition split_ws (s : string) : list string := split_ws_aux s EmptyString.

(** ** Regular expressions ([re]) *)

Module Re.

(** The fragment of the pattern language that the service uses.  [Star]
    carries its greediness: [Star true r] is [r*], [Star false r] is the
    lazy [r*?].  [Grp r] is a capturing group. *)
Inductive regex : Type :=
| Eps
| Chr (p : ascii -> bool)
| Seq (r1 r2 : regex)
| Alt (r1 r2 : regex)
| Star (greedy : bool) (r : regex)
| Bnd
| Eol
| Grp (r : regex).

(** A position in the subject: the character before it, what is left to
    read, and the groups captured so far (the last one first). *)
Record pos : Type := Pos {
  prev : option ascii;
  rest : string;
  caps : list string
}.

Definition kont (A : Type) : Type := pos -> option A.

Definition orelse {A : Type} (a b : option A) : option A :=
  match a with Some _ => a | None => b end.

Definition word_before (p : pos) : bool :=
  match prev p with Some c => is_word c | None => false end.

Definition word_after (p : pos) : bool :=
  match rest p with String c _ => is_word c | EmptyString => false end.

(** [$]: at the end, or just before a final line feed. *)
Definition at_eol (p : pos) : bool :=
  match rest p with
  | EmptyString => true
  | String c EmptyString => negb (is_dot c)
  | _ => false
  end.

(** The loop of a repetition.  An iteration has to consume a character;
    [n] bounds the number of iterations by the length of the subject. *)
Fixpoint star_loop {A : Type} (body : pos -> kont A -> option A)
    (greedy : bool) (n : nat) (p : pos) (k : kont A) : option A :=
  match n with
  | O => k p
  | S n' =>
      let again :=
        body p (fun p' =>
          if (String.length (rest p') <? String.length (rest p))%nat
          then star_loop body greedy n' p' k
          else None) in
      if greedy then orelse again (k p) else orelse (k p) again
  end.

(** The backtracking matcher, in continuation passing style: the
    alternatives are tried in the order of the [re] module, so that the
    first success is the match that [re] reports. *)
Fixpoint run {A : Type} (r : regex) (p : pos) (k : kont A) : option A :=
  match r with
  | Eps => k p
  | Chr f =>
      match rest p with
      | String c s' =>
          if f c then k (Pos (Some c) s' (caps p)) else None
      | EmptyString => None
      end
  | Seq r1 r2 => run r1 p (fun p1 => run r2 p1 k)
  | Alt r1 r2 => orelse (run r1 p k) (run r2 p k)
  | Star g r' => star_loop (run r') g (String.length (rest p)) p k
  | Bnd => if xorb (word_before p) (word_after p) then k p else None
  | Eol => if at_eol p then k p else None
  | Grp r' =>
      run r' p (fun p' =>
        let n := (String.length (rest p) - String.length (rest p'))%nat in
        k (Pos (prev p') (rest p') (take_str n (rest p) :: caps p')))
  end.

(** A match: the matched text, the groups in the order of the pattern,
    and what follows the match. *)
Record rmatch : Type := Match {
  group0 : string;
  groups : list string;
  after : pos
}.

Definition match_at (r : regex) (p : pos) : option rmatch :=
  run r (Pos (prev p) (rest p) [])
    (fun p' =>
       let n := (String.length (rest p) - String.length (rest p'))%nat in
       Some (Match (take_str n (rest p)) (rev (caps p')) p')).

(** [re.match(r, s)] *)
Definition rematch (r : regex) (s : string) : option rmatch :=
  match_at r (Pos None s []).

Fixpoint search_from (r : regex) (pv : option ascii) (s : string) : option rmatch :=
  orelse (match_at r (Pos pv s []))
    match s with
    | EmptyString => None
    | String c s' => search_from r (Some c) s'
    end.

(** [re.search(r, s)]: the leftmost match. *)
Definition search (r : regex) (s : string) : option rmatch :=
  search_from r None s.

(** [bool(re.search(r, s))] *)
Definition found (r : regex) (s : string) : bool :=
  match search r s with Some _ => true | None => false end.

(** [re.findall(r, s)] for a pattern without group: the matched texts,
    leftmost first, without overlap.  After an empty match the scan moves
    one character on. *)
Fixpoint findall_from (n : nat) (r : regex) (pv : option ascii) (s : string)
    : list string :=
  match n with
  | O => []
  | S n' =>
      match match_at r (Pos pv s []) with
      | Some m =>
          match group0 m with
          | EmptyString =>
              match s with
              | EmptyString => [EmptyString]
              | String c s' => EmptyString :: findall_from n' r (Some c) s'
              end
          | _ => group0 m :: findall_from n' r (prev (after m)) (rest (after m))
          end
      | None =>
          match s with
          | EmptyString => []
          | String c s' => findall_from n' r (Some c) s'
          end
      end
  end.

Definition findall (r : regex) (s : string) : list string :=
  findall_from (S (String.length s)) r None s.

(** *** Pattern combinators *)

(** A literal text. *)
Fixpoint lit (s : string) : regex :=
  match s with
  | EmptyString => Eps
  | String c s' => Seq (Chr (is_char c)) (lit s')
  end.

(** A literal text under [re.IGNORECASE]. *)
Fixpoint lit_i (s : string) : regex :=
  match s with
  | EmptyString => Eps
  | String c s' =>
      Seq (Chr (fun x => is_char (lower_char c) (lower_char x))) (lit_i s')
  end.

Definition opt (r : regex) : regex := Alt r Eps.
Definition plus (r : regex) : regex := Seq r (Star true r).
Definition star (r : regex) : regex := Star true r.
Definition lazy_star (r : regex) : regex := Star false r.

Fixpoint times (n : nat) (r : regex) : regex :=
  match n with
  | O => Eps
  | S n' => Seq r (times n' r)
  end.

Fixpoint alts (rs : list regex) : regex :=
  match rs with
  | [] => Chr (fun _ => false)
  | [r] => r
  | r :: rs' => Alt r (alts rs')
  end.

Fixpoint seqs (rs : list regex) : regex :=
  match rs with
  | [] => Eps
  | [r] => r
  | r :: rs' => Seq r (seqs rs')
  end.

Definition digit : regex := Chr is_digit.
Definition space : regex := Chr is_space.
Definition dot : regex := Chr is_dot.

End Re.

(** ** JSON values and transaction records *)

(** What [json] hands to the service: a record of [context_data] is a
    [Dict[str, Any]]. *)
Inductive pyval : Type :=
| PNone
| PBool (b : bool)
| PInt (z : Z)
| PFloat (q : Q)
| PStr (s : string)
| PList (l : list pyval)
| PDict (d : list (string * pyval)).

(** A transaction record. *)
Abbreviation txn := (gmap string pyval).

(** [d.get(key, dflt)] *)
Definition get (d : txn) (key : string) (dflt : pyval) : pyval :=
  default dflt (d !! key).

(** ** Floating point numbers *)

(** A Python [float] is an IEEE 754 binary64 number: a rational that the
    format represents, an infinity or a NaN.  The two zeros are one value
    here: the comparisons, the truth value and the sums of the service do
    not tell them apart. *)
Inductive float : Type :=
| Fin (q : Q)
| Inf (negative : bool)
| NaN.

Coercion Fin : Q >-> float.

(** The integer nearest to [n / d] for [0 <= n] and [0 < d], a tie going
    to the even one. *)
Definition round_half_even (n d : Z) : Z :=
  let q := n / d in
  match 2 * (n mod d) ?= d with
  | Lt => q
  | Gt => q + 1
  | Eq => if Z.even q then q else q + 1
  end.

(** The exponent of the last place of the format at [a / d > 0]: 52 below
    the binary exponent of [a / d], and not below the exponent -1074 of
    the subnormal numbers. *)
Definition ulp_exponent (a d : Z) : Z :=
  let l := Z.log2 a - Z.log2 d in
  let below := if 0 <=? l then a <? d * 2 ^ l else a * 2 ^ (- l) <? d in
  Z.max ((if below then l - 1 else l) - 52) (-1074).

(** Rounding to the nearest binary64 number, ties to even; what rounds to
    [2 ^ 1024] or beyond overflows to an infinity. *)
Definition round64 (x : Q) : float :=
  let n := Qnum x in
  let d := Z.pos (Qden x) in
  if n =? 0 then Fin 0%Q
  else
    let a := Z.abs n in
    let e := ulp_exponent a d in
    if 0 <=? e
    then
      let m := round_half_even a (d * 2 ^ e) in
      if 2 ^ 1024 <=? m * 2 ^ e then Inf (n <? 0)
      else Fin (inject_Z (Z.sgn n * m * 2 ^ e))
    else
      let m := round_half_even (a * 2 ^ (- e)) d in
      Fin (Qred (Z.sgn n * m # Z.to_pos (2 ^ (- e)))).

Definition Qzero (q : Q) : bool := Qeq_bool q 0%Q.

Definition Qltb (a b : Q) : bool := negb (Qle_bool b a).


(** [a < b]; a comparison with a NaN is false. *)
Definition flt (a b : float) : bool :=
  match a, b with
  | Fin x, Fin y => Qltb x y
  | Fin _, Inf negative => negb negative
  | Inf negative, Fin _ => negative
  | Inf n1, Inf n2 => n1 && negb n2
  | NaN, _ => false
  | _, NaN => false
  end.

(** [a <= b] *)
Definition fle (a b : float) : bool :=
  match a, b with
  | NaN, _ => false
  | _, NaN => false
  | _, _ => negb (flt b a)
  end.

Definition is_nan (a : float) : bool :=
  match a with NaN => true | _ => false end.

(** [a + b] *)
Definition fadd (a b : float) : float :=
  match a, b with
  | NaN, _ => NaN
  | _, NaN => NaN
  | Fin x, Fin y => round64 (x + y)
  | Inf n1, Inf n2 => if Bool.eqb n1 n2 then Inf n1 else NaN
  | Inf n1, Fin _ => Inf n1
  | Fin _, Inf n2 => Inf n2
  end.

(** [a * b] *)
Definition fmul (a b : float) : float :=
  match a, b with
  | NaN, _ => NaN
  | _, NaN => NaN
  | Fin x, Fin y => round64 (x * y)
  | Inf n1, Inf n2 => Inf (xorb n1 n2)
  | Inf n1, Fin y => if Qzero y then NaN else Inf (xorb n1 (Qltb y 0))
  | Fin x, Inf n2 => if Qzero x then NaN else Inf (xorb (Qltb x 0) n2)
  end.

(** [a / n] for a count [n] that is not zero. *)
Definition fdiv_nat (a : float) (n : nat) : float :=
  match a with
  | Fin x => round64 (x / inject_Z (Z.of_nat n))
  | Inf negative => Inf negative
  | NaN => NaN
  end.

(** [bool(a)]: every float but zero is true. *)
Definition float_truthy (a : float) : bool :=
  match a with
  | Fin q => negb (Qzero q)
  | _ => true
  end.

(** [bool(v)] *)
Definition truthy (v : pyval) : bool :=
  match v with
  | PNone => false
  | PBool b => b
  | PInt z => negb (z =? 0)
  | PFloat q => negb (Qzero q)
  | PStr s => negb (String.eqb s "")
  | PList l => match l with [] => false | _ => true end
  | PDict d => match d with [] => false | _ => true end
  end.

(** *** Numbers written in decimal *)

Definition digit_val (c : ascii) : Z := Z.of_N (code c) - 48.

Fixpoint digits_val (s : string) (acc : Z) : Z :=
  match s with
  | EmptyString => acc
  | String c s' => digits_val s' (10 * acc + digit_val c)
  end.

Fixpoint all_chars (p : ascii -> bool) (s : string) : bool :=
  match s with
  | EmptyString => true
  | String c s' => p c && all_chars p s'
  end.

(** The leading run of digits and what follows it. *)
Fixpoint span_digits (s : string) : string * string :=
  match s with
  | String c s' =>
      if is_digit c
      then let '(d, r) := span_digits s' in (String c d, r)
      else (EmptyString, s)
  | EmptyString => (EmptyString, EmptyString)
  end.

Definition pow10 (n : nat) : Z := 10 ^ Z.of_nat n.

Definition take_sign (s : string) : bool * string :=
  match s with
  | String c s' =>
      if is_char "-" c then (true, s')
      else if is_char "+" c then (false, s')
      else (false, s)
  | EmptyString => (false, s)
  end.

(** The exponent part of a float literal: nothing, or [e], an optional sign
    and at least one digit, up to the end of the text. *)
Definition exponent (s : string) : option Z :=
  match s with
  | EmptyString => Some 0
  | String c s' =>
      if is_char "e" (lower_char c)
      then let '(neg, ds) := take_sign s' in
           match ds with
           | EmptyString => None
           | _ => if all_chars is_digit ds
                  then Some (if neg then - digits_val ds 0 else digits_val ds 0)
                  else None
           end
      else None
  end.

Definition scale10 (q : Q) (e : Z) : Q :=
  if 0 <=? e then (q * inject_Z (10 ^ e))%Q else (q / inject_Z (10 ^ (- e)))%Q.

(** The value of an unsigned decimal literal: digits with an optional
    fraction (one of the two sides of the point may be empty) and an
    optional exponent. *)
Definition decimal (body : string) : option Q :=
  let '(ip, r1) := span_digits body in
  let '(fp, r2) :=
    match r1 with
    | String c r =>
        if is_char "." c then span_digits r else (EmptyString, r1)
    | EmptyString => (EmptyString, r1)
    end in
  match ip, fp with
  | EmptyString, EmptyString => None
  | _, _ =>
      match exponent r2 with
      | Some e =>
          let m := (digits_val fp (digits_val ip 0) # 1)%Q in
          Some (scale10 (m / inject_Z (pow10 (String.length fp)))%Q e)
      | None => None
      end
  end.

(** The white space of the C locale, which [float] skips around a
    literal: tab to carriage return, and the space. *)
Definition is_c_space (c : ascii) : bool :=
  between_codes 9 13 c || (code c =? 32)%N.

Fixpoint lstrip_c (s : string) : string :=
  match s with
  | String c s' => if is_c_space c then lstrip_c s' else s
  | EmptyString => EmptyString
  end.

Fixpoint rstrip_c (s : string) : string :=
  match s with
  | EmptyString => EmptyString
  | String c s' =>
      match rstrip_c s' with
      | EmptyString => if is_c_space c then EmptyString else String c EmptyString
      | r => String c r
      end
  end.

(** The digit separators: an underscore is dropped when it stands between
    two digits, and is an error anywhere else.  [prev] is the character
    before [s]. *)
Fixpoint strip_underscores (prev : option ascii) (s : string) : option string :=
  match s with
  | EmptyString =>
      match prev with
      | Some p => if is_char "_" p then None else Some EmptyString
      | None => Some EmptyString
      end
  | String c s' =>
      if is_char "_" c
      then match prev with
           | Some p => if is_digit p then strip_underscores (Some c) s' else None
           | None => None
           end
      else
        match prev with
        | Some p =>
            if is_char "_" p && negb (is_digit c) then None
            else String c <$> strip_underscores (Some c) s'
        | None => String c <$> strip_underscores (Some c) s'
        end
  end.

(** [float(s)] on a string: the digit separators are dropped, then the
    white space around; what is left is a sign followed by [nan], [inf] or
    [infinity] in any case, or by a decimal literal, which is rounded.
    [None] stands for [ValueError].  The digits and the white space are
    the ASCII ones: a text with a character above 127 is not read. *)
Definition float_of_str (s : string) : option float :=
  match strip_underscores None s with
  | None => None
  | Some s1 =>
      let '(neg, body) := take_sign (rstrip_c (lstrip_c s1)) in
      let l := lower body in
      if String.eqb l "nan" then Some NaN
      else if String.eqb l "inf" || String.eqb l "infinity" then Some (Inf neg)
      else (fun q => round64 (if neg then (- q)%Q else q)) <$> decimal body
  end.

(** [float(v)]: an integer is rounded, and raises [OverflowError] when it
    is beyond the range of the format. *)
Definition py_float (v : pyval) : result float :=
  match v with
  | PNone => Raise TypeError
  | PBool b => Ok (Fin (if b then 1%Q else 0%Q))
  | PInt z =>
      match round64 (inject_Z z) with
      | Inf _ => Raise OverflowError
      | x => Ok x
      end
  | PFloat q => Ok (Fin q)
  | PStr s =>
      match float_of_str s with
      | Some x => Ok x
      | None => Raise ValueError
      end
  | PList _ => Raise TypeError
  | PDict _ => Raise TypeError
  end.

(** [v.upper()] and [v.lower()]: only strings have the methods. *)
Definition py_upper (v : pyval) : result string :=
  match v with
  | PStr s => Ok (upper s)
  | _ => Raise AttributeError
  end.

Definition py_lower (v : pyval) : result string :=
  match v with
  | PStr s => Ok (lower s)
  | _ => Raise AttributeError
  end.

(** [needle in v] for a string [needle]: a substring of a string, an
    element of a list, a key of a dictionary. *)
Definition py_contains (needle : string) (v : pyval) : result bool :=
  match v with
  | PStr s => Ok (str_in needle s)
  | PList l =>
      Ok (existsb (fun x => match x with
                            | PStr s => String.eqb s needle
                            | _ => false
                            end) l)
  | PDict d => Ok (existsb (fun kv => String.eqb (fst kv) needle) d)
  | _ => Raise TypeError
  end.

(** *** [datetime.strptime(s, '%Y-%m-%d')] *)

Module Strptime.
Import Re.

Definition range (lo hi : string) : regex :=
  match lo, hi with
  | String a _, String b _ => Chr (between_codes (code a) (code b))
  | _, _ => Eps
  end.

(** [%Y]: [\d\d\d\d] *)
Definition dir_Y : regex := Grp (times 4 digit).

(** [%m]: [1[0-2]|0[1-9]|[1-9]] *)
Definition dir_m : regex :=
  Grp (alts [Seq (lit "1") (range "0" "2");
             Seq (lit "0") (range "1" "9");
             range "1" "9"]).

(** [%d]: [3[0-1]|[1-2]\d|0[1-9]|[1-9]| [1-9]] *)
Definition dir_d : regex :=
  Grp (alts [Seq (lit "3") (range "0" "1");
             Seq (range "1" "2") digit;
             Seq (lit "0") (range "1" "9");
             range "1" "9";
             Seq (lit " ") (range "1" "9")]).

Definition format_regex : regex :=
  seqs [dir_Y; lit "-"; dir_m; lit "-"; dir_d].

Definition is_leap (y : Z) : bool :=
  ((y mod 4 =? 0) && negb (y mod 100 =? 0)) || (y mod 400 =? 0).

Definition days_in_month (y m : Z) : Z :=
  if m =? 2 then (if is_leap y then 29 else 28)
  else if (m =? 4) || (m =? 6) || (m =? 9) || (m =? 11) then 30
  else 31.

(** [int(s)] on a group of [format_regex]: digits, after an optional space. *)
Definition int_of_group (s : string) : Z := digits_val (drop_spaces s) 0.

(** The year and the month of the parsed date.  The text has to match
    [format_regex] up to its end, and the date has to exist. *)
Definition strptime_ymd (s : string) : result (Z * Z) :=
  match rematch format_regex s with
  | Some (Match _ [gy; gm; gd] (Pos _ EmptyString _)) =>
      let y := int_of_group gy in
      let m := int_of_group gm in
      let d := int_of_group gd in
      if (1 <=? y) && (1 <=? d) && (d <=? days_in_month y m)
      then Ok (y, m)
      else Raise ValueError
  | _ => Raise ValueError
  end.

End Strptime.

(** ** The Filter Set *)

(** [filters['date_filter']]: a dictionary with the keys [year] and [month],
    each of them present or not. *)
Record date_f : Type := DateF {
  df_year : option Z;
  df_month : option Z
}.

Record filters : Type := Filters {
  amount_above : option float;
  amount_below : option float;
  amount_range : option (float * float);
  date_filter : option date_f;
  mode : option string;
  type : option string;
  account_id : option string;
  person_name : option string;
  strict_name_match : bool
}.

(** The truth value of [filters.get(key)] for each kind of field: [None],
    the number zero, the empty string and the empty dictionary are false. *)
Definition get_num (o : option float) : option float :=
  match o with
  | Some a => if float_truthy a then Some a else None
  | None => None
  end.

Definition get_str (o : option string) : option string :=
  match o with
  | Some s => if String.eqb s "" then None else Some s
  | None => None
  end.

Definition get_date (o : option date_f) : option date_f :=
  match o with
  | Some (DateF None None) => None
  | _ => o
  end.

(** One entry of the filter description list.  Each constructor stands for
    one f-string of [apply_filters]; the rendering of the numbers is left
    out. *)
Inductive description : Type :=
| DescDate (month_name : string) (year : Z)
| DescYear (year : Z)
| DescMode (m : string)
| DescType (t : string)
| DescAmountRange (lo hi : float)
| DescAmountAbove (t : float)
| DescAmountBelow (t : float)
| DescAccount (a : string)
| DescExactName (n : string)
| DescPerson (n : string).

Definition month_names : list string :=
  ["Jan"; "Feb"; "Mar"; "Apr"; "May"; "Jun";
   "Jul"; "Aug"; "Sep"; "Oct"; "Nov"; "Dec"].

(** [l[i]] with Python's negative indices. *)
Definition py_index {A : Type} (l : list A) (i : Z) : result A :=
  let n := Z.of_nat (length l) in
  let j := if i <? 0 then i + n else i in
  if (0 <=? j) && (j <? n)
  then match l !! Z.to_nat j with Some x => Ok x | None => Raise IndexError end
  else Raise IndexError.

(** ** The Filter Applicator ([apply_filters]) *)

(** The body of the date loop for one record: [Ok true] when the record is
    appended to [new_filtered].  The bare [except: pass] of the source turns
    every failure of the parsing into a record that is left out. *)
Definition date_match (date_f : date_f) (d : txn) : bool :=
  let date_str := get d "createdAt" (PStr "") in
  if truthy date_str then
    match date_str with
    | PStr s =>
        match Strptime.strptime_ymd (take_str 10 s) with
        | Ok (y, m) =>
            let match1 :=
              match df_year date_f with
              | Some fy => if negb (y =? fy) then false else true
              | None => true
              end in
            match df_month date_f with
            | Some fm => if negb (m =? fm) then false else match1
            | None => match1
            end
        | Raise _ => false
        end
    | _ => false
    end
  else false.

Definition date_descriptions (date_f : date_f) : result (list description) :=
  match df_month date_f, df_year date_f with
  | Some m, Some y =>
      name ← py_index month_names (m - 1); Ok [DescDate name y]
  | None, Some y => Ok [DescYear y]
  | _, None => Ok []
  end.

(** [d.get('mode', d.get('txnMode', '')).upper() == mode.upper()] *)
Definition mode_match (mode : string) (d : txn) : result bool :=
  u ← py_upper (get d "mode" (get d "txnMode" (PStr "")));
  Ok (String.eqb u (upper mode)).

(** [txn_type in d.get('pk_GSI_1', '')] *)
Definition type_match (txn_type : string) (d : txn) : result bool :=
  py_contains txn_type (get d "pk_GSI_1" (PStr "")).

(** [float(d.get('amount', 0))] *)
Definition amount_of (d : txn) : result float :=
  py_float (get d "amount" (PInt 0)).
(** [min_amt <= float(d.get('amount', 0)) <= max_amt] *)
Definition range_match (min_amt max_amt : float) (d : txn) : result bool :=
  a ← amount_of d; Ok (fle min_amt a && fle a max_amt).

(** [float(d.get('amount', 0)) > threshold] *)
Definition above_match (threshold : float) (d : txn) : result bool :=
  a ← amount_of d; Ok (flt threshold a).

(** [float(d.get('amount', 0)) < threshold] *)
Definition below_match (threshold : float) (d : txn) : result bool :=
  a ← amount_of d; Ok (flt a threshold).

(** [d.get('accountId', d.get('accountNumber', '')).lower() == acc_id.lower()] *)
Definition account_match (acc_id : string) (d : txn) : result bool :=
  l ← py_lower (get d "accountId" (get d "accountNumber" (PStr "")));
  Ok (String.eqb l (lower acc_id)).

(** [r'\b' + r'\s+'.join(re.escape(word) for word in name_words) + r'\b'],
    compiled with [re.IGNORECASE]. *)
Fixpoint join_words (ws : list string) : Re.regex :=
  match ws with
  | [] => Re.Eps
  | [w] => Re.lit_i w
  | w :: ws' => Re.Seq (Re.lit_i w) (Re.Seq (Re.plus Re.space) (join_words ws'))
  end.

Definition name_pattern (name_words : list string) : Re.regex :=
  Re.Seq Re.Bnd (Re.Seq (join_words name_words) Re.Bnd).

(** [name.lower() in narration.lower()] *)
Definition loose_name_match (name : string) (narration : pyval) : result bool :=
  l ← py_lower narration; Ok (str_in (lower name) l).

(** The body of the strict loop for one record. *)
Definition strict_name_match_doc (name : string) (d : txn) : result bool :=
  let narration := get d "narration" (PStr "") in
  let name_words := split_ws name in
  if (2 <=? length name_words)%nat then
    match narration with
    | PStr s => Ok (Re.found (name_pattern name_words) s)
    | _ => Raise TypeError
    end
  else loose_name_match name narration.

Definition loose_name_match_doc (name : string) (d : txn) : result bool :=
  loose_name_match name (get d "narration" (PStr "")).

(** The stages of [apply_filters], in the order of the source.  Each one
    takes the list filtered so far and gives the new list and the
    descriptions that it appends. *)
Definition stage : Type := list txn -> result (list txn * list description).

(** A record passes a test when the test returns [True] on it. *)
Definition passes (p : txn -> result bool) (d : txn) : Prop := p d = Ok true.

(** A stage whose filter is not set. *)
Definition skip : stage := fun filtered => Ok (filtered, []).

(** A stage whose filter is set: the comprehension on the test [p], then
    the descriptions [ds] that the stage appends. *)
Definition filter_stage (p : txn -> result bool) (ds : result (list description))
    : stage := fun filtered =>
  new ← rfilter p filtered; d ← ds; Ok (new, d).

Definition date_stage (f : filters) : stage :=
  match get_date (date_filter f) with
  | Some date_f =>
      filter_stage (fun d => Ok (date_match date_f d)) (date_descriptions date_f)
  | None => skip
  end.

Definition mode_stage (f : filters) : stage :=
  match get_str (mode f) with
  | Some mode => filter_stage (mode_match mode) (Ok [DescMode mode])
  | None => skip
  end.

Definition type_stage (f : filters) : stage :=
  match get_str (type f) with
  | Some txn_type => filter_stage (type_match txn_type) (Ok [DescType txn_type])
  | None => skip
  end.

(** The [if]/[elif]/[elif] on the three amount fields.  The tests are the
    truth values of [filters.get(...)]: a threshold equal to zero does not
    select its branch. *)
Definition amount_stage (f : filters) : stage :=
  match amount_range f with
  | Some (min_amt, max_amt) =>
      filter_stage (range_match min_amt max_amt)
        (Ok [DescAmountRange min_amt max_amt])
  | None =>
      match get_num (amount_above f) with
      | Some threshold =>
          filter_stage (above_match threshold) (Ok [DescAmountAbove threshold])
      | None =>
          match get_num (amount_below f) with
          | Some threshold =>
              filter_stage (below_match threshold) (Ok [DescAmountBelow threshold])
          | None => skip
          end
      end
  end.

Definition account_stage (f : filters) : stage :=
  match get_str (account_id f) with
  | Some acc_id => filter_stage (account_match acc_id) (Ok [DescAccount acc_id])
  | None => skip
  end.

Definition person_stage (f : filters) : stage :=
  match get_str (person_name f) with
  | Some name =>
      if strict_name_match f
      then filter_stage (strict_name_match_doc name) (Ok [DescExactName name])
      else filter_stage (loose_name_match_doc name) (Ok [DescPerson name])
  | None => skip
  end.

(** Runs a stage after the ones whose result is [acc]. *)
Definition then_stage (acc : result (list txn * list description)) (s : stage)
    : result (list txn * list description) :=
  match acc with
  | Ok (filtered, descriptions) =>
      match s filtered with
      | Ok (new, ds) => Ok (new, (descriptions ++ ds)%list)
      | Raise e => Raise e
      end
  | Raise e => Raise e
  end.

Definition stages (f : filters) : list stage :=
  [date_stage f; mode_stage f; type_stage f; amount_stage f;
   account_stage f; person_stage f].

(** [apply_filters(documents, filters, question)]; the question is not
    read by the function. *)
Definition apply_filters (documents : list txn) (f : filters) (question : string)
    : result (list txn * list description) :=
  fold_left then_stage (stages f) (Ok (documents, [])).

(** ** The Filter Extractor ([extract_filters_from_query]) *)

Section Extractor.
Import Re.

(** [months_hindi], in the insertion order of the dictionary. *)
Definition months_hindi : list (string * Z) :=
  [("january", 1); ("jan", 1); ("जनवरी", 1);
   ("february", 2); ("feb", 2); ("फरवरी", 2);
   ("march", 3); ("mar", 3); ("मार्च", 3);
   ("april", 4); ("apr", 4); ("अप्रैल", 4);
   ("may", 5); ("मई", 5);
   ("june", 6); ("jun", 6); ("जून", 6);
   ("july", 7); ("jul", 7); ("जुलाई", 7);
   ("august", 8); ("aug", 8); ("अगस्त", 8);
   ("september", 9); ("sep", 9); ("सितंबर", 9);
   ("october", 10); ("oct", 10); ("अक्टूबर", 10);
   ("november", 11); ("nov", 11); ("नवंबर", 11);
   ("december", 12); ("dec", 12); ("दिसंबर", 12)].

(** [rf'{month_name}\s*(\d{{4}})'] *)
Definition month_year_pattern (month_name : string) : regex :=
  seqs [lit month_name; star space; Grp (times 4 digit)].

(** [int(m.group(1))] *)
Definition group1_int (m : rmatch) : option Z :=
  match groups m with
  | g :: _ => Some (digits_val g 0)
  | [] => None
  end.

(** The loop over [months_hindi]: it stops at the first name found. *)
Fixpoint extract_month (months : list (string * Z)) (question_lower : string)
    : option date_f :=
  match months with
  | [] => None
  | (month_name, month_num) :: months' =>
      if str_in month_name question_lower
      then
        let year_match := search (month_year_pattern month_name) question_lower in
        Some (DateF (year_match ≫= group1_int) (Some month_num))
      else extract_month months' question_lower
  end.

(** [r'\b(20\d{2})\b'] *)
Definition year_pattern : regex :=
  seqs [Bnd; Grp (Seq (lit "20") (times 2 digit)); Bnd].

Definition extract_date (question_lower : string) : option date_f :=
  let date_filter := extract_month months_hindi question_lower in
  if negb (bool_decide (is_Some (get_date date_filter)))
  then
    match search year_pattern question_lower with
    | Some year_match => Some (DateF (group1_int year_match) None)
    | None => date_filter
    end
  else date_filter.

Definition one_of (cs : string) (c : ascii) : bool :=
  str_in (String c EmptyString) cs.

(** [r'\d+(?:,\d+)*(?:\.\d+)?[kKlL]?'] *)
Definition number_pattern : regex :=
  seqs [plus digit;
        star (Seq (lit ",") (plus digit));
        opt (Seq (lit ".") (plus digit));
        opt (Chr (one_of "kKlL"))].

(** [r'^202[0-9]$'], used with [re.match] *)
Definition year_token_pattern : regex :=
  seqs [lit "202"; Strptime.range "0" "9"; Eol].

(** The body of the loop over [all_numbers_raw]: the amount that the
    token stands for, or [None] when the token is skipped. *)
Definition process_number (num_str : string) : option float :=
  let num_clean := lower (remove_char "," num_str) in
  if bool_decide (is_Some (rematch year_token_pattern num_clean)) then None
  else if str_in "k" num_clean
    then (fun v => fmul v (Fin 1000)) <$> float_of_str (remove_char "k" num_clean)
  else if str_in "l" num_clean
    then (fun v => fmul v (Fin 100000)) <$> float_of_str (remove_char "l" num_clean)
  else float_of_str num_clean.

Definition amounts_processed (question_lower : string) : list float :=
  omap process_number (findall number_pattern question_lower).

Definition above_words : list string :=
  ["above"; "greater than"; "more than"; "over"; "zyada"; "se zyada"].
Definition below_words : list string :=
  ["below"; "less than"; "under"; "kam"; "se kam"].

(** A token of [all_numbers_raw] starts with a digit. *)
Definition starts_with_digit (s : string) : Prop :=
  match s with
  | EmptyString => True
  | String c _ => is_digit c = true
  end.

(** The three amount fields [(amount_above, amount_below, amount_range)]. *)
Definition extract_amounts (question_lower : string)
    : option float * option float * option (float * float) :=
  let amounts := amounts_processed question_lower in
  if str_in "between" question_lower && (2 <=? length amounts)%nat then
    match amounts with
    | min_amt :: max_amt :: _ =>
        if flt max_amt min_amt
        then (None, None, Some (max_amt, min_amt))
        else (None, None, Some (min_amt, max_amt))
    | _ => (None, None, None)
    end
  else if any_in above_words question_lower then
    match amounts with
    | a :: _ => (Some a, None, None)
    | [] => (None, None, None)
    end
  else if any_in below_words question_lower then
    match amounts with
    | a :: _ => (None, Some a, None)
    | [] => (None, None, None)
    end
  else (None, None, None).

Definition modes : list string :=
  ["UPI"; "CASH"; "NEFT"; "IMPS"; "RTGS"; "DEBIT CARD"; "CREDIT CARD"].

Definition extract_mode (question_lower : string) : option string :=
  List.find (fun mode => str_in (lower mode) question_lower) modes.

Definition extract_type (question_lower : string) : option string :=
  if any_in ["credit"; "credited"; "क्रेडिट"] question_lower then Some "CREDIT"
  else if any_in ["debit"; "debited"; "डेबिट"] question_lower then Some "DEBIT"
  else None.

Definition hex : regex := Chr is_hex_lower.

(** [r'[0-9a-f]{8}-[0-9a-f]{4}-[0-9a-f]{4}-[0-9a-f]{4}-[0-9a-f]{12}'] *)
Definition account_pattern : regex :=
  seqs [times 8 hex; lit "-"; times 4 hex; lit "-"; times 4 hex; lit "-";
        times 4 hex; lit "-"; times 12 hex].

Definition is_account_char (c : ascii) : bool :=
  is_lower c || is_upper c || is_digit c || is_char "-" c.

(** [r'(?:account|acc|खाता)\s*(?:number|no|#)?\s*[:=]?\s*([a-zA-Z0-9\-]+)'] *)
Definition account_keyword_pattern : regex :=
  seqs [alts [lit "account"; lit "acc"; lit "खाता"];
        star space;
        opt (alts [lit "number"; lit "no"; lit "#"]);
        star space;
        opt (Chr (one_of ":="));
        star space;
        Grp (plus (Chr is_account_char))].

Definition group1 (m : rmatch) : option string := head (groups m).

Definition extract_account (question_lower : string) : option string :=
  match search account_pattern question_lower with
  | Some account_match => Some (group0 account_match)
  | None => search account_keyword_pattern question_lower ≫= group1
  end.

Definition prepositions : regex :=
  alts [lit "by"; lit "from"; lit "to"; lit "with"; lit "se"; lit "ko";
        lit "द्वारा"].

(** [[A-Z][a-z]+] *)
Definition capitalized : regex := Seq (Chr is_upper) (plus (Chr is_lower)).

(** [r'(?:by|from|to|with|se|ko|द्वारा)\s+([A-Z][a-z]+(?:\s+[A-Z][a-z]+)+)'] *)
Definition full_name_pattern : regex :=
  seqs [prepositions; plus space;
        Grp (Seq capitalized (plus (Seq (plus space) capitalized)))].

(** [r'(?:by|from|to|with|se|ko|द्वारा)\s+([A-Z][a-z]+)'] *)
Definition single_name_pattern : regex :=
  seqs [prepositions; plus space; Grp capitalized].

(** [(person_name, strict_name_match)].  Only the first element of each
    [re.findall] is read, which is the group of the leftmost match. *)
Definition extract_person (question : string) : option string * bool :=
  match search full_name_pattern question ≫= group1 with
  | Some name => (Some (strip name), true)
  | None =>
      match search single_name_pattern question ≫= group1 with
      | Some name => (Some (strip name), false)
      | None => (None, false)
      end
  end.

Definition extract_filters_from_query (question : string) : filters :=
  let question_lower := lower question in
  let '(above, below, range) := extract_amounts question_lower in
  let '(person, strict) := extract_person question in
  {| amount_above := above;
     amount_below := below;
     amount_range := range;
     date_filter := extract_date question_lower;
     mode := extract_mode question_lower;
     type := extract_type question_lower;
     account_id := extract_account question_lower;
     person_name := person;
     strict_name_match := strict |}.

End Extractor.

(** ** The Mode Classifier ([detect_query_mode]) *)

Inductive query_mode : Type := VECTOR_SEARCH | SMART_FULL | STATISTICAL.

(** The rule of the cascade whose [return] is taken. *)
Inductive rule : Type :=
| Counting      (* priority 1 *)
| AccountList   (* priority 2 *)
| Statistics    (* priority 3 *)
| FullScan      (* priority 4 *)
| DatePeriod    (* priority 5 *)
| Analytical    (* priority 6 *)
| Default.

Section Classifier.
Import Re.

Definition counting_words : regex :=
  Grp (alts [lit "how many"; lit "kitne"; lit "count"; lit "total"]).

Definition hindi_how_many : regex := Grp (alts [lit "कितने"; lit "कितनी"]).

Definition transaction_word : regex := Grp (alts [lit "transaction"; lit "ट्रांज"]).

Definition counting_patterns : list regex :=
  [ (* r'\b(how many|kitne|count|total)\s+.*?transaction' *)
    seqs [Bnd; counting_words; plus space; lazy_star dot; lit "transaction"];
    (* r'transaction.*?\b(how many|kitne|count|total)' *)
    seqs [lit "transaction"; lazy_star dot; Bnd; counting_words];
    (* r'\b(कितने|कितनी)\s+.*?(transaction|ट्रांज)' *)
    seqs [Bnd; hindi_how_many; plus space; lazy_star dot; transaction_word];
    (* r'(transaction|ट्रांज).*?\b(कितने|कितनी)' *)
    seqs [transaction_word; lazy_star dot; Bnd; hindi_how_many];
    (* r'\b(how|kitne)\s+many\b' *)
    seqs [Bnd; Grp (alts [lit "how"; lit "kitne"]); plus space; lit "many"; Bnd];
    (* r'\bnumber of\s+transaction' *)
    seqs [Bnd; lit "number of"; plus space; lit "transaction"] ].

Definition is_counting (question_lower : string) : bool :=
  existsb (fun pattern => found pattern question_lower) counting_patterns.

(** [r'\b(account|acc|खाता)\s*(?:number|no|#)?\b'] *)
Definition account_word_pattern : regex :=
  seqs [Bnd; Grp (alts [lit "account"; lit "acc"; lit "खाता"]);
        star space;
        opt (alts [lit "number"; lit "no"; lit "#"]);
        Bnd].

Definition exclude_patterns : list regex :=
  [ seqs [lit "account"; star space; lit "number"];
    seqs [lit "transaction"; star space; lit "number"];
    seqs [lit "reference"; star space; lit "number"] ].

Definition stats_keywords : list string :=
  ["total amount"; "sum of"; "average amount"; "count of";
   "how many transactions"; "kitne transactions"].

Definition full_scan_keywords : list string :=
  ["all"; "saari"; "sabhi"; "sab"; "every"; "show me"; "dikhao";
   "list"; "display"; "between"; "above"; "below"; "largest"; "smallest"].

(** [r'\b(january|february|...|december)\b'] *)
Definition month_pattern : regex :=
  seqs [Bnd;
        Grp (alts (List.map lit
          ["january"; "february"; "march"; "april"; "may"; "june"; "july";
           "august"; "september"; "october"; "november"; "december"]));
        Bnd].

Definition analytical_keywords : list string :=
  ["summarize"; "summarise"; "summary"; "analyze"; "analyse"; "analysis";
   "insights"; "patterns"; "trends"; "overview"; "explain"; "tell me about";
   "what happened"; "describe"; "understand"; "help me"; "guide"; "advice";
   "recommend"; "suggest"; "why"; "how"; "when"; "where"; "what";
   "batao"; "samjhao"; "bataiye"; "explain karo"; "kya hua"].

(** The cascade of [detect_query_mode]: the first test that holds decides. *)
Definition fired_rule (question : string) : rule :=
  let question_lower := lower question in
  if is_counting question_lower then Counting
  else
    let has_account := found account_pattern question_lower in
    let has_account_keyword := found account_word_pattern question_lower in
    if (has_account || has_account_keyword)
       && any_in ["transaction"; "saari"; "all"; "list"; "dikhao"] question_lower
    then AccountList
    else
      let is_excluded :=
        existsb (fun pattern => found pattern question_lower) exclude_patterns in
      if negb is_excluded && any_in stats_keywords question_lower
      then Statistics
      else if any_in full_scan_keywords question_lower then FullScan
      else
        let has_year := found year_pattern question_lower in
        let has_month := found month_pattern question_lower in
        if (has_year || has_month) && str_in "transaction" question_lower
        then DatePeriod
        else if any_in analytical_keywords question_lower then Analytical
        else Default.

(** The value that each [return] of the cascade gives. *)
Definition mode_of_rule (r : rule) : query_mode :=
  match r with
  | Counting => VECTOR_SEARCH
  | AccountList => SMART_FULL
  | Statistics => STATISTICAL
  | FullScan => SMART_FULL
  | DatePeriod => SMART_FULL
  | Analytical => VECTOR_SEARCH
  | Default => VECTOR_SEARCH
  end.

(** [detect_query_mode(question, documents)]; the documents are not read. *)
Definition detect_query_mode (question : string) (documents : list txn)
    : query_mode :=
  mode_of_rule (fired_rule question).

End Classifier.

(** ** The Statistics Calculator ([calculate_statistics]) *)

(** The dictionary of the statistics; [max_amount] and [min_amount] are its
    keys [max] and [min]. *)
Record statistics : Type := Stats {
  count : nat;
  total : float;
  average : float;
  max_amount : float;
  min_amount : float
}.

Definition zero_statistics : statistics :=
  Stats 0 (Fin 0%Q) (Fin 0%Q) (Fin 0%Q) (Fin 0%Q).

(** [sum(l)]: the items are added one by one, from the left, to the
    integer 0, and every addition rounds (the plain summation of the
    interpreters up to 3.11). *)
Definition fsum (l : list float) : float := fold_left fadd l (Fin 0%Q).

(** [max(l)] and [min(l)] on a list that is not empty: the first item, then
    each item that is greater (smaller) than the one kept so far; and the
    [else 0] of the source on the empty list. *)
Definition fmaximum (l : list float) : float :=
  match l with
  | [] => Fin 0%Q
  | x :: l' => fold_left (fun m y => if flt m y then y else m) l' x
  end.

Definition fminimum (l : list float) : float :=
  match l with
  | [] => Fin 0%Q
  | x :: l' => fold_left (fun m y => if flt y m then y else m) l' x
  end.

Definition calculate_statistics (documents : list txn) (f : filters)
    : result statistics :=
  '(filtered_docs, _) ← apply_filters documents f "";
  match filtered_docs with
  | [] => Ok zero_statistics
  | _ =>
      amounts ← rmap amount_of filtered_docs;
      Ok {| count := length filtered_docs;
            total := fsum amounts;
            average := fdiv_nat (fsum amounts) (length amounts);
            max_amount := fmaximum amounts;
            min_amount := fminimum amounts |}
  end.

(** ** The Query Cache ([app/utils/cache.py]) *)

(** A [datetime] is a number of microseconds; so is a [timedelta]. *)
Definition CACHE_TTL_MINUTES : Z := 30.

Definition timedelta_minutes (m : Z) : Z := m * 60 * 1000000.

Record cache_data : Type := CacheData {
  c_answer : string;
  c_mode : query_mode;
  c_filtered_docs : list txn;
  c_filters_applied : option (list description);
  c_statistics : option statistics;
  c_timestamp : Z
}.

(** [query_cache] *)
Abbreviation cache := (gmap string cache_data).

(** [timedelta(minutes=settings.CACHE_TTL_MINUTES)] *)
Definition TTL : Z := timedelta_minutes CACHE_TTL_MINUTES.

(** [current_time - cache_data["timestamp"] > timedelta(minutes=TTL)] *)
Definition expired (current_time : Z) (e : cache_data) : bool :=
  TTL <? current_time - c_timestamp e.

(** [cleanup_expired_cache()], run when the clock shows [current_time]. *)
Definition cleanup_expired_cache (current_time : Z) (query_cache : cache) : cache :=
  let expired_keys :=
    (List.filter (fun item => expired current_time item.2)
       (map_to_list query_cache)).*1 in
  foldr delete query_cache expired_keys.

(** [get_cached_query(query_id)].  The clock is read twice: by the sweep
    ([t_sweep]) and by the test of the entry ([t_check]).  The result is the
    entry, if any, and the cache that the call leaves. *)
Definition get_cached_query (t_sweep t_check : Z) (query_id : string)
    (query_cache : cache) : option cache_data * cache :=
  let query_cache := cleanup_expired_cache t_sweep query_cache in
  match query_cache !! query_id with
  | Some e =>
      if t_check - c_timestamp e <=? TTL
      then (Some e, query_cache)
      else (None, delete query_id query_cache)
  | None => (None, query_cache)
  end.

(** [cache_query_results(...)], run when the clock shows [now]. *)
Definition cache_query_results (now : Z) (query_id : string) (answer : string)
    (mode : query_mode) (filtered_docs : list txn)
    (filters_applied : option (list description))
    (statistics : option statistics) (query_cache : cache) : cache :=
  <[query_id := CacheData answer mode filtered_docs filters_applied statistics now]>
    query_cache.

(** ** Sorting and pagination *)

(** [sorted(docs, key=lambda x: float(x.get('amount', 0)), reverse=True)]:
    the keys are computed first, then the sort is stable: records of equal
    keys keep their order.  On keys without NaN this fixes the result, which
    the insertion sort below computes.  A NaN compares false with every
    key; what the merge sort of the interpreter leaves then depends on the
    runs it finds, and of that result the model only keeps that it is a
    permutation of the records. *)
Fixpoint insert_desc {A : Type} (x : float * A) (l : list (float * A))
    : list (float * A) :=
  match l with
  | [] => [x]
  | y :: l' => if flt x.1 y.1 then y :: insert_desc x l' else x :: l
  end.

Definition sort_desc {A : Type} (l : list (float * A)) : list (float * A) :=
  foldr insert_desc [] l.

Definition sorted_by_amount (docs : list txn) : result (list txn) :=
  keyed ← rmap (fun d => a ← amount_of d; Ok (a, d)) docs;
  Ok (sort_desc keyed).*2.

(** A list of keyed records in descending order of the keys. *)
Inductive descending {A : Type} : list (float * A) -> Prop :=
| desc_nil : descending []
| desc_one x : descending [x]
| desc_cons x y l :
    fle y.1 x.1 = true -> descending (y :: l) -> descending (x :: y :: l).

(** The keys of a list are numbers. *)
Definition no_nan {A : Type} (l : list (float * A)) : Prop :=
  Forall (fun kd => is_nan kd.1 = false) l.

(** The amount of a record is a number: [float] reads it and does not
    give a NaN. *)
Definition amount_is_number (d : txn) : Prop :=
  exists a, amount_of d = Ok a /\ is_nan a = false.

(** [l[start:stop]] for indices that are not negative. *)
Definition slice {A : Type} (l : list A) (start stop : nat) : list A :=
  take (stop - start) (drop start l).

Record pagination : Type := Pagination {
  page : nat;
  page_size : nat;
  total_items : nat;
  total_pages : nat;
  has_next : bool;
  has_prev : bool
}.

Definition start_idx (page page_size : nat) : nat := ((page - 1) * page_size)%nat.
Definition end_idx (page page_size : nat) : nat :=
  (start_idx page page_size + page_size)%nat.

(** The dictionary that the endpoints put under [pagination]. *)
Definition pagination_of (page page_size n : nat) : pagination :=
  {| page := page;
     page_size := page_size;
     total_items := n;
     total_pages := ((n + page_size - 1) / page_size)%nat;
     has_next := (end_idx page page_size <? n)%nat;
     has_prev := (1 <? page)%nat |}.

(** [sorted_docs[start_idx:end_idx]] *)
Definition paginate {A : Type} (sorted_docs : list A) (page page_size : nat) : list A :=
  slice sorted_docs (start_idx page page_size) (end_idx page page_size).

(** ** The Retrieval Orchestrator: the [/prompt] endpoint *)

(** [PromptRequest].  Pydantic keeps [page >= 1] and [1 <= page_size <= 100]. *)
Record request : Type := Request {
  req_prompt : string;
  req_page : nat;
  req_page_size : nat;
  req_show_all : bool;
  req_use_full_data : option bool;
  req_query_id : option string
}.

(** [RAGResponse], for a type [T] of formatted transactions. *)
Record response (T : Type) : Type := Response {
  r_query_id : string;
  r_mode : query_mode;
  r_matching_transactions_count : nat;
  r_filters_applied : option (list description);
  r_answer : string;
  r_transactions : option (list T);
  r_pagination : option pagination;
  r_statistics : option statistics
}.

Arguments Response {T}.
Arguments r_query_id {T}.
Arguments r_mode {T}.
Arguments r_matching_transactions_count {T}.
Arguments r_filters_applied {T}.
Arguments r_answer {T}.
Arguments r_transactions {T}.
Arguments r_pagination {T}.
Arguments r_statistics {T}.

(** The three readings of the clock that one request can make: two in
    [get_cached_query], one in [cache_query_results]. *)
Record clock : Type := Clock {
  t_sweep : Z;
  t_check : Z;
  t_put : Z
}.

(** The collaborators of the endpoint. *)
Record collaborators (T : Type) : Type := Collaborators {
  (* hashlib.md5 of the prompt and of the JSON text of the filters *)
  generate_query_id : string -> filters -> string;
  (* the TransactionInfo constructor behind format_transaction_for_api *)
  format_transaction_for_api : txn -> result T;
  (* the f-strings of process_statistical_query *)
  statistics_text : string -> statistics -> list description -> string;
  (* the text generator behind generate_conversational_answer *)
  generate_conversational_answer :
    string -> list txn -> filters -> list description -> bool -> result string;
  (* the text generator behind process_analytical_query *)
  process_analytical_query : list txn -> string -> result string;
  (* the similarity index and the text generator *)
  process_vector_search_query : string -> nat -> result string
}.

Arguments generate_query_id {T}.
Arguments format_transaction_for_api {T}.
Arguments statistics_text {T}.
Arguments generate_conversational_answer {T}.
Arguments process_analytical_query {T}.
Arguments process_vector_search_query {T}.

Section Orchestrator.
Context {T : Type} (env : collaborators T).

(** [RAGService.process_statistical_query] *)
Definition process_statistical_query (documents : list txn) (prompt : string)
    : result (string * statistics * list description * nat) :=
  let filters := extract_filters_from_query prompt in
  stats ← calculate_statistics documents filters;
  '(filtered_docs, filter_desc) ← apply_filters documents filters prompt;
  Ok (statistics_text env prompt stats filter_desc, stats, filter_desc,
      length filtered_docs).

(** [RAGService.process_smart_full_query] *)
Definition process_smart_full_query (documents : list txn) (prompt : string)
    (show_all : bool) : result (string * list txn * list description) :=
  let filters := extract_filters_from_query prompt in
  '(filtered_docs, filter_descriptions) ← apply_filters documents filters prompt;
  answer ← generate_conversational_answer env prompt filtered_docs filters
             filter_descriptions show_all;
  Ok (answer, filtered_docs, filter_descriptions).

(** The block [if request.show_all and filtered_docs: ...] that fills
    [transactions] and [pagination]. *)
Definition paginate_results (req : request) (filtered_docs : list txn)
    : result (option (list T) * option pagination) :=
  if req_show_all req && bool_decide (filtered_docs ≠ []) then
    sorted_docs ← sorted_by_amount filtered_docs;
    let paginated_docs := paginate sorted_docs (req_page req) (req_page_size req) in
    transactions ← rmap (format_transaction_for_api env) paginated_docs;
    Ok (Some transactions,
        Some (pagination_of (req_page req) (req_page_size req)
                (length filtered_docs)))
  else Ok (None, None).

(** The counting patterns of the endpoint: those of the classifier but
    the fifth. *)
Definition endpoint_counting_patterns : list Re.regex :=
  match counting_patterns with
  | [p1; p2; p3; p4; _; p6] => [p1; p2; p3; p4; p6]
  | _ => []
  end.

Definition endpoint_is_analytical (prompt : string) : bool :=
  let is_analytical :=
    any_in ["summarize"; "summarise"; "summary"; "analyze"; "analyse";
            "overview"; "insights"; "patterns"; "trends"] (lower prompt) in
  let is_counting_query :=
    existsb (fun pattern => Re.found pattern (lower prompt))
      endpoint_counting_patterns in
  is_analytical || is_counting_query.

(** The branch taken on a cache hit with [page > 1]. *)
Definition cached_response (req : request) (query_id : string)
    (cached_data : cache_data) : result (response T) :=
  let filtered_docs := c_filtered_docs cached_data in
  '(transactions, pagination) ← paginate_results req filtered_docs;
  Ok {| r_query_id := query_id;
        r_mode := c_mode cached_data;
        r_matching_transactions_count := length filtered_docs;
        r_filters_applied := c_filters_applied cached_data;
        r_answer := c_answer cached_data;
        r_transactions := transactions;
        r_pagination := pagination;
        r_statistics := c_statistics cached_data |}.

(** The rest of the [try] block: the full pipeline, which writes the
    cache.  The state is the cache. *)
Definition fresh_response (clk : clock) (req : request) (query_id : string)
    (filters : filters) (documents : list txn) (query_cache : cache)
    : result (response T) * cache :=
  let prompt := req_prompt req in
  let mode :=
    match req_use_full_data req with
    | Some true => SMART_FULL
    | Some false => VECTOR_SEARCH
    | None => detect_query_mode prompt documents
    end in
  match mode with
  | STATISTICAL =>
      match process_statistical_query documents prompt with
      | Ok (answer, stats, filter_desc, match_count) =>
          match apply_filters documents filters prompt with
          | Ok (filtered_docs, _) =>
              (Ok {| r_query_id := query_id;
                     r_mode := mode;
                     r_matching_transactions_count := match_count;
                     r_filters_applied := Some filter_desc;
                     r_answer := answer;
                     r_transactions := None;
                     r_pagination := None;
                     r_statistics := Some stats |},
               cache_query_results (t_put clk) query_id answer mode
                 filtered_docs (Some filter_desc) (Some stats) query_cache)
          | Raise e => (Raise e, query_cache)
          end
      | Raise e => (Raise e, query_cache)
      end
  | SMART_FULL =>
      match process_smart_full_query documents prompt (req_show_all req) with
      | Ok (answer, filtered_docs, filter_descriptions) =>
          let query_cache :=
            cache_query_results (t_put clk) query_id answer mode filtered_docs
              (Some filter_descriptions) None query_cache in
          ('(transactions, pagination) ← paginate_results req filtered_docs;
           Ok {| r_query_id := query_id;
                 r_mode := mode;
                 r_matching_transactions_count := length filtered_docs;
                 r_filters_applied := Some filter_descriptions;
                 r_answer := answer;
                 r_transactions := transactions;
                 r_pagination := pagination;
                 r_statistics := None |},
           query_cache)
      | Raise e => (Raise e, query_cache)
      end
  | VECTOR_SEARCH =>
      if endpoint_is_analytical prompt then
        match process_analytical_query env documents prompt with
        | Ok result =>
            (Ok {| r_query_id := query_id;
                   r_mode := mode;
                   r_matching_transactions_count := length documents;
                   r_filters_applied := None;
                   r_answer := result;
                   r_transactions := None;
                   r_pagination := None;
                   r_statistics := None |},
             cache_query_results (t_put clk) query_id result mode [] None None
               query_cache)
        | Raise e => (Raise e, query_cache)
        end
      else
        let k_value := Nat.min 50 (length documents) in
        (result ← process_vector_search_query env prompt k_value;
         Ok {| r_query_id := query_id;
               r_mode := mode;
               r_matching_transactions_count := k_value;
               r_filters_applied := None;
               r_answer := result;
               r_transactions := None;
               r_pagination := None;
               r_statistics := None |},
         query_cache)
  end.

(** [except Exception as e: raise HTTPException(status_code=500, ...)] *)
Definition internal_error {A : Type} (m : result A) : result A :=
  match m with
  | Ok a => Ok a
  | Raise _ => Raise (HTTPException 500)
  end.

(** [query_with_prompt(request)].  [models_ready] tells that the two
    models are set, [documents] is the ingested record set. *)
Definition query_with_prompt (models_ready : bool) (documents : list txn)
    (clk : clock) (req : request) (query_cache : cache)
    : result (response T) * cache :=
  if negb models_ready then (Raise (HTTPException 503), query_cache)
  else if negb (0 <? length documents)%nat
  then (Raise (HTTPException 400), query_cache)
  else
    let filters := extract_filters_from_query (req_prompt req) in
    let query_id :=
      match get_str (req_query_id req) with
      | Some query_id => query_id
      | None => generate_query_id env (req_prompt req) filters
      end in
    let '(cached_data, query_cache) :=
      get_cached_query (t_sweep clk) (t_check clk) query_id query_cache in
    match cached_data with
    | Some cached_data =>
        if (1 <? req_page req)%nat
        then (internal_error (cached_response req query_id cached_data),
              query_cache)
        else
          let '(r, c) := fresh_response clk req query_id filters documents
                           query_cache in
          (internal_error r, c)
    | None =>
        let '(r, c) := fresh_response clk req query_id filters documents
                         query_cache in
        (internal_error r, c)
    end.

End Orchestrator.


(** ** Sample data *)

(** A record, from the list of its fields. *)
Definition txn_of (fields : list (string * pyval)) : txn := list_to_map fields.

Definition txn_rent : txn :=
  txn_of [("txnId", PStr "T1"); ("amount", PInt 12000); ("mode", PStr "UPI");
          ("createdAt", PStr "2024-03-05T10:15:00");
          ("narration", PStr "Rent paid to Rahul Kumar");
          ("pk_GSI_1", PStr "TYPE#DEBIT")].

Definition txn_salary : txn :=
  txn_of [("txnId", PStr "T2"); ("amount", PFloat 50000.5%Q); ("mode", PStr "NEFT");
          ("createdAt", PStr "2024-03-01T09:00:00");
          ("narration", PStr "Salary for March");
          ("pk_GSI_1", PStr "TYPE#CREDIT")].

Definition txn_tea : txn :=
  txn_of [("txnId", PStr "T3"); ("amount", PInt 40); ("mode", PStr "UPI");
          ("createdAt", PStr "2024-02-28T17:30:00");
          ("narration", PStr "Tea stall");
          ("pk_GSI_1", PStr "TYPE#DEBIT")].

(** A reversed entry: its amount is zero. *)
Definition txn_reversal : txn :=
  txn_of [("txnId", PStr "T4"); ("amount", PInt 0); ("mode", PStr "UPI");
          ("createdAt", PStr "2024-03-07T12:00:00");
          ("narration", PStr "Reversal");
          ("pk_GSI_1", PStr "TYPE#CREDIT")].

(** A record whose amount is not a number. *)
Definition txn_unparsable : txn :=
  txn_of [("txnId", PStr "T5"); ("amount", PStr "abc"); ("mode", PStr "UPI");
          ("createdAt", PStr "2024-03-09T08:00:00");
          ("narration", PStr "Imported row");
          ("pk_GSI_1", PStr "TYPE#DEBIT")].

Definition sample_docs : list txn := [txn_rent; txn_salary; txn_tea].

Definition no_filters : filters :=
  {| amount_above := None; amount_below := None; amount_range := None;
     date_filter := None; mode := None; type := None; account_id := None;
     person_name := None; strict_name_match := false |}.

Definition above (t : float) : filters :=
  {| amount_above := Some t; amount_below := None; amount_range := None;
     date_filter := None; mode := None; type := None; account_id := None;
     person_name := None; strict_name_match := false |}.

Definition below (t : float) : filters :=
  {| amount_above := None; amount_below := Some t; amount_range := None;
     date_filter := None; mode := None; type := None; account_id := None;
     person_name := None; strict_name_match := false |}.

(** The Filter Set of the prompt of the worked example of the design notes. *)
Definition march_upi_question : string :=
  "show me all transactions above 5000 in March 2024 by UPI".

Definition march_upi_filters : filters :=
  {| amount_above := Some (Fin 5000%Q); amount_below := None; amount_range := None;
     date_filter := Some (DateF (Some 2024) (Some 3));
     mode := Some "UPI"; type := None; account_id := None;
     person_name := None; strict_name_match := false |}.

Definition march_upi_descriptions : list description :=
  [DescDate "Mar" 2024; DescMode "UPI"; DescAmountAbove (Fin 5000%Q)].

(** The months for which [month_names[month - 1]] is defined. *)
Definition month_in_range (f : filters) : Prop :=
  match get_date (date_filter f) with
  | Some (DateF (Some _) (Some m)) => -11 <= m <= 12
  | _ => True
  end.

(** A record whose time stamp is not a date. *)
Definition txn_bad_date : txn :=
  txn_of [("txnId", PStr "T6"); ("amount", PInt 75); ("createdAt", PStr "05/03/2024")].

(** A record whose mode is the JSON [null]. *)
Definition txn_null_mode : txn :=
  txn_of [("txnId", PStr "T7"); ("amount", PInt 75); ("mode", PNone)].

Definition upi_filters : filters :=
  {| amount_above := None; amount_below := None; amount_range := None;
     date_filter := None; mode := Some "UPI"; type := None; account_id := None;
     person_name := None; strict_name_match := false |}.

Definition range_question : string :=
  "Show debits between 30k and 10,000 that are above average but below my limit".

(** ** Word boundaries in a text *)

(** The last character of [s], or [pv] when [s] is empty. *)
Fixpoint last_char (pv : option ascii) (s : string) : option ascii :=
  match s with
  | EmptyString => pv
  | String a s' => last_char (Some a) s'
  end.



(** ** A sample run of the endpoint *)

(** Collaborators that answer with fixed texts; the digest of a query is
    its prompt. *)
Definition sample_env : collaborators txn :=
  {| generate_query_id := fun prompt _ => prompt;
     format_transaction_for_api := fun d => Ok d;
     statistics_text := fun _ _ _ => "statistics";
     generate_conversational_answer := fun _ _ _ _ _ => Ok "fresh answer";
     process_analytical_query := fun _ _ => Ok "fresh analysis";
     process_vector_search_query := fun _ _ => Ok "fresh search" |}.

(** The entry that a first request left in the cache at the instant 0. *)
Definition cached_entry : cache_data :=
  {| c_answer := "cached answer";
     c_mode := SMART_FULL;
     c_filtered_docs := [txn_rent];
     c_filters_applied := Some march_upi_descriptions;
     c_statistics := None;
     c_timestamp := 0 |}.

Definition sample_cache : cache := {[ march_upi_question := cached_entry ]}.

(** The same store with a second entry of the same age. *)
Definition two_entry_cache : cache :=
  <[ "another question" := cached_entry ]> sample_cache.

(** One minute later. *)
Definition sample_clock : clock :=
  {| t_sweep := 60000000; t_check := 60000000; t_put := 60000001 |}.

Definition request_page (p : nat) : request :=
  {| req_prompt := march_upi_question;
     req_page := p;
     req_page_size := 20;
     req_show_all := true;
     req_use_full_data := None;
     req_query_id := None |}.

(** The key under which the endpoint looks the request up. *)
Definition request_key {T : Type} (env : collaborators T) (req : request) : string :=
  match get_str (req_query_id req) with
  | Some query_id => query_id
  | None =>
      generate_query_id env (req_prompt req)
        (extract_filters_from_query (req_prompt req))
  end.

(** ** The tests of the Filter Applicator, one by one *)

(** The test of a stage whose filter is not set. *)
Definition no_test : txn -> result bool := fun _ => Ok true.

Definition date_test (f : filters) : txn -> result bool :=
  match get_date (date_filter f) with
  | Some date_f => fun d => Ok (date_match date_f d)
  | None => no_test
  end.

Definition mode_test (f : filters) : txn -> result bool :=
  match get_str (mode f) with
  | Some mode => mode_match mode
  | None => no_test
  end.

Definition type_test (f : filters) : txn -> result bool :=
  match get_str (type f) with
  | Some txn_type => type_match txn_type
  | None => no_test
  end.

Definition amount_test (f : filters) : txn -> result bool :=
  match amount_range f with
  | Some (min_amt, max_amt) => range_match min_amt max_amt
  | None =>
      match get_num (amount_above f) with
      | Some threshold => above_match threshold
      | None =>
          match get_num (amount_below f) with
          | Some threshold => below_match threshold
          | None => no_test
          end
      end
  end.

Definition account_test (f : filters) : txn -> result bool :=
  match get_str (account_id f) with
  | Some acc_id => account_match acc_id
  | None => no_test
  end.

Definition person_test (f : filters) : txn -> result bool :=
  match get_str (person_name f) with
  | Some name =>
      if strict_name_match f then strict_name_match_doc name
      else loose_name_match_doc name
  | None => no_test
  end.

(** The tests that [apply_filters] makes on a record, in the order of its
    stages. *)
Definition active_tests (f : filters) : list (txn -> result bool) :=
  [date_test f; mode_test f; type_test f; amount_test f;
   account_test f; person_test f].

(** The test returns [True] on the record. *)
Definition holds (p : txn -> result bool) (d : txn) : bool :=
  match p d with
  | Ok true => true
  | _ => false
  end.

Definition passes_all (f : filters) (d : txn) : bool :=
  forallb (fun p => holds p d) (active_tests f).

(** ** Records whose fields have the types that the stages read *)

Definition is_str (v : pyval) : bool :=
  match v with PStr _ => true | _ => false end.

(** The amount is a number (or a text that [float] reads), and the mode,
    the type tag, the account and the narration are texts, or are missing. *)
Definition well_typed (d : txn) : bool :=
  is_ok (amount_of d)
  && is_str (get d "mode" (get d "txnMode" (PStr "")))
  && is_str (get d "pk_GSI_1" (PStr ""))
  && is_str (get d "accountId" (get d "accountNumber" (PStr "")))
  && is_str (get d "narration" (PStr "")).

(** ** Filter Sets that differ in the amount thresholds only *)

Definition with_thresholds (f : filters) (a b : option float) : filters :=
  {| amount_above := a; amount_below := b; amount_range := amount_range f;
     date_filter := date_filter f; mode := mode f; type := type f;
     account_id := account_id f; person_name := person_name f;
     strict_name_match := strict_name_match f |}.

Definition with_below (f : filters) (b : option float) : filters :=
  with_thresholds f (amount_above f) b.

(** The Filter Set of a question that names a month and nothing else. *)
Definition month_only (m : Z) : filters :=
  {| amount_above := None; amount_below := None; amount_range := None;
     date_filter := Some (DateF None (Some m)); mode := None; type := None;
     account_id := None; person_name := None; strict_name_match := false |}.

(** ** The sample of the analytical digest ([process_analytical_query]) *)

(** [hash(v)] is defined: lists and dictionaries are not hashable. *)
Definition hashable (v : pyval) : bool :=
  match v with
  | PList _ | PDict _ => false
  | _ => true
  end.

Definition num_of (v : pyval) : option Q :=
  match v with
  | PBool b => Some (if b then 1%Q else 0%Q)
  | PInt z => Some (inject_Z z)
  | PFloat q => Some q
  | _ => None
  end.

(** [a == b] on hashable values: numbers by their value, texts by their
    characters. *)
Definition py_eq (a b : pyval) : bool :=
  match a, b with
  | PNone, PNone => true
  | PStr s, PStr t => String.eqb s t
  | _, _ =>
      match num_of a, num_of b with
      | Some x, Some y => Qeq_bool x y
      | _, _ => false
      end
  end.

(** [txn.get('txnId', '')] *)
Definition txn_id_of (t : txn) : pyval := get t "txnId" (PStr "").

(** The body of the three loops that fill [sample_transactions]; the state
    is [(seen_ids, sample_transactions)] and [cap] is the bound of the test
    [len(sample_transactions) < cap], which the first loop does not have. *)
Definition sample_step (cap : option nat)
    (st : result (list pyval * list txn)) (t : txn)
    : result (list pyval * list txn) :=
  match st with
  | Ok (seen_ids, sample) =>
      let txn_id := txn_id_of t in
      if hashable txn_id then
        if negb (existsb (py_eq txn_id) seen_ids)
           && match cap with
              | Some c => (length sample <? c)%nat
              | None => true
              end
        then Ok (txn_id :: seen_ids, (sample ++ [t])%list)
        else Ok (seen_ids, sample)
      else Raise TypeError
  | Raise e => Raise e
  end.

(** [l[-n:]] *)
Definition last_n {A : Type} (n : nat) (l : list A) : list A :=
  drop (length l - n) l.

(** The records shown to the text generator, from the documents sorted by
    amount and sorted by date, both descending: the first ten by amount,
    the last five by amount, the first fifteen by date. *)
Definition sample_transactions (by_amount by_date : list txn) : result (list txn) :=
  let st1 := fold_left (sample_step None) (take 10 by_amount) (Ok ([], [])) in
  let st2 := fold_left (sample_step (Some 15%nat)) (last_n 5 by_amount) st1 in
  let st3 := fold_left (sample_step (Some 30%nat)) (take 15 by_date) st2 in
  match st3 with
  | Ok (_, sample) => Ok sample
  | Raise e => Raise e
  end.

(** ** The [/query] endpoint *)

Section QueryEndpoint.
Context {T : Type} (env : collaborators T).

(** [RAGService.create_vector_store], which builds the similarity index of
    the request, and the search in the index that it built. *)
Variable create_vector_store : list txn -> result unit.
Variable vector_search : list txn -> string -> nat -> result string.

(** [query_transactions(request)]: [context_data] is the record set of the
    request, and the other fields of [RAGRequest] are those of [request]
    (there is no [query_id]). *)
Definition query_transactions (models_ready : bool) (context_data : list txn)
    (req : request) : result (response T) :=
  if negb models_ready then Raise (HTTPException 503)
  else
    internal_error
      (let documents := context_data in
       let prompt := req_prompt req in
       _ ← create_vector_store documents;
       let filters := extract_filters_from_query prompt in
       let mode :=
         match req_use_full_data req with
         | Some true => SMART_FULL
         | Some false => VECTOR_SEARCH
         | None => detect_query_mode prompt documents
         end in
       let query_id := generate_query_id env prompt filters in
       match mode with
       | STATISTICAL =>
           '(answer, stats, filter_desc, match_count) ←
             process_statistical_query env documents prompt;
           Ok {| r_query_id := query_id;
                 r_mode := mode;
                 r_matching_transactions_count := match_count;
                 r_filters_applied := Some filter_desc;
                 r_answer := answer;
                 r_transactions := None;
                 r_pagination := None;
                 r_statistics := Some stats |}
       | SMART_FULL =>
           '(answer, filtered_docs, filter_descriptions) ←
             process_smart_full_query env documents prompt (req_show_all req);
           '(transactions, pagination) ← paginate_results env req filtered_docs;
           Ok {| r_query_id := query_id;
                 r_mode := mode;
                 r_matching_transactions_count := length filtered_docs;
                 r_filters_applied := Some filter_descriptions;
                 r_answer := answer;
                 r_transactions := transactions;
                 r_pagination := pagination;
                 r_statistics := None |}
       | VECTOR_SEARCH =>
           if endpoint_is_analytical prompt then
             result ← process_analytical_query env documents prompt;
             Ok {| r_query_id := query_id;
                   r_mode := mode;
                   r_matching_transactions_count := length documents;
                   r_filters_applied := None;
                   r_answer := result;
                   r_transactions := None;
                   r_pagination := None;
                   r_statistics := None |}
           else
             let k_value := Nat.min 50 (length documents) in
             result ← vector_search documents prompt k_value;
             Ok {| r_query_id := query_id;
                   r_mode := mode;
                   r_matching_transactions_count := k_value;
                   r_filters_applied := None;
                   r_answer := result;
                   r_transactions := None;
                   r_pagination := None;
                   r_statistics := None |}
       end).

End QueryEndpoint.

(** ** A first page and a later page of the sample run *)

Definition later_clock : clock :=
  {| t_sweep := 120000000; t_check := 120000000; t_put := 120000001 |}.

(** What the first page of the sample request returns on an empty cache, and
    the cache that it leaves. *)
Definition first_page_response : response txn :=
  {| r_query_id := march_upi_question;
     r_mode := SMART_FULL;
     r_matching_transactions_count := 1;
     r_filters_applied := Some march_upi_descriptions;
     r_answer := "fresh answer";
     r_transactions := Some [txn_rent];
     r_pagination := Some (pagination_of 1 20 1);
     r_statistics := None |}.

Definition first_page_cache : cache :=
  {[ march_upi_question :=
       {| c_answer := "fresh answer";
          c_mode := SMART_FULL;
          c_filtered_docs := [txn_rent];
          c_filters_applied := Some march_upi_descriptions;
          c_statistics := None;
          c_timestamp := 60000001 |} ]}.

Definition next_page_response : response txn :=
  {| r_query_id := march_upi_question;
     r_mode := SMART_FULL;
     r_matching_transactions_count := 1;
     r_filters_applied := Some march_upi_descriptions;
     r_answer := "fresh answer";
     r_transactions := Some [];
     r_pagination := Some (pagination_of 2 20 1);
     r_statistics := None |}.

(** A counting question, its first response and the cache that it leaves. *)
Definition counting_question : string := "Count of transactions this year".

Definition counting_request (p : nat) : request :=
  {| req_prompt := counting_question;
     req_page := p;
     req_page_size := 20;
     req_show_all := true;
     req_use_full_data := None;
     req_query_id := None |}.

Definition counting_response : response txn :=
  {| r_query_id := counting_question;
     r_mode := VECTOR_SEARCH;
     r_matching_transactions_count := 3;
     r_filters_applied := None;
     r_answer := "fresh analysis";
     r_transactions := None;
     r_pagination := None;
     r_statistics := None |}.

Definition counting_cache : cache :=
  {[ counting_question :=
       {| c_answer := "fresh analysis";
          c_mode := VECTOR_SEARCH;
          c_filtered_docs := [];
          c_filters_applied := None;
          c_statistics := None;
          c_timestamp := 60000001 |} ]}.

(** No record of the sample has the transaction id of a record that comes
    before it. *)
Definition distinct_ids (sample : list txn) : Prop :=
  forall i j ti tj,
    (i < j)%nat -> sample !! i = Some ti -> sample !! j = Some tj ->
    py_eq (txn_id_of tj) (txn_id_of ti) = false.

(** Three records with ids of their own, and the same sample cut from a
    list sorted by amount and a list sorted by date. *)
Definition sample_by_amount : list txn := [txn_salary; txn_rent; txn_tea].
Definition sample_by_date : list txn := [txn_rent; txn_salary; txn_tea].

(** A similarity index that is built without failure, and the search of
    the sample collaborators in it. *)
Definition sample_create_vector_store : list txn -> result unit := fun _ => Ok tt.
Definition sample_vector_search : list txn -> string -> nat -> result string :=
  fun _ prompt k => process_vector_search_query sample_env prompt k.

(* ===================================================================== *)
(** * Part II: properties                                                 *)
(* ===================================================================== *)

(** ** The result monad *)

Lemma rbind_ok {A B : Type} (m : result A) (f : A -> result B) (b : B) :
  m ≫= f = Ok b -> exists a, m = Ok a /\ f a = Ok b.
Proof.
  destruct m as [a|e]; cbn; intros H; [eauto | discriminate].
Qed.

Lemma rmap_length {A B : Type} (f : A -> result B) (l : list A) (l' : list B) :
  rmap f l = Ok l' -> length l' = length l.
Proof.
  revert l'. induction l as [|x l IH]; intros l' H; cbn in H.
  - by inversion H.
  - destruct (f x) as [y|]; cbn in H; [|discriminate].
    destruct (rmap f l) as [ys|]; cbn in H; [|discriminate].
    inversion H; subst. cbn. f_equal. by apply IH.
Qed.

Lemma rmap_total {A B : Type} (f : A -> result B) (l : list A) :
  Forall (fun x => is_ok (f x) = true) l -> exists l', rmap f l = Ok l'.
Proof.
  induction 1 as [|x l Hx _ [l' IH]]; cbn; [eauto|].
  destruct (f x) as [y|]; [|discriminate]. rewrite IH. cbn. eauto.
Qed.

(** ** The order of the floats *)

Lemma Qltb_false (a b : Q) : Qltb a b = false -> (b <= a)%Q.
Proof.
  unfold Qltb. intros H. apply negb_false_iff in H. by apply Qle_bool_iff.
Qed.

Lemma Qltb_true (a b : Q) : Qltb a b = true -> (a < b)%Q.
Proof.
  unfold Qltb. intros H. apply negb_true_iff in H.
  apply Qnot_le_lt. intros Hle. apply Qle_bool_iff in Hle. congruence.
Qed.

Lemma Qltb_lt (a b : Q) : (a < b)%Q -> Qltb a b = true.
Proof.
  intros H. unfold Qltb. apply negb_true_iff.
  destruct (Qle_bool b a) eqn:E; [|done].
  apply Qle_bool_iff in E. exfalso. by apply (Qlt_not_le _ _ H).
Qed.

Lemma Qltb_le (a b : Q) : (b <= a)%Q -> Qltb a b = false.
Proof.
  intros H. unfold Qltb. apply negb_false_iff. by apply Qle_bool_iff.
Qed.

Lemma Qltb_asym (a b : Q) : Qltb a b = true -> Qltb b a = false.
Proof. intros H. apply Qltb_le, Qlt_le_weak. by apply Qltb_true. Qed.

Lemma Qltb_trans (a b c : Q) : Qltb a b = true -> Qltb b c = true -> Qltb a c = true.
Proof.
  intros H1 H2. apply Qltb_lt. eapply Qlt_trans; by apply Qltb_true.
Qed.

Lemma Qltb_neg_trans (a b c : Q) :
  Qltb a b = false -> Qltb b c = false -> Qltb a c = false.
Proof.
  intros H1 H2. apply Qltb_le. eapply Qle_trans; by apply Qltb_false.
Qed.

Lemma flt_nan_l (a b : float) : flt a b = true -> is_nan a = false.
Proof. by destruct a, b. Qed.

Lemma flt_nan_r (a b : float) : flt a b = true -> is_nan b = false.
Proof. by destruct a, b. Qed.

Lemma fle_nan_l (a b : float) : fle a b = true -> is_nan a = false.
Proof. by destruct a, b. Qed.

Lemma fle_nan_r (a b : float) : fle a b = true -> is_nan b = false.
Proof. by destruct a, b. Qed.

Lemma flt_asym (a b : float) : flt a b = true -> flt b a = false.
Proof.
  destruct a as [x|[]|], b as [y|[]|]; cbn; try done. apply Qltb_asym.
Qed.

Lemma flt_irrefl (a : float) : flt a a = false.
Proof.
  destruct a as [x|[]|]; cbn; try done. apply Qltb_le, Qle_refl.
Qed.

Lemma flt_trans (a b c : float) : flt a b = true -> flt b c = true -> flt a c = true.
Proof.
  destruct a as [x|[]|], b as [y|[]|], c as [z|[]|]; cbn; try done.
  apply Qltb_trans.
Qed.

(** Without NaN, [<=] is the negation of [>]. *)
Lemma fle_not_flt (a b : float) :
  is_nan a = false -> is_nan b = false -> fle a b = negb (flt b a).
Proof. by destruct a, b. Qed.

Lemma flt_fle (a b : float) : flt a b = true -> fle a b = true.
Proof.
  intros H. rewrite fle_not_flt; [|by eapply flt_nan_l|by eapply flt_nan_r].
  by rewrite (flt_asym _ _ H).
Qed.

Lemma fle_refl (a : float) : is_nan a = false -> fle a a = true.
Proof. intros H. rewrite fle_not_flt by done. by rewrite flt_irrefl. Qed.

Lemma fle_trans (a b c : float) : fle a b = true -> fle b c = true -> fle a c = true.
Proof.
  destruct a as [x|[]|], b as [y|[]|], c as [z|[]|]; cbn; try done.
  intros H1 H2. apply negb_true_iff in H1, H2. apply negb_true_iff.
  by apply (Qltb_neg_trans z y x).
Qed.

Lemma flt_fle_trans (a b c : float) :
  flt a b = true -> fle b c = true -> flt a c = true.
Proof.
  destruct a as [x|[]|], b as [y|[]|], c as [z|[]|]; cbn; try done.
  intros H1 H2. apply negb_true_iff in H2. apply Qltb_lt.
  eapply Qlt_le_trans; [by apply Qltb_true|by apply Qltb_false].
Qed.

Lemma fle_flt_trans (a b c : float) :
  fle a b = true -> flt b c = true -> flt a c = true.
Proof.
  destruct a as [x|[]|], b as [y|[]|], c as [z|[]|]; cbn; try done.
  intros H1 H2. apply negb_true_iff in H1. apply Qltb_lt.
  eapply Qle_lt_trans; [by apply Qltb_false|by apply Qltb_true].
Qed.

(** Rounding gives a number or an infinity. *)
Lemma round64_not_nan (x : Q) : is_nan (round64 x) = false.
Proof.
  unfold round64. destruct (Qnum x =? 0); [done|].
  destruct (0 <=? _); [|done]. by destruct (2 ^ 1024 <=? _).
Qed.

Lemma fmul_not_nan (a : float) (q : Q) :
  is_nan a = false -> Qzero q = false -> is_nan (fmul a (Fin q)) = false.
Proof.
  intros Ha Hq. destruct a as [x|n|]; cbn; [apply round64_not_nan| |done].
  by rewrite Hq.
Qed.

(** ** Sorting by amount *)

Lemma insert_desc_perm {A : Type} (x : float * A) (l : list (float * A)) :
  insert_desc x l ≡ₚ x :: l.
Proof.
  induction l as [|y l IH]; cbn; [done|].
  destruct (flt x.1 y.1); [|done].
  rewrite IH. apply perm_swap.
Qed.

Lemma sort_desc_perm {A : Type} (l : list (float * A)) : sort_desc l ≡ₚ l.
Proof.
  induction l as [|x l IH]; cbn; [done|].
  rewrite insert_desc_perm. by f_equiv.
Qed.

Lemma insert_desc_descending {A : Type} (x : float * A) (l : list (float * A)) :
  is_nan x.1 = false -> no_nan l ->
  descending l -> descending (insert_desc x l).
Proof.
  intros Hx Hl. induction 1 as [|y|y z l Hzy Hd IH]; cbn.
  - constructor.
  - apply Forall_cons_1 in Hl as [Hy _].
    destruct (flt x.1 y.1) eqn:E.
    + constructor; [|constructor]. by apply flt_fle.
    + constructor; [|constructor]. rewrite fle_not_flt by done. by rewrite E.
  - apply Forall_cons_1 in Hl as [Hy Hl].
    destruct (flt x.1 y.1) eqn:E.
    + specialize (IH Hl). cbn in IH. destruct (flt x.1 z.1) eqn:E'.
      * by constructor.
      * constructor; [|done]. by apply flt_fle.
    + constructor; [|by constructor]. rewrite fle_not_flt by done. by rewrite E.
Qed.

Lemma sort_desc_descending {A : Type} (l : list (float * A)) :
  no_nan l -> descending (sort_desc l).
Proof.
  induction 1 as [|x l Hx Hl IH]; cbn; [constructor|].
  fold (sort_desc l). apply insert_desc_descending; [done| |done].
  unfold no_nan. by rewrite sort_desc_perm.
Qed.

Lemma rmap_keyed_snd (docs : list txn) (keyed : list (float * txn)) :
  rmap (fun d => a ← amount_of d; Ok (a, d)) docs = Ok keyed ->
  keyed.*2 = docs /\ Forall (fun kd => amount_of kd.2 = Ok kd.1) keyed.
Proof.
  revert keyed. induction docs as [|d docs IH]; intros keyed H; cbn in H.
  - inversion H. by split.
  - destruct (amount_of d) as [a|] eqn:Ea; cbn in H; [|discriminate].
    destruct (rmap _ docs) as [ks|] eqn:Ek; cbn in H; [|discriminate].
    inversion H; subst. destruct (IH ks eq_refl) as [Hs HF].
    split; [cbn; by rewrite Hs|]. by constructor.
Qed.

Lemma keyed_no_nan (keyed : list (float * txn)) :
  Forall (fun kd => amount_of kd.2 = Ok kd.1) keyed ->
  Forall amount_is_number keyed.*2 -> no_nan keyed.
Proof.
  induction 1 as [|kd l Hkd _ IH]; cbn; intros HF; [constructor|].
  apply Forall_cons_1 in HF as [(a & Ha & Hn) HF].
  constructor; [|by apply IH]. rewrite Hkd in Ha. by inversion Ha; subst.
Qed.

Lemma descending_head {A : Type} (x : float * A) (l : list (float * A)) :
  descending (x :: l) -> Forall (fun y => fle y.1 x.1 = true) l.
Proof.
  revert x. induction l as [|y l IH]; intros x H; [constructor|].
  inversion H as [| |? ? ? Hyx Hd]; subst. constructor; [done|].
  eapply Forall_impl; [exact (IH y Hd)|]. intros z Hz. cbn in *.
  by eapply fle_trans.
Qed.

Lemma descending_tail {A : Type} (x : float * A) (l : list (float * A)) :
  descending (x :: l) -> descending l.
Proof. inversion 1; subst; [constructor|done]. Qed.

Lemma descending_lookup {A : Type} (l : list (float * A)) (i j : nat)
    (x y : float * A) :
  descending l -> (i < j)%nat -> l !! i = Some x -> l !! j = Some y ->
  fle y.1 x.1 = true.
Proof.
  revert i j. induction l as [|z l IH]; intros i j Hd Hij Hi Hj; [done|].
  destruct i as [|i], j as [|j]; try lia; cbn in Hi, Hj.
  - inversion Hi; subst. pose proof (descending_head _ _ Hd) as HF.
    rewrite Forall_forall in HF. apply HF. by eapply list_elem_of_lookup_2.
  - apply (IH i j); [by eapply descending_tail|lia|done|done].
Qed.

Lemma sort_desc_descending_id {A : Type} (l : list (float * A)) :
  descending l -> sort_desc l = l.
Proof.
  induction 1 as [|x|x y l Hyx Hd IH]; [done|done|].
  change (sort_desc (x :: y :: l)) with (insert_desc x (sort_desc (y :: l))).
  rewrite IH. cbn. destruct (flt x.1 y.1) eqn:E; [|done].
  rewrite fle_not_flt in Hyx; [|by eapply fle_nan_l|by eapply fle_nan_r].
  by rewrite E in Hyx.
Qed.

Lemma rmap_keyed_again (keyed : list (float * txn)) :
  Forall (fun kd => amount_of kd.2 = Ok kd.1) keyed ->
  rmap (fun d => a ← amount_of d; Ok (a, d)) keyed.*2 = Ok keyed.
Proof.
  induction 1 as [|[a d] keyed Hk _ IH]; cbn; [done|].
  cbn in Hk. rewrite Hk. cbn. rewrite IH. done.
Qed.

(** The records of a sorted list come in descending order of amount. *)
Lemma keyed_descending_lookup (keyed : list (float * txn)) (i j : nat)
    (di dj : txn) (a b : float) :
  descending keyed -> Forall (fun kd => amount_of kd.2 = Ok kd.1) keyed ->
  (i < j)%nat -> keyed.*2 !! i = Some di -> keyed.*2 !! j = Some dj ->
  amount_of di = Ok a -> amount_of dj = Ok b -> fle b a = true.
Proof.
  intros Hd HF Hij Hi Hj Ha Hb.
  rewrite list_lookup_fmap in Hi, Hj.
  destruct (keyed !! i) as [[a' di']|] eqn:Ei; [|discriminate].
  destruct (keyed !! j) as [[b' dj']|] eqn:Ej; [|discriminate].
  cbn in Hi, Hj. inversion Hi; inversion Hj; subst.
  rewrite Forall_forall in HF.
  pose proof (HF _ (list_elem_of_lookup_2 _ _ _ Ei)) as Ea.
  pose proof (HF _ (list_elem_of_lookup_2 _ _ _ Ej)) as Eb. cbn in Ea, Eb.
  assert (a' = a) as -> by congruence. assert (b' = b) as -> by congruence.
  exact (descending_lookup keyed i j _ _ Hd Hij Ei Ej).
Qed.

(** The sorted list is a rearrangement of the records, in descending order
    of their amounts when these are numbers. *)
Lemma sorted_by_amount_perm (docs sorted_docs : list txn) :
  sorted_by_amount docs = Ok sorted_docs -> sorted_docs ≡ₚ docs.
Proof.
  unfold sorted_by_amount. intros H.
  apply rbind_ok in H as (keyed & Hk & H). inversion H; subst.
  apply rmap_keyed_snd in Hk as [<- _].
  apply fmap_Permutation, sort_desc_perm.
Qed.

Lemma sorted_by_amount_descending (docs sorted_docs : list txn) :
  Forall amount_is_number docs ->
  sorted_by_amount docs = Ok sorted_docs ->
  exists keyed, sorted_docs = keyed.*2 /\ descending keyed
                /\ Forall (fun kd => amount_of kd.2 = Ok kd.1) keyed.
Proof.
  unfold sorted_by_amount. intros Hn H.
  apply rbind_ok in H as (keyed & Hk & H). inversion H; subst.
  exists (sort_desc keyed). apply rmap_keyed_snd in Hk as [Hs HF].
  split; [done|]. split; [|by rewrite sort_desc_perm].
  apply sort_desc_descending, keyed_no_nan; [done|]. by rewrite Hs.
Qed.

Lemma sorted_by_amount_length (docs sorted_docs : list txn) :
  sorted_by_amount docs = Ok sorted_docs -> length sorted_docs = length docs.
Proof.
  intros H. by rewrite (sorted_by_amount_perm _ _ H).
Qed.

Lemma sorted_by_amount_total (docs : list txn) :
  Forall (fun d => is_ok (amount_of d) = true) docs ->
  exists sorted_docs, sorted_by_amount docs = Ok sorted_docs.
Proof.
  intros HF. unfold sorted_by_amount.
  destruct (rmap_total (fun d => a ← amount_of d; Ok (a, d)) docs) as [keyed ->].
  - eapply Forall_impl; [exact HF|]. intros d Hd; cbn in *.
    by destruct (amount_of d).
  - cbn. eauto.
Qed.

(** ** Pagination *)

Lemma paginate_eq {A : Type} (l : list A) (p ps : nat) :
  paginate l p ps = take ps (drop ((p - 1) * ps) l).
Proof.
  unfold paginate, slice, end_idx, start_idx. f_equal. lia.
Qed.


Lemma total_pages_bounds (n ps : nat) :
  (1 <= ps)%nat ->
  let k := ((n + ps - 1) / ps)%nat in
  (n <= k * ps)%nat /\ (k * ps < n + ps)%nat.
Proof.
  intros Hps k. subst k.
  pose proof (Nat.div_mod_eq (n + ps - 1) ps) as Hd.
  pose proof (Nat.mod_upper_bound (n + ps - 1) ps ltac:(lia)) as Hm.
  nia.
Qed.





(** ** The Query Cache *)

Lemma expired_false (now : Z) (e : cache_data) :
  expired now e = false <-> now - c_timestamp e <= TTL.
Proof. unfold expired. rewrite Z.ltb_ge. done. Qed.

Lemma expired_true (now : Z) (e : cache_data) :
  expired now e = true <-> TTL < now - c_timestamp e.
Proof. unfold expired. rewrite Z.ltb_lt. done. Qed.

(** The sweep keeps exactly the entries that are not expired. *)
Lemma cleanup_lookup_Some (now : Z) (c : cache) (k : string) (e : cache_data) :
  cleanup_expired_cache now c !! k = Some e <->
  c !! k = Some e /\ now - c_timestamp e <= TTL.
Proof.
  unfold cleanup_expired_cache. rewrite lookup_foldr_delete_Some.
  rewrite <- expired_false. split.
  - intros [Hk He]. split; [done|].
    destruct (expired now e) eqn:Ex; [|done]. exfalso. apply Hk.
    apply list_elem_of_fmap. exists (k, e). split; [done|].
    apply list_elem_of_In, filter_In. split; [|done].
    apply list_elem_of_In. by apply elem_of_map_to_list.
  - intros [He Ex]. split; [|done]. intros Hin.
    apply list_elem_of_fmap in Hin as ([k' e'] & -> & Hin).
    apply list_elem_of_In, filter_In in Hin as [Hin Ex'].
    apply list_elem_of_In, elem_of_map_to_list in Hin. cbn in *. congruence.
Qed.

Lemma cleanup_lookup_None (now : Z) (c : cache) (k : string) :
  cleanup_expired_cache now c !! k = None <->
  forall e, c !! k = Some e -> TTL < now - c_timestamp e.
Proof.
  rewrite eq_None_not_Some. unfold is_Some. split.
  - intros H e He. destruct (Z_lt_le_dec TTL (now - c_timestamp e)); [done|].
    exfalso. apply H. exists e. by apply cleanup_lookup_Some.
  - intros H [e He]. apply cleanup_lookup_Some in He as [He Hle].
    specialize (H e He). lia.
Qed.

(** What one call of [get_cached_query] does, for a clock that does not go
    back between its two readings: the entry is returned exactly when it is
    there and not older than the time to live at the second reading, and
    every entry left in the store was not older at the first one. *)
Lemma get_cached_query_two_readings (c : cache) (k : string) (t1 t2 : Z) :
  t1 <= t2 ->
  (forall e, (get_cached_query t1 t2 k c).1 = Some e <->
             c !! k = Some e /\ t2 - c_timestamp e <= TTL)
  /\ ((get_cached_query t1 t2 k c).1 = None -> (get_cached_query t1 t2 k c).2 !! k = None)
  /\ (forall k' e', (get_cached_query t1 t2 k c).2 !! k' = Some e' ->
                    c !! k' = Some e' /\ t1 - c_timestamp e' <= TTL).
Proof.
  intros Ht. unfold get_cached_query.
  destruct (cleanup_expired_cache t1 c !! k) as [e|] eqn:El.
  - apply cleanup_lookup_Some in El as Hl. destruct Hl as [Hk Hle].
    destruct (Z.leb_spec (t2 - c_timestamp e) TTL) as [Hc|Hc]; cbn.
    + split; [|split].
      * intros e0. split; [intros [= <-]; done|]. intros [He0 _]. congruence.
      * discriminate.
      * intros k' e' H. by apply cleanup_lookup_Some in H.
    + split; [|split].
      * intros e0. split; [discriminate|]. intros [He0 Hle0].
        assert (e0 = e) as -> by congruence. lia.
      * intros _. apply lookup_delete_eq.
      * intros k' e' H. apply lookup_delete_Some in H as [_ H].
        by apply cleanup_lookup_Some in H.
  - cbn. split; [|split].
    + intros e0. split; [discriminate|]. intros [He0 Hle0].
      rewrite cleanup_lookup_None in El. specialize (El e0 He0). lia.
    + done.
    + intros k' e' H. by apply cleanup_lookup_Some in H.
Qed.

(** C4, as amended.  [get_cached_query] reads the clock twice: for the
    sweep ([t1]) and for the test of the entry ([t2]).  For a clock that
    does not go back between the two, on every store and for every key: the
    entry is returned if and only if it is stored under the key and
    [t2 - insertion <= TTL]; when nothing is returned the key is not in the
    store any more; the store that the call leaves holds exactly the entries
    of the old one that were not older than the time to live at the sweep,
    the entry of the key being kept only if it is not older at the test
    either.  In particular an entry written at [t0] is returned by a call
    whose test comes at any instant up to [t0 + TTL], and a call whose test
    comes past [t0 + TTL] returns nothing and leaves the store without the
    key. *)
Theorem get_cached_query_ttl (query_cache : cache) (query_id : string) (t1 t2 : Z) :
  t1 <= t2 ->
  (forall e, (get_cached_query t1 t2 query_id query_cache).1 = Some e <->
             query_cache !! query_id = Some e /\ t2 - c_timestamp e <= TTL)
  /\ ((get_cached_query t1 t2 query_id query_cache).1 = None ->
      (get_cached_query t1 t2 query_id query_cache).2 !! query_id = None)
  /\ (forall k e, (get_cached_query t1 t2 query_id query_cache).2 !! k = Some e <->
                  query_cache !! k = Some e /\ t1 - c_timestamp e <= TTL
                  /\ (k = query_id -> t2 - c_timestamp e <= TTL))
  /\ (forall t0 answer mode docs descs stats,
        let stored := cache_query_results t0 query_id answer mode docs descs stats
                        query_cache in
        (t2 <= t0 + TTL ->
           (get_cached_query t1 t2 query_id stored).1
           = Some (CacheData answer mode docs descs stats t0))
        /\ (t0 + TTL < t2 ->
              (get_cached_query t1 t2 query_id stored).1 = None
              /\ (get_cached_query t1 t2 query_id stored).2 !! query_id = None)).
Proof.
  intros Ht.
  destruct (get_cached_query_two_readings query_cache query_id t1 t2 Ht)
    as (H1 & H2 & H3).
  split; [exact H1|]. split; [exact H2|]. split.
  - intros k e. unfold get_cached_query.
    destruct (cleanup_expired_cache t1 query_cache !! query_id) as [e0|] eqn:El.
    + apply cleanup_lookup_Some in El as Hl. destruct Hl as [Hk0 Hle0].
      destruct (Z.leb_spec (t2 - c_timestamp e0) TTL) as [Hc|Hc]; cbn.
      * rewrite cleanup_lookup_Some. split; [|tauto].
        intros [Hk Hle]. split; [done|]. split; [done|].
        intros ->. assert (e = e0) as -> by congruence. done.
      * rewrite lookup_delete_Some, cleanup_lookup_Some. split.
        -- intros (Hne & Hk & Hle). split; [done|]. split; [done|]. done.
        -- intros (Hk & Hle & Hq). split; [|done].
           intros ->. assert (e = e0) as -> by congruence.
           specialize (Hq eq_refl). lia.
    + cbn. rewrite cleanup_lookup_Some. split; [|tauto].
      intros [Hk Hle]. split; [done|]. split; [done|].
      intros ->. rewrite cleanup_lookup_None in El. specialize (El e Hk). lia.
  - intros t0 answer mode docs descs stats stored.
    destruct (get_cached_query_two_readings stored query_id t1 t2 Ht)
      as (S1 & S2 & _).
    assert (stored !! query_id = Some (CacheData answer mode docs descs stats t0))
      as Hs by apply lookup_insert_eq.
    split.
    + intros Hle. apply S1. split; [done|]. cbn. lia.
    + intros Hlt.
      assert ((get_cached_query t1 t2 query_id stored).1 = None) as Hn.
      { apply eq_None_not_Some. intros [e E].
        apply S1 in E as [E Hle]. rewrite Hs in E. inversion E; subst. cbn in Hle. lia. }
      split; [done|]. by apply S2.
Qed.

Lemma get_cached_query_ttl_witness :
  (get_cached_query 60000000 60000001 march_upi_question sample_cache).1
  = Some cached_entry
  /\ (get_cached_query TTL (TTL + 1) march_upi_question sample_cache).1 = None.
Proof.
  split.
  - apply (proj1 (get_cached_query_ttl sample_cache march_upi_question
                    60000000 60000001 ltac:(lia))).
    split; [reflexivity|vm_compute; discriminate].
  - destruct (proj2 (proj2 (proj2
               (get_cached_query_ttl ∅ march_upi_question TTL (TTL + 1)
                  ltac:(lia)))) 0 "cached answer" SMART_FULL [txn_rent]
               (Some march_upi_descriptions) None) as [_ H].
    apply H. lia.
Defined.

(** C4, as first stated, fails on the sweep: the store holds two entries
    written at the instant 0; a call for the first one sweeps when both are
    [TTL] old, which keeps them, and tests its entry one microsecond later,
    which evicts it.  The call returns nothing, and the other entry, now
    older than the time to live, is still in the store. *)
Lemma get_cached_query_leaves_expired :
  (get_cached_query TTL (TTL + 1) march_upi_question two_entry_cache).1 = None
  /\ (get_cached_query TTL (TTL + 1) march_upi_question two_entry_cache).2
       !! "another question" = Some cached_entry
  /\ TTL < (TTL + 1) - c_timestamp cached_entry.
Proof. repeat split; vm_compute; reflexivity. Qed.

(** ** The Filter Applicator *)

Lemma rfilter_ok (p : txn -> result bool) (l l' : list txn) :
  rfilter p l = Ok l' -> l' ⊆ l /\ Forall (passes p) l'.
Proof.
  revert l'. induction l as [|x l IH]; intros l' H; cbn in H.
  - inversion H. split; [done|constructor].
  - destruct (p x) as [b|] eqn:Ep; cbn in H; [|discriminate].
    destruct (rfilter p l) as [ys|]; cbn in H; [|discriminate].
    destruct (IH ys eq_refl) as [Hs HF].
    inversion H; subst. destruct b.
    + split; [by apply list_subseteq_skip|]. by constructor.
    + split; [by apply list_subseteq_cons|done].
Qed.

Lemma rfilter_passes (p : txn -> result bool) (l : list txn) :
  Forall (passes p) l -> rfilter p l = Ok l.
Proof.
  induction 1 as [|x l Hx _ IH]; cbn; [done|].
  rewrite Hx, IH. done.
Qed.

Lemma rfilter_pure (p : txn -> bool) (l : list txn) :
  rfilter (fun d => Ok (p d)) l = Ok (List.filter p l).
Proof.
  induction l as [|x l IH]; cbn; [done|]. rewrite IH. cbn. by destruct (p x).
Qed.

Lemma skip_filter_stage (l : list txn) :
  skip l = filter_stage (fun _ => Ok true) (Ok []) l.
Proof.
  unfold skip, filter_stage. rewrite rfilter_passes; [done|].
  apply Forall_forall. done.
Qed.

(** Every stage is a comprehension on a test of one record, followed by
    descriptions that do not depend on the records. *)
Lemma stage_shape (f : filters) (s : stage) :
  In s (stages f) ->
  exists p ds, forall l, s l = filter_stage p ds l.
Proof.
  intros Hin.
  assert (forall p ds, exists p' ds', forall l, filter_stage p ds l = filter_stage p' ds' l)
    as Hf by (intros p ds; by exists p, ds).
  assert (exists p' ds', forall l, skip l = filter_stage p' ds' l)
    as Hk by (eexists _, _; apply skip_filter_stage).
  cbn in Hin.
  destruct Hin as [<-|[<-|[<-|[<-|[<-|[<-|[]]]]]]].
  - unfold date_stage. destruct (get_date _); auto.
  - unfold mode_stage. destruct (get_str _); auto.
  - unfold type_stage. destruct (get_str _); auto.
  - unfold amount_stage. destruct (amount_range f) as [[??]|]; auto.
    destruct (get_num (amount_above f)); auto.
    destruct (get_num (amount_below f)); auto.
  - unfold account_stage. destruct (get_str _); auto.
  - unfold person_stage. destruct (get_str _); auto.
    destruct (strict_name_match f); auto.
Qed.

(** The stages in a row: the records that come out are records that went
    in, and the same stages leave every list made of them as it is. *)
Lemma stages_fixed (ss : list stage) :
  Forall (fun s => exists p ds, forall l, s l = filter_stage p ds l) ss ->
  forall D d0 D' d',
    fold_left then_stage ss (Ok (D, d0)) = Ok (D', d') ->
    D' ⊆ D /\
    exists ds, d' = (d0 ++ ds)%list /\
      forall E d1, E ⊆ D' ->
        fold_left then_stage ss (Ok (E, d1)) = Ok (E, (d1 ++ ds)%list).
Proof.
  induction 1 as [|s ss (p & ds & Hs) _ IH]; intros D d0 D' d' H; cbn in H.
  - inversion H; subst. split; [done|]. exists []. split; [by rewrite app_nil_r|].
    intros E d1 _. cbn. by rewrite app_nil_r.
  - rewrite Hs in H. unfold filter_stage in H.
    destruct (rfilter p D) as [D1|e] eqn:Ef; cbn in H.
    2:{ exfalso. clear -H. induction ss as [|? ? IHs]; cbn in H; [discriminate|].
        by apply IHs. }
    destruct ds as [ds1|e]; cbn in H.
    2:{ exfalso. clear -H. induction ss as [|? ? IHs]; cbn in H; [discriminate|].
        by apply IHs. }
    apply rfilter_ok in Ef as [Hsub HF].
    destruct (IH _ _ _ _ H) as (Hsub' & ds' & -> & Hfix).
    split; [by transitivity D1|].
    exists (ds1 ++ ds')%list. split; [by rewrite app_assoc|].
    intros E d1 HE. cbn. rewrite Hs. unfold filter_stage.
    rewrite rfilter_passes.
    + cbn. rewrite Hfix by done. by rewrite app_assoc.
    + apply Forall_forall. intros x Hx.
      rewrite Forall_forall in HF. apply HF, Hsub', HE, Hx.
Qed.

Lemma apply_filters_fixed (D D' : list txn) (f : filters) (q : string)
    (ds : list description) :
  apply_filters D f q = Ok (D', ds) ->
  D' ⊆ D /\ forall E q', E ⊆ D' -> apply_filters E f q' = Ok (E, ds).
Proof.
  unfold apply_filters. intros H.
  apply stages_fixed in H as (Hsub & ds' & Hds & Hfix).
  - cbn in Hds. subst ds'. split; [done|]. intros E q' HE.
    by rewrite (Hfix E [] HE).
  - apply Forall_forall. intros s Hs. apply (stage_shape f).
    by apply list_elem_of_In.
Qed.

(** C6. For every record set [D] and Filter Set [F] on which
    [apply_filters] returns, running [apply_filters] with [F] on the records
    that it returned gives the very same sequence of records (and the same
    descriptions). *)
Theorem apply_filters_idempotent (D D' : list txn) (F : filters) (q q' : string)
    (ds : list description) :
  apply_filters D F q = Ok (D', ds) ->
  apply_filters D' F q' = Ok (D', ds).
Proof.
  intros H. apply apply_filters_fixed in H as [_ H]. by apply H.
Qed.

Lemma apply_filters_idempotent_witness :
  apply_filters [txn_rent] march_upi_filters "" = Ok ([txn_rent], march_upi_descriptions).
Proof.
  apply (apply_filters_idempotent sample_docs [txn_rent] march_upi_filters
           march_upi_question "" march_upi_descriptions).
  vm_compute. reflexivity.
Defined.

Example extract_march_upi :
  extract_filters_from_query march_upi_question = march_upi_filters
  /\ detect_query_mode march_upi_question sample_docs = SMART_FULL.
Proof. split; vm_compute; reflexivity. Qed.

(** ** The Statistics Calculator *)

Lemma then_stage_nil (ss : list stage) (d0 : list description) :
  Forall (fun s => exists ds, s [] = Ok ([], ds)) ss ->
  exists ds, fold_left then_stage ss (Ok ([], d0)) = Ok ([], ds).
Proof.
  intros H. revert d0. induction H as [|s ss [ds Hs] _ IH]; intros d0; cbn.
  - eauto.
  - rewrite Hs. apply IH.
Qed.

Lemma py_index_month (m : Z) :
  -11 <= m <= 12 -> exists name, py_index month_names (m - 1) = Ok name.
Proof.
  intros Hm. unfold py_index. cbn [length month_names].
  destruct (m - 1 <? 0) eqn:Hneg.
  - apply Z.ltb_lt in Hneg.
    assert (m = -11 \/ m = -10 \/ m = -9 \/ m = -8 \/ m = -7 \/ m = -6 \/ m = -5
            \/ m = -4 \/ m = -3 \/ m = -2 \/ m = -1 \/ m = 0) as Hcases by lia.
    repeat (destruct Hcases as [->|Hcases]; [cbn; eauto|]). subst; cbn; eauto.
  - apply Z.ltb_ge in Hneg.
    assert (m = 1 \/ m = 2 \/ m = 3 \/ m = 4 \/ m = 5 \/ m = 6 \/ m = 7
            \/ m = 8 \/ m = 9 \/ m = 10 \/ m = 11 \/ m = 12) as Hcases by lia.
    repeat (destruct Hcases as [->|Hcases]; [cbn; eauto|]). subst; cbn; eauto.
Qed.

(** On the empty record set the Filter Applicator returns the empty set,
    as soon as the month of the Filter Set has a name. *)
Lemma apply_filters_nil (f : filters) (q : string) :
  month_in_range f -> exists ds, apply_filters [] f q = Ok ([], ds).
Proof.
  intros Hm. unfold apply_filters. apply then_stage_nil.
  unfold stages. repeat apply List.Forall_cons; try apply List.Forall_nil; cbn beta.
  - unfold date_stage, month_in_range in *.
    destruct (get_date (date_filter f)) as [[y m]|]; [|eexists; reflexivity].
    unfold filter_stage, date_descriptions; cbn.
    destruct m as [m|], y as [y|]; cbn; eauto.
    destruct (py_index_month m Hm) as [name ->]. cbn. eauto.
  - unfold mode_stage. destruct (get_str _); eexists; reflexivity.
  - unfold type_stage. destruct (get_str _); eexists; reflexivity.
  - unfold amount_stage. destruct (amount_range f) as [[??]|]; [eexists; reflexivity|].
    destruct (get_num (amount_above f)); [eexists; reflexivity|].
    destruct (get_num (amount_below f)); eexists; reflexivity.
  - unfold account_stage. destruct (get_str _); eexists; reflexivity.
  - unfold person_stage. destruct (get_str _); [|eexists; reflexivity].
    destruct (strict_name_match f); eexists; reflexivity.
Qed.

Lemma extract_month_range (months : list (string * Z)) (q : string) (y : option Z) (m : Z) :
  Forall (fun nm => 1 <= nm.2 <= 12) months ->
  extract_month months q = Some (DateF y (Some m)) -> 1 <= m <= 12.
Proof.
  induction 1 as [|[name num] months Hn _ IH]; cbn; [discriminate|].
  destruct (str_in name q); [|exact IH].
  intros [= _ <-]. exact Hn.
Qed.

Lemma months_hindi_range : Forall (fun nm => 1 <= nm.2 <= 12) months_hindi.
Proof. unfold months_hindi. repeat (constructor; [cbn; lia|]). constructor. Qed.

(** The Filter Extractor only gives months that have a name. *)
Lemma extract_month_in_range (question : string) :
  month_in_range (extract_filters_from_query question).
Proof.
  unfold month_in_range, extract_filters_from_query.
  destruct (extract_amounts _) as [[? ?] ?]. destruct (extract_person _). cbn.
  unfold extract_date.
  destruct (extract_month months_hindi (lower question)) as [[y m]|] eqn:Em.
  - destruct m as [m|].
    + pose proof (extract_month_range _ _ _ _ months_hindi_range Em) as Hm.
      destruct y; cbn; lia.
    + exfalso. clear -Em. revert Em. generalize months_hindi.
      induction l as [|[name num] l IH]; cbn; [discriminate|].
      destruct (str_in name (lower question)); [intros [=]|exact IH].
  - destruct (Re.search year_pattern (lower question)) as [r|]; cbn; [|done].
    by destruct (group1_int r).
Qed.

(** C9. For every record set and Filter Set for which the Filter
    Applicator returns the empty set, [calculate_statistics] returns the
    object whose five fields are zero, and raises nothing.  This covers the
    empty record set, on which the Applicator returns the empty set for
    every Filter Set whose month has a name, hence for every Filter Set that
    the Extractor builds. *)
Theorem calculate_statistics_empty :
  (forall documents f ds,
     apply_filters documents f "" = Ok ([], ds) ->
     calculate_statistics documents f = Ok zero_statistics)
  /\ (forall f, month_in_range f -> calculate_statistics [] f = Ok zero_statistics)
  /\ (forall question,
        calculate_statistics [] (extract_filters_from_query question)
        = Ok zero_statistics)
  /\ zero_statistics
     = {| count := 0; total := 0%Q; average := 0%Q; max_amount := 0%Q;
          min_amount := 0%Q |}.
Proof.
  assert (forall documents f ds,
            apply_filters documents f "" = Ok ([], ds) ->
            calculate_statistics documents f = Ok zero_statistics) as H1.
  { intros documents f ds H. unfold calculate_statistics. by rewrite H. }
  assert (forall f, month_in_range f -> calculate_statistics [] f = Ok zero_statistics)
    as H2.
  { intros f Hm. destruct (apply_filters_nil f "" Hm) as [ds Hds]. by eapply H1. }
  split; [exact H1|]. split; [exact H2|]. split; [|reflexivity].
  intros question. apply H2, extract_month_in_range.
Qed.

Lemma calculate_statistics_empty_witness :
  calculate_statistics sample_docs (above 100000%Q) = Ok zero_statistics
  /\ calculate_statistics [] (extract_filters_from_query "kitne transactions")
     = Ok zero_statistics.
Proof.
  split.
  - apply (proj1 calculate_statistics_empty sample_docs (above 100000%Q)
             [DescAmountAbove 100000%Q]).
    vm_compute. reflexivity.
  - apply (proj1 (proj2 (proj2 calculate_statistics_empty))).
Defined.

(** ** The amount thresholds *)

Lemma apply_filters_amount_only (f : filters) (docs : list txn) (q : string) :
  get_date (date_filter f) = None -> get_str (mode f) = None ->
  get_str (type f) = None -> get_str (account_id f) = None ->
  get_str (person_name f) = None ->
  apply_filters docs f q = amount_stage f docs.
Proof.
  intros Hd Hm Ht Ha Hp. unfold apply_filters, stages.
  unfold date_stage, mode_stage, type_stage, account_stage, person_stage.
  rewrite Hd, Hm, Ht, Ha, Hp. cbn. unfold skip.
  destruct (amount_stage f docs) as [[new ds]|]; cbn; [|done].
  by rewrite !app_nil_r.
Qed.

Lemma rfilter_amount (p : float -> bool) (docs : list txn) :
  Forall (fun d => is_ok (amount_of d) = true) docs ->
  rfilter (fun d => a ← amount_of d; Ok (p a)) docs
  = Ok (List.filter (fun d => match amount_of d with
                              | Ok a => p a
                              | Raise _ => false
                              end) docs).
Proof.
  induction 1 as [|d docs Hd _ IH]; cbn; [done|].
  destruct (amount_of d) as [a|]; [|discriminate].
  cbn. rewrite IH. cbn. by destruct (p a).
Qed.

(** With a threshold that is not zero, [amount_above] keeps the records
    whose amount is strictly greater and [amount_below] those whose amount
    is strictly smaller, in their order. *)
Lemma apply_filters_threshold_strict (t : float) (docs : list txn) (q : string) :
  float_truthy t = true ->
  Forall (fun d => is_ok (amount_of d) = true) docs ->
  apply_filters docs (above t) q
  = Ok (List.filter (fun d => match amount_of d with
                              | Ok a => flt t a
                              | Raise _ => false
                              end) docs, [DescAmountAbove t])
  /\ apply_filters docs (below t) q
     = Ok (List.filter (fun d => match amount_of d with
                                 | Ok a => flt a t
                                 | Raise _ => false
                                 end) docs, [DescAmountBelow t]).
Proof.
  intros Ht HF. split.
  - rewrite apply_filters_amount_only by done.
    unfold amount_stage, above, get_num; cbn [amount_range amount_above].
    rewrite Ht. unfold filter_stage, above_match.
    pose proof (rfilter_amount (flt t) docs HF) as H. rewrite H. done.
  - rewrite apply_filters_amount_only by done.
    unfold amount_stage, below, get_num;
      cbn [amount_range amount_above amount_below].
    rewrite Ht. unfold filter_stage, below_match.
    pose proof (rfilter_amount (fun a => flt a t) docs HF) as H.
    cbn beta in H. rewrite H. done.
Qed.

(** C2, at the threshold zero.  The question [transactions above 0] gives
    the Filter Set with [amount_above = 0.0]; the Applicator then returns
    every record, the one whose amount is zero included, and no
    description.  With [amount_below = 0.0] it returns a record whose amount
    is 40. *)
Theorem apply_filters_threshold_zero :
  extract_filters_from_query "transactions above 0" = above 0%Q
  /\ amount_of txn_reversal = Ok (Fin 0%Q)
  /\ apply_filters [txn_reversal; txn_tea] (above 0%Q) "transactions above 0"
     = Ok ([txn_reversal; txn_tea], [])
  /\ amount_of txn_tea = Ok (Fin 40%Q)
  /\ apply_filters [txn_tea] (below 0%Q) "" = Ok ([txn_tea], []).
Proof. repeat split; vm_compute; reflexivity. Qed.

(** ** Records that cannot be read *)

(** C3, on records that cannot be read.  The date stage leaves out a record
    whose time stamp does not parse; the amount stage raises [ValueError] on
    a record whose amount is the text [abc], and the mode stage raises
    [AttributeError] on a record whose mode is [null]. *)
Theorem apply_filters_raises :
  apply_filters [txn_bad_date; txn_rent] march_upi_filters ""
  = Ok ([txn_rent], march_upi_descriptions)
  /\ apply_filters [txn_unparsable] (above 100%Q) "" = Raise ValueError
  /\ apply_filters [txn_null_mode] upi_filters "" = Raise AttributeError.
Proof. repeat split; vm_compute; reflexivity. Qed.

(** ** The amounts of a question are numbers *)

(** What the matcher returns comes from its continuation. *)
Lemma star_loop_kont {A : Type} (body : Re.pos -> Re.kont A -> option A) :
  (forall p k x, body p k = Some x -> exists p', k p' = Some x) ->
  forall greedy n p k x,
    Re.star_loop body greedy n p k = Some x -> exists p', k p' = Some x.
Proof.
  intros Hbody greedy n. induction n as [|n IH]; intros p k x H; cbn in H; [eauto|].
  assert (body p (fun p' =>
            if (String.length (Re.rest p') <? String.length (Re.rest p))%nat
            then Re.star_loop body greedy n p' k else None) = Some x ->
          exists p', k p' = Some x) as Hagain.
  { intros Hb. apply Hbody in Hb as [p' Hp'].
    destruct (_ <? _)%nat; [eauto|discriminate]. }
  destruct greedy; unfold Re.orelse in H.
  - destruct (body p _) eqn:E; [inversion H; subst; by apply Hagain|eauto].
  - destruct (k p) eqn:E; [inversion H; subst; eauto|by apply Hagain].
Qed.

Lemma run_kont {A : Type} (r : Re.regex) :
  forall (p : Re.pos) (k : Re.kont A) (x : A),
    Re.run r p k = Some x -> exists p', k p' = Some x.
Proof.
  induction r as [|f|r1 IH1 r2 IH2|r1 IH1 r2 IH2|g r IH| | |r IH];
    intros p k x H; cbn in H.
  - eauto.
  - destruct (Re.rest p) as [|c s']; [discriminate|].
    destruct (f c); [eauto|discriminate].
  - apply IH1 in H as [p1 H]. by apply IH2 in H.
  - unfold Re.orelse in H. destruct (Re.run r1 p k) eqn:E.
    + inversion H; subst. by apply IH1 in E.
    + by apply IH2 in H.
  - eapply star_loop_kont; [|exact H]. intros p0 k0 x0. apply IH.
  - destruct (xorb _ _); [eauto|discriminate].
  - destruct (Re.at_eol p); [eauto|discriminate].
  - apply IH in H as [p' H]. eauto.
Qed.

Lemma number_pattern_digit (p : Re.pos) (m : Re.rmatch) :
  Re.match_at number_pattern p = Some m -> starts_with_digit (Re.group0 m).
Proof.
  unfold Re.match_at. intros H.
  assert (starts_with_digit (Re.rest p)) as Hd.
  { unfold number_pattern in H. cbn [Re.seqs Re.plus Re.run Re.rest Re.prev Re.caps Re.digit] in H.
    destruct (Re.rest p) as [|c s']; [done|]. cbn.
    destruct (is_digit c); [done|discriminate]. }
  apply run_kont in H as [p' H]. inversion H; subst. cbn [Re.group0].
  destruct (Re.rest p) as [|c s']; [by destruct (_ - _)%nat|].
  by destruct (_ - _)%nat.
Qed.

Lemma findall_number_digit (n : nat) (pv : option ascii) (s : string) :
  Forall starts_with_digit (Re.findall_from n number_pattern pv s).
Proof.
  revert pv s. induction n as [|n IH]; intros pv s; cbn [Re.findall_from]; [constructor|].
  destruct (Re.match_at number_pattern (Re.Pos pv s [])) as [m|] eqn:E.
  - pose proof (number_pattern_digit _ _ E) as Hm.
    destruct (Re.group0 m) as [|c t] eqn:Eg.
    + destruct s; (constructor; [done|]); [constructor|apply IH].
    + constructor; [done|apply IH].
  - destruct s; [constructor|apply IH].
Qed.

Lemma digit_cases (c : ascii) :
  is_digit c = true ->
  In c ["0"; "1"; "2"; "3"; "4"; "5"; "6"; "7"; "8"; "9"]%char.
Proof.
  destruct c as [[] [] [] [] [] [] [] []]; vm_compute; intros H;
    try discriminate; tauto.
Qed.

Ltac digit_fact H :=
  apply digit_cases in H; cbn [In] in H;
  repeat (destruct H as [<-|H]; [reflexivity|]); destruct H.

Lemma digit_not_char (x c : ascii) :
  is_digit x = false -> is_digit c = true -> is_char x c = false.
Proof.
  intros Hx Hc. unfold is_char. destruct (code x =? code c)%N eqn:E; [|done].
  apply N.eqb_eq in E. unfold is_digit, between_codes in *.
  rewrite E in Hx. congruence.
Qed.

Lemma digit_lower (c : ascii) : is_digit c = true -> lower_char c = c.
Proof. intros H. digit_fact H. Qed.

Lemma digit_not_c_space (c : ascii) : is_digit c = true -> is_c_space c = false.
Proof. intros H. digit_fact H. Qed.

Lemma digit_eqb (x c : ascii) :
  is_digit x = false -> is_digit c = true -> Ascii.eqb c x = false.
Proof.
  intros Hx Hc. destruct (Ascii.eqb c x) eqn:E; [|done].
  apply Ascii.eqb_eq in E. congruence.
Qed.

Lemma strip_underscores_digit (c : ascii) (r s1 : string) :
  is_digit c = true ->
  strip_underscores None (String c r) = Some s1 -> exists r1, s1 = String c r1.
Proof.
  intros Hc. cbn. rewrite (digit_not_char "_" c) by done.
  destruct (strip_underscores (Some c) r) as [r1|]; cbn; [|discriminate].
  intros [= <-]. eauto.
Qed.

Lemma rstrip_c_digit (c : ascii) (r : string) :
  is_digit c = true -> exists r1, rstrip_c (String c r) = String c r1.
Proof.
  intros Hc. cbn. destruct (rstrip_c r); [|eauto].
  rewrite digit_not_c_space by done. eauto.
Qed.

(** A text that starts with a Re.digit is not read as a NaN. *)
Lemma float_of_str_digit (c : ascii) (r : string) (a : float) :
  is_digit c = true -> float_of_str (String c r) = Some a -> is_nan a = false.
Proof.
  intros Hc. unfold float_of_str.
  destruct (strip_underscores None (String c r)) as [s1|] eqn:E; [|discriminate].
  apply strip_underscores_digit in E as [r1 ->]; [|done].
  cbn [lstrip_c]. rewrite digit_not_c_space by done.
  destruct (rstrip_c_digit c r1 Hc) as [r2 ->].
  unfold take_sign. rewrite (digit_not_char "-" c), (digit_not_char "+" c) by done.
  cbn [lower smap]. rewrite digit_lower by done.
  cbn [String.eqb]. rewrite (digit_eqb "n" c), (digit_eqb "i" c) by done.
  cbn [andb orb]. destruct (decimal _) as [q|]; cbn; [|discriminate].
  intros [= <-]. apply round64_not_nan.
Qed.

Lemma process_number_not_nan (t : string) (a : float) :
  starts_with_digit t -> process_number t = Some a -> is_nan a = false.
Proof.
  destruct t as [|c t]; [by vm_compute|]. cbn [starts_with_digit]. intros Hc.
  unfold process_number. cbn [remove_char].
  rewrite (digit_not_char "," c) by done. cbn [lower smap].
  rewrite digit_lower by done. fold (lower (remove_char "," t)).
  destruct (bool_decide _); [done|].
  cbn [remove_char]. rewrite (digit_not_char "k" c), (digit_not_char "l" c) by done.
  destruct (str_in "k" _).
  - destruct (float_of_str _) as [v|] eqn:E; cbn; [|discriminate].
    intros [= <-]. apply fmul_not_nan; [|done]. by eapply float_of_str_digit.
  - destruct (str_in "l" _).
    + destruct (float_of_str _) as [v|] eqn:E; cbn; [|discriminate].
      intros [= <-]. apply fmul_not_nan; [|done]. by eapply float_of_str_digit.
    + by apply float_of_str_digit.
Qed.

Lemma amounts_processed_not_nan (question_lower : string) :
  Forall (fun a => is_nan a = false) (amounts_processed question_lower).
Proof.
  unfold amounts_processed, Re.findall.
  generalize (findall_number_digit (S (String.length question_lower)) None
                question_lower).
  generalize (Re.findall_from (S (String.length question_lower)) number_pattern None
                question_lower).
  intros l. induction 1 as [|t l Ht _ IH]; cbn; [constructor|].
  destruct (process_number t) as [a|] eqn:E; [|exact IH].
  constructor; [by eapply process_number_not_nan|exact IH].
Qed.

(** ** The amount interpretation of the Filter Extractor *)

(** C5. For every question that holds the word [between] and at least two
    numeric tokens left after the years are put aside, whatever above and
    below keywords it also holds: the Filter Extractor sets [amount_range]
    to the first two amounts, the smaller one first, and leaves
    [amount_above] and [amount_below] unset. *)
Theorem extract_range_only (question : string) :
  str_in "between" (lower question) = true ->
  (2 <= length (amounts_processed (lower question)))%nat ->
  exists a b rest lo hi,
    amounts_processed (lower question) = a :: b :: rest
    /\ amount_range (extract_filters_from_query question) = Some (lo, hi)
    /\ fle lo hi = true
    /\ ((lo, hi) = (a, b) \/ (lo, hi) = (b, a))
    /\ amount_above (extract_filters_from_query question) = None
    /\ amount_below (extract_filters_from_query question) = None.
Proof.
  intros Hb Hn. unfold extract_filters_from_query, extract_amounts.
  rewrite Hb. destruct (amounts_processed (lower question)) as [|a [|b rest]] eqn:Ea;
    cbn in Hn; [lia|lia|].
  exists a, b, rest. cbn [length Nat.leb andb].
  pose proof (amounts_processed_not_nan (lower question)) as Hnan.
  rewrite Ea in Hnan. apply Forall_cons_1 in Hnan as [Ha Hnan].
  apply Forall_cons_1 in Hnan as [Hb' _].
  destruct (flt b a) eqn:Hlt; destruct (extract_person question) as [person strict];
    cbn.
  - exists b, a. repeat split; auto. by apply flt_fle.
  - exists a, b. repeat split; auto. rewrite fle_not_flt by done. by rewrite Hlt.
Qed.

Lemma extract_range_only_witness :
  any_in above_words (lower range_question) = true
  /\ any_in below_words (lower range_question) = true
  /\ exists a b rest lo hi,
       amounts_processed (lower range_question) = a :: b :: rest
       /\ amount_range (extract_filters_from_query range_question) = Some (lo, hi)
       /\ fle lo hi = true
       /\ ((lo, hi) = (a, b) \/ (lo, hi) = (b, a))
       /\ amount_above (extract_filters_from_query range_question) = None
       /\ amount_below (extract_filters_from_query range_question) = None.
Proof.
  split; [vm_compute; reflexivity|]. split; [vm_compute; reflexivity|].
  apply (extract_range_only range_question).
  - vm_compute. reflexivity.
  - vm_compute. lia.
Defined.

Example range_question_filters :
  amount_range (extract_filters_from_query range_question)
  = Some (Fin 10000%Q, Fin 30000%Q).
Proof. vm_compute. reflexivity. Qed.

(** ** The Mode Classifier *)

(** C8. For every prompt that matches one of the counting patterns, and so
    for every prompt that matches a counting pattern and an analytical
    keyword, the cascade stops at its first rule: the counting rule is the
    one that fires, whatever the tests of the priorities 2 to 6 say, and the
    mode is VECTOR_SEARCH. *)
Theorem counting_rule_first (question : string) (documents : list txn) :
  is_counting (lower question) = true ->
  any_in analytical_keywords (lower question) = true ->
  fired_rule question = Counting
  /\ detect_query_mode question documents = VECTOR_SEARCH.
Proof.
  intros Hc _. unfold detect_query_mode, fired_rule. rewrite Hc. done.
Qed.

Lemma counting_rule_first_witness :
  fired_rule "Explain how many transactions I made to all accounts" = Counting
  /\ detect_query_mode "Explain how many transactions I made to all accounts"
       sample_docs = VECTOR_SEARCH.
Proof.
  apply (counting_rule_first "Explain how many transactions I made to all accounts"
           sample_docs); vm_compute; reflexivity.
Defined.

(** ** The matcher *)

#[local] Arguments is_char : simpl never.
#[local] Arguments is_space : simpl never.
#[local] Arguments is_dot : simpl never.
#[local] Arguments is_word : simpl never.


Lemma is_char_refl (a : ascii) : is_char a a = true.
Proof. unfold is_char. apply N.eqb_refl. Qed.

Lemma length_append (s1 s2 : string) :
  String.length (s1 +:+ s2) = (String.length s1 + String.length s2)%nat.
Proof. induction s1 as [|a s1 IH]; simpl; [done|]. by f_equal. Qed.

Lemma append_cons (a : ascii) (s r : string) : String a s +:+ r = String a (s +:+ r).
Proof. reflexivity. Qed.

Lemma append_nil (r : string) : "" +:+ r = r.
Proof. reflexivity. Qed.

Lemma orelse_some_l {A : Type} (a b : option A) : is_Some a -> is_Some (Re.orelse a b).
Proof. intros [x ->]. cbn. eauto. Qed.

Lemma orelse_some_r {A : Type} (a b : option A) : is_Some b -> is_Some (Re.orelse a b).
Proof. intros Hb. destruct a; cbn; eauto. Qed.

(** A literal reads itself. *)
Lemma run_lit {A : Type} (s : string) (pv : option ascii) (r : string)
    (c : list string) (k : Re.kont A) :
  Re.run (Re.lit s) (Re.Pos pv (s +:+ r) c) k = k (Re.Pos (last_char pv s) r c).
Proof.
  revert pv. induction s as [|a s IH]; intros pv.
  - by rewrite append_nil.
  - rewrite append_cons. cbn. rewrite is_char_refl. apply IH.
Qed.

(** A repetition of a character class, greedy or lazy, can stop after any
    run of characters of the class. *)
Lemma star_class_some {A : Type} (f : ascii -> bool) (g : bool) (s1 : string) :
  forall (n : nat) (pv : option ascii) (r : string) (c : list string) (k : Re.kont A),
    all_chars f s1 = true ->
    (String.length s1 <= n)%nat ->
    is_Some (k (Re.Pos (last_char pv s1) r c)) ->
    is_Some (Re.star_loop (Re.run (Re.Chr f)) g n (Re.Pos pv (s1 +:+ r) c) k).
Proof.
  induction s1 as [|a s1 IH]; intros n pv r c k Hall Hn Hk.
  - rewrite append_nil. cbn in Hk. destruct n as [|n]; cbn; [done|].
    destruct g; [by apply orelse_some_r | by apply orelse_some_l].
  - cbn in Hall. apply andb_true_iff in Hall as [Ha Hall].
    destruct n as [|n]; cbn in Hn; [lia|].
    rewrite append_cons. cbn [Re.star_loop].
    assert (is_Some
              (Re.run (Re.Chr f) (Re.Pos pv (String a (s1 +:+ r)) c)
                 (fun p' =>
                    if (String.length (Re.rest p')
                        <? String.length (Re.rest (Re.Pos pv (String a (s1 +:+ r)) c)))%nat
                    then Re.star_loop (Re.run (Re.Chr f)) g n p' k
                    else None))) as Hagain.
    { cbn [Re.run Re.rest Re.caps]. rewrite Ha.
      assert ((String.length (s1 +:+ r) <? String.length (String a (s1 +:+ r)))%nat
              = true) as -> by (apply Nat.ltb_lt; simpl; lia).
      apply IH; [done|lia|done]. }
    destruct g; [by apply orelse_some_l | by apply orelse_some_r].
Qed.

Lemma run_star_class_some {A : Type} (f : ascii -> bool) (g : bool) (s1 : string)
    (pv : option ascii) (r : string) (c : list string) (k : Re.kont A) :
  all_chars f s1 = true ->
  is_Some (k (Re.Pos (last_char pv s1) r c)) ->
  is_Some (Re.run (Re.Star g (Re.Chr f)) (Re.Pos pv (s1 +:+ r) c) k).
Proof.
  intros Hall Hk. cbn [Re.run]. apply star_class_some; [done| |done].
  cbn [Re.rest]. rewrite length_append. lia.
Qed.


(** A search finds a match that starts after any prefix of the subject. *)
Lemma search_from_some (r : Re.regex) (pre s : string) (pv : option ascii) :
  is_Some (Re.match_at r (Re.Pos (last_char pv pre) s [])) ->
  is_Some (Re.search_from r pv (pre +:+ s)).
Proof.
  revert pv. induction pre as [|a pre IH]; intros pv H.
  - rewrite append_nil. cbn in H. destruct s; cbn; by apply orelse_some_l.
  - rewrite append_cons. cbn [Re.search_from]. apply orelse_some_r. by apply IH.
Qed.

Lemma found_true (r : Re.regex) (pre s : string) :
  is_Some (Re.match_at r (Re.Pos (last_char None pre) s [])) ->
  Re.found r (pre +:+ s) = true.
Proof.
  intros H. unfold Re.found, Re.search.
  by destruct (search_from_some r pre s None H) as [m ->].
Qed.







(** ** Pagination from the cache *)

Section CachedPages.
Context {T : Type} (env : collaborators T).

(** An entry that is not expired at the two readings of the clock is what
    [get_cached_query] returns, and the call only sweeps the store. *)
Lemma get_cached_query_hit (t1 t2 : Z) (k : string) (c : cache) (e : cache_data) :
  c !! k = Some e ->
  t1 - c_timestamp e <= TTL -> t2 - c_timestamp e <= TTL ->
  get_cached_query t1 t2 k c = (Some e, cleanup_expired_cache t1 c).
Proof.
  intros Hk H1 H2. unfold get_cached_query.
  assert (cleanup_expired_cache t1 c !! k = Some e) as ->
    by by apply cleanup_lookup_Some.
  by destruct (Z.leb_spec (t2 - c_timestamp e) TTL); [|lia].
Qed.

(** C1, as amended.  For every request with [page > 1] whose query identity
    has an entry that is not expired, and whatever the text generator and
    the similarity index would answer: the endpoint returns the answer, the
    mode, the filter descriptions, the statistics and the number of records
    of the entry, and only sweeps the cache.  When [show_all] is set and the
    record set of the entry is not empty (its amounts being numbers), the
    transaction list is the cut [[(page-1)*page_size, page*page_size)] of
    that set sorted by amount descending, with the matching pagination;
    otherwise the response has neither list nor pagination. *)
Theorem query_with_prompt_cached_page (documents : list txn) (clk : clock)
    (req : request) (query_cache : cache) (e : cache_data)
    (sorted_docs : list txn) (transactions : list T) :
  documents <> [] ->
  query_cache !! request_key env req = Some e ->
  t_sweep clk - c_timestamp e <= TTL ->
  t_check clk - c_timestamp e <= TTL ->
  (1 < req_page req)%nat ->
  (req_show_all req = true -> c_filtered_docs e <> [] ->
     Forall amount_is_number (c_filtered_docs e)
     /\ sorted_by_amount (c_filtered_docs e) = Ok sorted_docs
     /\ rmap (format_transaction_for_api env)
          (paginate sorted_docs (req_page req) (req_page_size req))
        = Ok transactions) ->
  let listed := req_show_all req && bool_decide (c_filtered_docs e <> []) in
  query_with_prompt env true documents clk req query_cache
  = (Ok {| r_query_id := request_key env req;
           r_mode := c_mode e;
           r_matching_transactions_count := length (c_filtered_docs e);
           r_filters_applied := c_filters_applied e;
           r_answer := c_answer e;
           r_transactions := if listed then Some transactions else None;
           r_pagination :=
             if listed
             then Some (pagination_of (req_page req) (req_page_size req)
                          (length (c_filtered_docs e)))
             else None;
           r_statistics := c_statistics e |},
     cleanup_expired_cache (t_sweep clk) query_cache).
Proof.
  intros Hdocs Hk H1 H2 Hpage Hlist listed.
  assert ((0 <? length documents)%nat = true) as Hd
    by (by destruct documents).
  apply Nat.ltb_lt in Hpage.
  unfold query_with_prompt. rewrite Hd. cbn [negb].
  fold (request_key env req).
  rewrite (get_cached_query_hit _ _ _ _ e Hk H1 H2), Hpage.
  unfold cached_response, paginate_results. fold listed.
  destruct listed eqn:El; [|done].
  subst listed. apply andb_true_iff in El as [Hshow Hne].
  apply bool_decide_eq_true in Hne.
  destruct (Hlist Hshow Hne) as (_ & Hs & Hf).
  rewrite Hs. cbn [mbind result_bind rbind]. rewrite Hf. done.
Qed.

End CachedPages.

Lemma query_with_prompt_cached_page_witness :
  query_with_prompt sample_env true sample_docs sample_clock
    {| req_prompt := march_upi_question; req_page := 2; req_page_size := 1;
       req_show_all := true; req_use_full_data := None; req_query_id := None |}
    sample_cache
  = (Ok {| r_query_id := march_upi_question;
           r_mode := SMART_FULL;
           r_matching_transactions_count := 1;
           r_filters_applied := Some march_upi_descriptions;
           r_answer := "cached answer";
           r_transactions := Some [];
           r_pagination := Some (pagination_of 2 1 1);
           r_statistics := None |},
     cleanup_expired_cache 60000000 sample_cache).
Proof.
  apply (query_with_prompt_cached_page sample_env sample_docs sample_clock
           {| req_prompt := march_upi_question; req_page := 2; req_page_size := 1;
              req_show_all := true; req_use_full_data := None; req_query_id := None |}
           sample_cache cached_entry [txn_rent] []).
  - discriminate.
  - vm_compute. reflexivity.
  - vm_compute. discriminate.
  - vm_compute. discriminate.
  - cbn. lia.
  - intros _ _. split; [|split; vm_compute; reflexivity].
    apply List.Forall_cons; [|apply List.Forall_nil].
    eexists; split; [vm_compute; reflexivity|reflexivity].
Defined.

(** C1, as first stated, fails at page 1: the entry of the query is in the
    cache and one minute old, and the endpoint runs the pipeline again: the
    answer is the one that the text generator gives now, and the entry is
    written anew. *)
Lemma query_with_prompt_page_one_recomputes :
  get_cached_query 60000000 60000000 march_upi_question sample_cache
  = (Some cached_entry, sample_cache)
  /\ c_answer cached_entry = "cached answer"
  /\ query_with_prompt sample_env true sample_docs sample_clock (request_page 1)
       sample_cache
     = (Ok {| r_query_id := march_upi_question;
              r_mode := SMART_FULL;
              r_matching_transactions_count := 1;
              r_filters_applied := Some march_upi_descriptions;
              r_answer := "fresh answer";
              r_transactions := Some [txn_rent];
              r_pagination := Some (pagination_of 1 20 1);
              r_statistics := None |},
        {[ march_upi_question :=
             {| c_answer := "fresh answer";
                c_mode := SMART_FULL;
                c_filtered_docs := [txn_rent];
                c_filters_applied := Some march_upi_descriptions;
                c_statistics := None;
                c_timestamp := 60000001 |} ]}).
Proof. repeat split; vm_compute; reflexivity. Qed.

(* ===================================================================== *)
(** * Part III: further properties of the code                            *)
(* ===================================================================== *)

(** ** The Filter Applicator, stage by stage *)

Lemma fold_then_stage_raise (ss : list stage) (e : exn) :
  fold_left then_stage ss (Raise e) = Raise e.
Proof. induction ss as [|s ss IH]; cbn; [done|exact IH]. Qed.

Lemma rfilter_ok_filter (p : txn -> result bool) (l l' : list txn) :
  rfilter p l = Ok l' -> l' = List.filter (holds p) l.
Proof.
  revert l'. induction l as [|x l IH]; intros l' H; cbn in H.
  - by inversion H.
  - cbn [List.filter].
    destruct (p x) as [b|] eqn:Ep; cbn in H; [|discriminate].
    destruct (rfilter p l) as [ys|]; cbn in H; [|discriminate].
    inversion H; subst. unfold holds at 1. rewrite Ep.
    rewrite <- (IH ys eq_refl). by destruct b.
Qed.

Lemma filter_filter_and {A : Type} (f g : A -> bool) (l : list A) :
  List.filter f (List.filter g l) = List.filter (fun x => g x && f x) l.
Proof.
  induction l as [|x l IH]; cbn; [done|].
  destruct (g x); cbn; [|exact IH]. destruct (f x); by rewrite IH.
Qed.

Lemma filter_stage_ok (p : txn -> result bool) (ds : result (list description))
    (l l' : list txn) (d : list description) :
  filter_stage p ds l = Ok (l', d) -> rfilter p l = Ok l' /\ ds = Ok d.
Proof.
  unfold filter_stage. destruct (rfilter p l) as [new|]; cbn; [|discriminate].
  destruct ds as [d'|]; cbn; [|discriminate]. by intros [= -> ->].
Qed.

(** Each stage is the comprehension on its test. *)
Lemma stage_tests (f : filters) :
  Forall2 (fun s p => exists ds, forall l, s l = filter_stage p ds l)
    (stages f) (active_tests f).
Proof.
  unfold stages, active_tests. repeat apply List.Forall2_cons; try apply List.Forall2_nil; cbn beta.
  - unfold date_stage, date_test. destruct (get_date _); eexists; intros l;
      [reflexivity|apply skip_filter_stage].
  - unfold mode_stage, mode_test. destruct (get_str _); eexists; intros l;
      [reflexivity|apply skip_filter_stage].
  - unfold type_stage, type_test. destruct (get_str _); eexists; intros l;
      [reflexivity|apply skip_filter_stage].
  - unfold amount_stage, amount_test. destruct (amount_range f) as [[??]|].
    { eexists; intros l; reflexivity. }
    destruct (get_num (amount_above f)). { eexists; intros l; reflexivity. }
    destruct (get_num (amount_below f)); eexists; intros l;
      [reflexivity|apply skip_filter_stage].
  - unfold account_stage, account_test. destruct (get_str _); eexists; intros l;
      [reflexivity|apply skip_filter_stage].
  - unfold person_stage, person_test. destruct (get_str _).
    + destruct (strict_name_match f); eexists; intros l; reflexivity.
    + eexists; intros l; apply skip_filter_stage.
Qed.

Lemma stages_exact (ss : list stage) (ps : list (txn -> result bool)) :
  Forall2 (fun s p => exists ds, forall l, s l = filter_stage p ds l) ss ps ->
  forall D d0 D' d',
    fold_left then_stage ss (Ok (D, d0)) = Ok (D', d') ->
    D' = List.filter (fun d => forallb (fun p => holds p d) ps) D.
Proof.
  induction 1 as [|s p ss ps [ds Hs] _ IH]; intros D d0 D' d' H; cbn in H.
  - inversion H; subst. cbn. clear. induction D' as [|x D' IHD]; cbn; [done|].
    rewrite <- IHD. done.
  - destruct (s D) as [[D1 ds1]|e] eqn:Es; [|by rewrite fold_then_stage_raise in H].
    rewrite Hs in Es. apply filter_stage_ok in Es as [Ef _].
    apply rfilter_ok_filter in Ef. apply IH in H. subst D1.
    rewrite filter_filter_and in H. exact H.
Qed.

Lemma apply_filters_filter (D D' : list txn) (f : filters) (q : string)
    (ds : list description) :
  apply_filters D f q = Ok (D', ds) -> D' = List.filter (passes_all f) D.
Proof.
  unfold apply_filters. intros H.
  exact (stages_exact _ _ (stage_tests f) _ _ _ _ H).
Qed.

(** X1. When [apply_filters] returns, the records that it returns are
    exactly the records of the input on which every test of the Filter Set
    returns [True] (date, mode, type, amount, account, person name), in the
    order of the input. *)
Theorem apply_filters_exact (D D' : list txn) (f : filters) (q : string)
    (ds : list description) :
  apply_filters D f q = Ok (D', ds) ->
  D' = List.filter (passes_all f) D
  /\ (forall d, d ∈ D' <-> d ∈ D /\ passes_all f d = true)
  /\ D' `sublist_of` D.
Proof.
  intros H. apply apply_filters_filter in H. subst D'.
  split; [done|]. split.
  - intros d. rewrite !list_elem_of_In, filter_In. tauto.
  - clear. induction D as [|x D IH]; cbn [List.filter]; [constructor|].
    destruct (passes_all f x); [by apply sublist_skip | by apply sublist_cons].
Qed.

Lemma apply_filters_exact_witness :
  [txn_rent] = List.filter (passes_all march_upi_filters) sample_docs
  /\ (forall d, d ∈ [txn_rent] <->
                d ∈ sample_docs /\ passes_all march_upi_filters d = true)
  /\ [txn_rent] `sublist_of` sample_docs.
Proof.
  apply (apply_filters_exact sample_docs [txn_rent] march_upi_filters
           march_upi_question march_upi_descriptions).
  vm_compute. reflexivity.
Defined.

Lemma rfilter_app (p : txn -> result bool) (l1 l2 r1 r2 : list txn) :
  rfilter p l1 = Ok r1 -> rfilter p l2 = Ok r2 ->
  rfilter p (l1 ++ l2) = Ok (r1 ++ r2)%list.
Proof.
  revert r1. induction l1 as [|x l1 IH]; intros r1 H1 H2; cbn in *.
  - inversion H1; subst. exact H2.
  - destruct (p x) as [b|]; cbn in *; [|discriminate].
    destruct (rfilter p l1) as [ys|]; cbn in *; [|discriminate].
    inversion H1; subst. rewrite (IH ys eq_refl H2). cbn. by destruct b.
Qed.

Lemma stages_app (ss : list stage) :
  Forall (fun s => exists p ds, forall l, s l = filter_stage p ds l) ss ->
  forall D1 D2 d0 R1 R2 e1 e2,
    fold_left then_stage ss (Ok (D1, d0)) = Ok (R1, e1) ->
    fold_left then_stage ss (Ok (D2, d0)) = Ok (R2, e2) ->
    fold_left then_stage ss (Ok ((D1 ++ D2)%list, d0)) = Ok ((R1 ++ R2)%list, e1)
    /\ e1 = e2.
Proof.
  induction 1 as [|s ss (p & ds & Hs) _ IH]; intros D1 D2 d0 R1 R2 e1 e2 H1 H2;
    cbn in *.
  - inversion H1; inversion H2; subst. done.
  - destruct (s D1) as [[D1' ds1]|e] eqn:E1;
      [|by rewrite fold_then_stage_raise in H1].
    destruct (s D2) as [[D2' ds2]|e] eqn:E2;
      [|by rewrite fold_then_stage_raise in H2].
    rewrite Hs in E1, E2.
    apply filter_stage_ok in E1 as [F1 Hd1]. apply filter_stage_ok in E2 as [F2 Hd2].
    assert (ds2 = ds1) as -> by congruence.
    rewrite Hs. unfold filter_stage. rewrite (rfilter_app _ _ _ _ _ F1 F2), Hd1. cbn.
    by apply IH.
Qed.

(** X2. The Filter Applicator works record by record: when it returns on
    two record sets, it returns on the two put end to end, and gives the two
    results put end to end, with the same descriptions. *)
Theorem apply_filters_app (D1 D2 R1 R2 : list txn) (f : filters) (q : string)
    (ds1 ds2 : list description) :
  apply_filters D1 f q = Ok (R1, ds1) ->
  apply_filters D2 f q = Ok (R2, ds2) ->
  apply_filters (D1 ++ D2) f q = Ok ((R1 ++ R2)%list, ds1) /\ ds1 = ds2.
Proof.
  unfold apply_filters. intros H1 H2. eapply stages_app; eauto.
  apply Forall_forall. intros s Hs. apply (stage_shape f).
  by apply list_elem_of_In.
Qed.

Lemma apply_filters_app_witness :
  apply_filters ([txn_tea; txn_rent] ++ [txn_salary; txn_rent]) march_upi_filters ""
  = Ok (([txn_rent] ++ [txn_rent])%list, march_upi_descriptions)
  /\ march_upi_descriptions = march_upi_descriptions.
Proof.
  apply (apply_filters_app [txn_tea; txn_rent] [txn_salary; txn_rent]
           [txn_rent] [txn_rent] march_upi_filters "");
    vm_compute; reflexivity.
Defined.

(** X3. The descriptions that [apply_filters] returns depend on the Filter
    Set only: a run on any other record set, the empty one included, that
    returns gives the same list of descriptions. *)
Theorem apply_filters_descriptions (D1 R1 : list txn) (f : filters) (q1 : string)
    (ds1 : list description) :
  apply_filters D1 f q1 = Ok (R1, ds1) ->
  (forall q, apply_filters [] f q = Ok ([], ds1))
  /\ (forall D2 R2 q2 ds2, apply_filters D2 f q2 = Ok (R2, ds2) -> ds2 = ds1).
Proof.
  intros H1.
  assert (forall D R q ds, apply_filters D f q = Ok (R, ds) ->
                           forall q', apply_filters [] f q' = Ok ([], ds)) as Hnil.
  { intros D R q ds H q'. apply apply_filters_fixed in H as [_ H].
    apply H. apply list_subseteq_nil. }
  split; [by eapply Hnil|].
  intros D2 R2 q2 ds2 H2.
  pose proof (Hnil _ _ _ _ H1 "") as E1. pose proof (Hnil _ _ _ _ H2 "") as E2.
  congruence.
Qed.

Lemma apply_filters_descriptions_witness :
  (forall q, apply_filters [] march_upi_filters q = Ok ([], march_upi_descriptions))
  /\ (forall D2 R2 q2 ds2,
        apply_filters D2 march_upi_filters q2 = Ok (R2, ds2) ->
        ds2 = march_upi_descriptions).
Proof.
  apply (apply_filters_descriptions sample_docs [txn_rent] march_upi_filters
           march_upi_question march_upi_descriptions).
  vm_compute. reflexivity.
Defined.

(** X4. The amount fields have a priority.  When [amount_range] is set,
    [apply_filters] does not read [amount_above] nor [amount_below]: the
    result is the same whatever they hold.  When [amount_range] is not set
    and [amount_above] holds a threshold other than zero, it does not read
    [amount_below]. *)
Theorem amount_priority (D : list txn) (f : filters) (q : string) :
  (forall r a b, amount_range f = Some r ->
     apply_filters D (with_thresholds f a b) q = apply_filters D f q)
  /\ (forall t b, amount_range f = None -> get_num (amount_above f) = Some t ->
        apply_filters D (with_below f b) q = apply_filters D f q).
Proof.
  split.
  - intros [lo hi] a b Hr. unfold apply_filters, stages.
    unfold date_stage, mode_stage, type_stage, amount_stage, account_stage,
      person_stage, with_thresholds.
    cbn [amount_above amount_below amount_range date_filter mode type account_id
         person_name strict_name_match].
    by rewrite Hr.
  - intros t b Hr Ha. unfold apply_filters, stages.
    unfold date_stage, mode_stage, type_stage, amount_stage, account_stage,
      person_stage, with_below, with_thresholds.
    cbn [amount_above amount_below amount_range date_filter mode type account_id
         person_name strict_name_match].
    by rewrite Hr, Ha.
Qed.

Lemma amount_priority_witness :
  apply_filters sample_docs
    (with_thresholds
       {| amount_above := None; amount_below := None;
          amount_range := Some (Fin 100%Q, Fin 20000%Q);
          date_filter := None; mode := None; type := None; account_id := None;
          person_name := None; strict_name_match := false |}
       (Some (Fin 15000%Q)) (Some (Fin 50%Q))) ""
  = apply_filters sample_docs
      {| amount_above := None; amount_below := None;
         amount_range := Some (Fin 100%Q, Fin 20000%Q);
         date_filter := None; mode := None; type := None; account_id := None;
         person_name := None; strict_name_match := false |} ""
  /\ apply_filters sample_docs (with_below (above 5000%Q) (Some (Fin 100%Q))) ""
     = apply_filters sample_docs (above 5000%Q) "".
Proof.
  split.
  - apply (proj1 (amount_priority sample_docs _ "") (Fin 100%Q, Fin 20000%Q)).
    reflexivity.
  - apply (proj2 (amount_priority sample_docs (above 5000%Q) "") (Fin 5000%Q)
             (Some (Fin 100%Q))); reflexivity.
Defined.

(** The descriptions of every stage are part of the descriptions returned. *)
Lemma stages_descriptions (ss : list stage) :
  Forall (fun s => exists p ds, forall l, s l = filter_stage p ds l) ss ->
  forall D d0 D' d',
    fold_left then_stage ss (Ok (D, d0)) = Ok (D', d') ->
    d0 ⊆ d' /\
    forall s l l' x, In s ss -> s l = Ok (l', x) -> x ⊆ d'.
Proof.
  induction 1 as [|s ss (p & ds & Hs) _ IH]; intros D d0 D' d' H; cbn in H.
  - inversion H; subst. split; [done|]. intros s l l' x [].
  - destruct (s D) as [[D1 ds1]|e] eqn:Es; [|by rewrite fold_then_stage_raise in H].
    destruct (IH _ _ _ _ H) as [Hsub Hin].
    split.
    + etransitivity; [|exact Hsub]. by apply list_subseteq_app_l.
    + intros s' l l' x [<-|Hs'] Hx.
      * rewrite Hs in Es, Hx. apply filter_stage_ok in Es as [_ E1].
        apply filter_stage_ok in Hx as [_ E2].
        assert (x = ds1) as -> by congruence.
        etransitivity; [|exact Hsub]. by apply list_subseteq_app_r.
      * by eapply Hin.
Qed.

Lemma passes_all_amount (f : filters) (d : txn) :
  passes_all f d = true -> holds (amount_test f) d = true.
Proof.
  unfold passes_all, active_tests. cbn [forallb].
  rewrite !andb_true_iff. tauto.
Qed.

Lemma holds_above (t : float) (d : txn) :
  holds (above_match t) d = true -> exists a, amount_of d = Ok a /\ flt t a = true.
Proof.
  unfold holds, above_match. destruct (amount_of d) as [a|]; cbn; [|discriminate].
  destruct (flt t a) eqn:E; [|discriminate]. intros _. by exists a.
Qed.

Lemma holds_below (t : float) (d : txn) :
  holds (below_match t) d = true -> exists a, amount_of d = Ok a /\ flt a t = true.
Proof.
  unfold holds, below_match. destruct (amount_of d) as [a|]; cbn; [|discriminate].
  destruct (flt a t) eqn:E; [|discriminate]. intros _. by exists a.
Qed.

(** X5. Whatever the other filters are, when [amount_range] is not set and
    [amount_above] holds a threshold [t] other than zero, every record that
    [apply_filters] returns has an amount strictly greater than [t], and
    the descriptions hold the one of the threshold; the same with
    [amount_below] and strictly smaller amounts, when [amount_above] is not
    in force. *)
Theorem threshold_strict_bound (D R : list txn) (f : filters) (q : string)
    (ds : list description) (t : float) :
  apply_filters D f q = Ok (R, ds) ->
  amount_range f = None ->
  float_truthy t = true ->
  (amount_above f = Some t ->
     (forall d, d ∈ R -> exists a, amount_of d = Ok a /\ flt t a = true)
     /\ DescAmountAbove t ∈ ds)
  /\ (get_num (amount_above f) = None -> amount_below f = Some t ->
        (forall d, d ∈ R -> exists a, amount_of d = Ok a /\ flt a t = true)
        /\ DescAmountBelow t ∈ ds).
Proof.
  intros H Hr Ht.
  pose proof (apply_filters_filter _ _ _ _ _ H) as HR.
  assert (forall s, In s (stages f) ->
            forall l l' x, s l = Ok (l', x) -> x ⊆ ds) as Hds.
  { unfold apply_filters in H. intros s Hs l l' x Hx.
    refine (proj2 (stages_descriptions _ _ _ _ _ _ H) s l l' x Hs Hx).
    apply Forall_forall. intros s' Hs'. apply (stage_shape f).
    by apply list_elem_of_In. }
  assert (In (amount_stage f) (stages f)) as Hin
    by (unfold stages; cbn; tauto).
  split.
  - intros Ha. split.
    + intros d Hd. subst R. apply list_elem_of_In, filter_In in Hd as [_ Hd].
      apply passes_all_amount in Hd. unfold amount_test, get_num in Hd.
      rewrite Hr, Ha, Ht in Hd. by apply holds_above.
    + apply (Hds _ Hin [] [] [DescAmountAbove t]); [|by left].
      unfold amount_stage, get_num. by rewrite Hr, Ha, Ht.
  - intros Ha Hb. split.
    + intros d Hd. subst R. apply list_elem_of_In, filter_In in Hd as [_ Hd].
      apply passes_all_amount in Hd. unfold amount_test in Hd.
      rewrite Hr, Ha in Hd. unfold get_num in Hd. rewrite Hb, Ht in Hd.
      by apply holds_below.
    + apply (Hds _ Hin [] [] [DescAmountBelow t]); [|by left].
      unfold amount_stage. rewrite Hr, Ha. unfold get_num. by rewrite Hb, Ht.
Qed.

Lemma threshold_strict_bound_witness :
  ((forall d, d ∈ [txn_rent] ->
      exists a, amount_of d = Ok a /\ flt (Fin 5000%Q) a = true)
   /\ DescAmountAbove 5000%Q ∈ march_upi_descriptions)
  /\ ((forall d, d ∈ [txn_tea] ->
         exists a, amount_of d = Ok a /\ flt a (Fin 5000%Q) = true)
      /\ DescAmountBelow 5000%Q ∈ [DescAmountBelow 5000%Q]).
Proof.
  split.
  - apply (proj1 (threshold_strict_bound sample_docs [txn_rent] march_upi_filters
                    march_upi_question march_upi_descriptions (Fin 5000%Q)
                    ltac:(vm_compute; reflexivity) eq_refl eq_refl)).
    reflexivity.
  - apply (proj2 (threshold_strict_bound sample_docs [txn_tea] (below 5000%Q)
                    "" [DescAmountBelow 5000%Q] (Fin 5000%Q)
                    ltac:(vm_compute; reflexivity) eq_refl eq_refl));
      reflexivity.
Defined.

(** X7. A Filter Set that holds a month and no year narrows the records to
    those of that month and is not described: the list of descriptions is
    empty although a filter is in force. *)
Theorem month_only_not_described (D : list txn) (m : Z) (q : string) :
  apply_filters D (month_only m) q
  = Ok (List.filter (date_match (DateF None (Some m))) D, []).
Proof.
  unfold apply_filters, stages, month_only.
  unfold date_stage, mode_stage, type_stage, amount_stage, account_stage,
    person_stage.
  cbn [amount_above amount_below amount_range date_filter mode type account_id
       person_name strict_name_match get_date get_str get_num].
  cbn [fold_left then_stage]. unfold filter_stage at 1.
  rewrite rfilter_pure. reflexivity.
Qed.

Example month_only_question :
  extract_filters_from_query "transactions in march" = month_only 3
  /\ List.filter (date_match (DateF None (Some 3))) sample_docs
     = [txn_rent; txn_salary].
Proof. split; vm_compute; reflexivity. Qed.

(** ** Records that the stages can read *)

Lemma rfilter_total (p : txn -> result bool) (l : list txn) :
  Forall (fun d => is_ok (p d) = true) l -> exists l', rfilter p l = Ok l'.
Proof.
  induction 1 as [|x l Hx _ [l' IH]]; cbn; [eauto|].
  destruct (p x) as [b|]; [|discriminate]. rewrite IH. cbn. eauto.
Qed.

Lemma is_str_inv (v : pyval) : is_str v = true -> exists s, v = PStr s.
Proof. destruct v; try discriminate. eauto. Qed.

(** On a well typed record every test of [apply_filters] returns. *)
Lemma tests_total (f : filters) (d : txn) (p : txn -> result bool) :
  well_typed d = true -> In p (active_tests f) -> is_ok (p d) = true.
Proof.
  unfold well_typed. rewrite !andb_true_iff.
  intros [[[[Ha Hm] Ht] Hc] Hn] Hin.
  apply is_str_inv in Hm as [sm Hm]. apply is_str_inv in Ht as [st Ht].
  apply is_str_inv in Hc as [sc Hc]. apply is_str_inv in Hn as [sn Hn].
  unfold active_tests in Hin. cbn in Hin.
  destruct Hin as [<-|[<-|[<-|[<-|[<-|[<-|[]]]]]]].
  - unfold date_test. by destruct (get_date _).
  - unfold mode_test. destruct (get_str _); [|done].
    unfold mode_match. by rewrite Hm.
  - unfold type_test. destruct (get_str _); [|done].
    unfold type_match. by rewrite Ht.
  - unfold amount_test.
    destruct (amount_range f) as [[lo hi]|].
    { unfold range_match. by destruct (amount_of d). }
    destruct (get_num (amount_above f)).
    { unfold above_match. by destruct (amount_of d). }
    destruct (get_num (amount_below f)); [|done].
    unfold below_match. by destruct (amount_of d).
  - unfold account_test. destruct (get_str _); [|done].
    unfold account_match. by rewrite Hc.
  - unfold person_test. destruct (get_str _) as [name|]; [|done].
    destruct (strict_name_match f).
    + unfold strict_name_match_doc. rewrite Hn.
      by destruct (2 <=? length (split_ws name))%nat.
    + unfold loose_name_match_doc. by rewrite Hn.
Qed.

(** The descriptions of each stage, given that the month has a name. *)
Lemma stage_tests_total (f : filters) :
  month_in_range f ->
  Forall2 (fun s p => exists ds, forall l, s l = filter_stage p (Ok ds) l)
    (stages f) (active_tests f).
Proof.
  intros Hmonth.
  unfold stages, active_tests.
  repeat apply List.Forall2_cons; try apply List.Forall2_nil; cbn beta.
  - unfold date_stage, date_test, month_in_range in *.
    destruct (get_date (date_filter f)) as [[y m]|];
      [|eexists; intros l; apply skip_filter_stage].
    unfold date_descriptions. cbn [df_month df_year].
    destruct m as [m|], y as [y|]; try (eexists; intros l; reflexivity).
    destruct (py_index_month m Hmonth) as [name ->].
    eexists; intros l; reflexivity.
  - unfold mode_stage, mode_test. destruct (get_str _); eexists; intros l;
      [reflexivity|apply skip_filter_stage].
  - unfold type_stage, type_test. destruct (get_str _); eexists; intros l;
      [reflexivity|apply skip_filter_stage].
  - unfold amount_stage, amount_test. destruct (amount_range f) as [[??]|].
    { eexists; intros l; reflexivity. }
    destruct (get_num (amount_above f)). { eexists; intros l; reflexivity. }
    destruct (get_num (amount_below f)); eexists; intros l;
      [reflexivity|apply skip_filter_stage].
  - unfold account_stage, account_test. destruct (get_str _); eexists; intros l;
      [reflexivity|apply skip_filter_stage].
  - unfold person_stage, person_test. destruct (get_str _).
    + destruct (strict_name_match f); eexists; intros l; reflexivity.
    + eexists; intros l; apply skip_filter_stage.
Qed.

Lemma stages_total (ss : list stage) (ps : list (txn -> result bool)) :
  Forall2 (fun s p => exists ds, forall l, s l = filter_stage p (Ok ds) l) ss ps ->
  forall D d0,
    Forall (fun d => forall p, In p ps -> is_ok (p d) = true) D ->
    exists R d', fold_left then_stage ss (Ok (D, d0)) = Ok (R, d').
Proof.
  induction 1 as [|s p ss ps [ds Hs] _ IH]; intros D d0 HD; cbn.
  - eauto.
  - rewrite Hs. unfold filter_stage.
    destruct (rfilter_total p D) as [D1 E1].
    { eapply Forall_impl; [exact HD|]. intros d Hd. apply Hd. by left. }
    rewrite E1. cbn. apply IH.
    apply rfilter_ok in E1 as [Hsub _].
    apply Forall_forall. intros d Hd p' Hp'.
    rewrite Forall_forall in HD. apply (HD d); [by apply Hsub|by right].
Qed.

(** X6. [apply_filters] raises nothing on record sets whose fields have
    the types that the stages read (an amount that [float] reads, and texts
    for the mode, the type tag, the account and the narration, each of them
    possibly missing), for every Filter Set whose month has a name. *)
Theorem apply_filters_total (D : list txn) (f : filters) (q : string) :
  Forall (fun d => well_typed d = true) D ->
  month_in_range f ->
  exists R ds, apply_filters D f q = Ok (R, ds).
Proof.
  intros HD Hm. unfold apply_filters.
  apply (stages_total _ _ (stage_tests_total f Hm)).
  eapply Forall_impl; [exact HD|]. intros d Hd p Hp. by eapply tests_total.
Qed.

Lemma apply_filters_total_witness :
  exists R ds, apply_filters sample_docs march_upi_filters "" = Ok (R, ds).
Proof.
  apply (apply_filters_total sample_docs march_upi_filters "").
  - repeat (apply List.Forall_cons; [vm_compute; reflexivity|]).
    apply List.Forall_nil.
  - vm_compute. split; discriminate.
Defined.

(** ** The Statistics Calculator on a result that is not empty *)

Lemma fold_max_spec (l : list float) (x : float) :
  is_nan x = false -> Forall (fun a => is_nan a = false) l ->
  let m := fold_left (fun m y => if flt m y then y else m) l x in
  fle x m = true /\ Forall (fun a => fle a m = true) l /\ In m (x :: l).
Proof.
  intros Hx Hl. revert x Hx. induction Hl as [|y l Hy _ IH]; intros x Hx; cbn.
  - split; [by apply fle_refl|]. split; [constructor|by left].
  - destruct (flt x y) eqn:E.
    + destruct (IH y Hy) as (H1 & H2 & H3).
      split; [eapply fle_trans; [by apply flt_fle|exact H1]|].
      split; [by constructor|]. by right.
    + destruct (IH x Hx) as (H1 & H2 & H3).
      assert (fle y x = true) as Hyx by (rewrite fle_not_flt by done; by rewrite E).
      split; [done|]. split; [constructor; [by eapply fle_trans|done]|].
      destruct H3 as [H3|H3]; [by left|by right; right].
Qed.

Lemma fold_min_spec (l : list float) (x : float) :
  is_nan x = false -> Forall (fun a => is_nan a = false) l ->
  let m := fold_left (fun m y => if flt y m then y else m) l x in
  fle m x = true /\ Forall (fun a => fle m a = true) l /\ In m (x :: l).
Proof.
  intros Hx Hl. revert x Hx. induction Hl as [|y l Hy _ IH]; intros x Hx; cbn.
  - split; [by apply fle_refl|]. split; [constructor|by left].
  - destruct (flt y x) eqn:E.
    + destruct (IH y Hy) as (H1 & H2 & H3).
      split; [eapply fle_trans; [exact H1|by apply flt_fle]|].
      split; [by constructor|]. by right.
    + destruct (IH x Hx) as (H1 & H2 & H3).
      assert (fle x y = true) as Hxy by (rewrite fle_not_flt by done; by rewrite E).
      split; [done|]. split; [constructor; [by eapply fle_trans|done]|].
      destruct H3 as [H3|H3]; [by left|by right; right].
Qed.

Lemma fmaximum_spec (l : list float) :
  l <> [] -> Forall (fun a => is_nan a = false) l ->
  Forall (fun a => fle a (fmaximum l) = true) l /\ In (fmaximum l) l.
Proof.
  destruct l as [|x l]; [done|]. intros _ Hl. unfold fmaximum.
  apply Forall_cons_1 in Hl as [Hx Hl].
  destruct (fold_max_spec l x Hx Hl) as (H1 & H2 & H3).
  split; [by constructor|done].
Qed.

Lemma fminimum_spec (l : list float) :
  l <> [] -> Forall (fun a => is_nan a = false) l ->
  Forall (fun a => fle (fminimum l) a = true) l /\ In (fminimum l) l.
Proof.
  destruct l as [|x l]; [done|]. intros _ Hl. unfold fminimum.
  apply Forall_cons_1 in Hl as [Hx Hl].
  destruct (fold_min_spec l x Hx Hl) as (H1 & H2 & H3).
  split; [by constructor|done].
Qed.

(** X8. When the filtered set is not empty and its amounts are read as
    numbers, none of them a NaN, [calculate_statistics] returns; the count
    is the number of filtered records, the minimum and the maximum are
    amounts of the set, and every amount lies between them. *)
Theorem calculate_statistics_nonempty (D R : list txn) (f : filters)
    (ds : list description) (amounts : list float) :
  apply_filters D f "" = Ok (R, ds) ->
  R <> [] ->
  rmap amount_of R = Ok amounts ->
  Forall (fun a => is_nan a = false) amounts ->
  exists st,
    calculate_statistics D f = Ok st
    /\ count st = length R
    /\ In (min_amount st) amounts /\ In (max_amount st) amounts
    /\ Forall (fun a => fle (min_amount st) a = true
                       /\ fle a (max_amount st) = true) amounts.
Proof.
  intros HR Hne Ham Hnan. unfold calculate_statistics. rewrite HR. cbn.
  destruct R as [|d R']; [done|]. rewrite Ham. cbn.
  eexists. split; [reflexivity|]. cbn [count total average min_amount max_amount].
  pose proof (rmap_length _ _ _ Ham) as Hlen.
  assert (amounts <> []) as Hane by (destruct amounts; [discriminate|done]).
  destruct (fmaximum_spec amounts Hane Hnan) as [Hmax Hmax_in].
  destruct (fminimum_spec amounts Hane Hnan) as [Hmin Hmin_in].
  split; [done|]. split; [done|]. split; [done|].
  apply Forall_forall. intros a Ha. rewrite Forall_forall in Hmax, Hmin. eauto.
Qed.

Lemma calculate_statistics_nonempty_witness :
  exists st,
    calculate_statistics sample_docs no_filters = Ok st
    /\ count st = length sample_docs
    /\ In (min_amount st) [Fin 12000%Q; Fin 50000.5%Q; Fin 40%Q]
    /\ In (max_amount st) [Fin 12000%Q; Fin 50000.5%Q; Fin 40%Q]
    /\ Forall (fun a => fle (min_amount st) a = true
                       /\ fle a (max_amount st) = true)
         [Fin 12000%Q; Fin 50000.5%Q; Fin 40%Q].
Proof.
  apply (calculate_statistics_nonempty sample_docs sample_docs no_filters []
           [Fin 12000%Q; Fin 50000.5%Q; Fin 40%Q]).
  - vm_compute. reflexivity.
  - discriminate.
  - vm_compute. reflexivity.
  - repeat constructor.
Defined.

(** ** The statistical answer *)

(** X9. When [process_statistical_query] returns, the count in the
    statistics is the number of matching transactions that it reports, which
    is the number of records that the Filter Applicator keeps for the Filter
    Set of the prompt; the descriptions are those of the Applicator. *)
Theorem statistical_count_matches {T : Type} (env : collaborators T)
    (documents : list txn) (prompt answer : string) (stats : statistics)
    (filter_desc : list description) (match_count : nat) :
  process_statistical_query env documents prompt
  = Ok (answer, stats, filter_desc, match_count) ->
  count stats = match_count
  /\ exists filtered_docs,
       apply_filters documents (extract_filters_from_query prompt) prompt
       = Ok (filtered_docs, filter_desc)
       /\ match_count = length filtered_docs
       /\ calculate_statistics documents (extract_filters_from_query prompt)
          = Ok stats.
Proof.
  unfold process_statistical_query. intros H.
  apply rbind_ok in H as (st & Hst & H).
  apply rbind_ok in H as ([R ds] & HR & H). inversion H; subst.
  split.
  - unfold calculate_statistics in Hst.
    change (apply_filters documents (extract_filters_from_query prompt) "")
      with (apply_filters documents (extract_filters_from_query prompt) prompt) in Hst.
    rewrite HR in Hst. cbn in Hst. destruct R as [|d R].
    + by inversion Hst.
    + apply rbind_ok in Hst as (amounts & _ & Hst). by inversion Hst.
  - exists R. done.
Qed.

Lemma statistical_count_matches_witness :
  count {| count := 1; total := 12000%Q; average := 12000%Q;
           max_amount := 12000%Q; min_amount := 12000%Q |} = 1%nat
  /\ exists filtered_docs,
       apply_filters sample_docs
         (extract_filters_from_query "sum of debits above 5000 by UPI")
         "sum of debits above 5000 by UPI"
       = Ok (filtered_docs,
             [DescMode "UPI"; DescType "DEBIT"; DescAmountAbove 5000%Q])
       /\ 1%nat = length filtered_docs
       /\ calculate_statistics sample_docs
            (extract_filters_from_query "sum of debits above 5000 by UPI")
          = Ok {| count := 1; total := 12000%Q; average := 12000%Q;
                  max_amount := 12000%Q; min_amount := 12000%Q |}.
Proof.
  apply (statistical_count_matches sample_env sample_docs
           "sum of debits above 5000 by UPI" "statistics").
  vm_compute. reflexivity.
Defined.

(** ** The sort by amount *)

(** X10. When the amounts of the records are read as numbers, none of them
    a NaN, the sort by amount returns a rearrangement of the records in
    which no record comes before a record of greater amount, and sorting
    the result again changes nothing. *)
Theorem sorted_by_amount_spec (docs : list txn) :
  Forall amount_is_number docs ->
  exists sorted_docs,
    sorted_by_amount docs = Ok sorted_docs
    /\ sorted_docs ≡ₚ docs
    /\ (forall i j di dj a b,
          (i < j)%nat -> sorted_docs !! i = Some di -> sorted_docs !! j = Some dj ->
          amount_of di = Ok a -> amount_of dj = Ok b -> fle b a = true)
    /\ sorted_by_amount sorted_docs = Ok sorted_docs.
Proof.
  intros Hn.
  destruct (sorted_by_amount_total docs) as [sorted_docs H].
  { eapply Forall_impl; [exact Hn|]. intros d (a & -> & _). done. }
  exists sorted_docs. split; [done|].
  split; [by apply sorted_by_amount_perm|].
  apply sorted_by_amount_descending in H as (keyed & -> & Hd & HF); [|done].
  split.
  - intros i j di dj a b. by apply keyed_descending_lookup.
  - unfold sorted_by_amount. rewrite (rmap_keyed_again keyed HF). cbn.
    by rewrite (sort_desc_descending_id keyed Hd).
Qed.

Lemma sorted_by_amount_spec_witness :
  exists sorted_docs,
    sorted_by_amount sample_docs = Ok sorted_docs
    /\ sorted_docs ≡ₚ sample_docs
    /\ (forall i j di dj a b,
          (i < j)%nat -> sorted_docs !! i = Some di -> sorted_docs !! j = Some dj ->
          amount_of di = Ok a -> amount_of dj = Ok b -> fle b a = true)
    /\ sorted_by_amount sorted_docs = Ok sorted_docs.
Proof.
  apply (sorted_by_amount_spec sample_docs).
  repeat (apply List.Forall_cons;
          [eexists; split; [vm_compute; reflexivity|reflexivity]|]).
  apply List.Forall_nil.
Defined.

(** ** The amount fields that the Filter Extractor sets *)

(** X11. For every question the Filter Extractor sets at most one of
    [amount_range], [amount_above] and [amount_below]; a range has its
    smaller bound first; [amount_above] is only set when the question holds
    an above keyword, and [amount_below] only when it holds a below keyword
    and no above keyword. *)
Theorem extract_amounts_exclusive (question : string) :
  let f := extract_filters_from_query question in
  (amount_range f <> None -> amount_above f = None /\ amount_below f = None)
  /\ (amount_above f <> None -> amount_below f = None)
  /\ (forall lo hi, amount_range f = Some (lo, hi) -> fle lo hi = true)
  /\ (amount_above f <> None -> any_in above_words (lower question) = true)
  /\ (amount_below f <> None ->
        any_in below_words (lower question) = true
        /\ any_in above_words (lower question) = false).
Proof.
  unfold extract_filters_from_query, extract_amounts.
  destruct (extract_person question) as [person strict].
  pose proof (amounts_processed_not_nan (lower question)) as Hnan.
  destruct (str_in "between" (lower question)
            && (2 <=? length (amounts_processed (lower question)))%nat).
  - destruct (amounts_processed (lower question)) as [|a [|b rest]]; cbn;
      try (repeat split; intros; congruence).
    apply Forall_cons_1 in Hnan as [Ha Hnan].
    apply Forall_cons_1 in Hnan as [Hb _].
    destruct (flt b a) eqn:E; cbn; repeat split; try congruence.
    + intros lo hi [= <- <-]. by apply flt_fle.
    + intros lo hi [= <- <-]. rewrite fle_not_flt by done. by rewrite E.
  - destruct (any_in above_words (lower question)) eqn:Ea.
    + destruct (amounts_processed (lower question)); cbn;
        repeat split; intros; congruence.
    + destruct (any_in below_words (lower question)) eqn:Eb.
      * destruct (amounts_processed (lower question)); cbn;
          repeat split; intros; congruence.
      * cbn. repeat split; intros; congruence.
Qed.

(** ** The Mode Classifier and the number exclusion *)

Lemma mode_statistical_rule (question : string) (documents : list txn) :
  detect_query_mode question documents = STATISTICAL ->
  fired_rule question = Statistics.
Proof.
  unfold detect_query_mode. by destruct (fired_rule question).
Qed.

(** The text [kw], white space or none, then [number], is found by
    [kw\s*number]. *)
Lemma number_pattern_found (pre kw ws post : string) :
  all_chars is_space ws = true ->
  Re.found (Re.seqs [Re.lit kw; Re.star Re.space; Re.lit "number"])
    (pre +:+ kw +:+ ws +:+ "number" +:+ post) = true.
Proof.
  intros Hws. apply found_true. unfold Re.match_at.
  cbn [Re.seqs Re.run Re.prev Re.rest]. rewrite run_lit.
  apply run_star_class_some; [done|]. rewrite run_lit. done.
Qed.

(** X12. A prompt that holds [account number], [transaction number] or
    [reference number], with any white space or none between the two words,
    never selects STATISTICAL, whatever statistical keyword it also holds. *)
Theorem number_prompt_not_statistical (question : string) (documents : list txn)
    (pre kw ws post : string) :
  lower question = pre +:+ kw +:+ ws +:+ "number" +:+ post ->
  In kw ["account"; "transaction"; "reference"] ->
  all_chars is_space ws = true ->
  detect_query_mode question documents <> STATISTICAL.
Proof.
  intros Hq Hkw Hws Hmode. apply mode_statistical_rule in Hmode.
  assert (existsb (fun pattern => Re.found pattern (lower question))
            exclude_patterns = true) as Hex.
  { rewrite Hq. unfold exclude_patterns. cbn [existsb].
    destruct Hkw as [<-|[<-|[<-|[]]]].
    - by rewrite (number_pattern_found pre "account" ws post Hws).
    - rewrite (number_pattern_found pre "transaction" ws post Hws).
      by rewrite orb_true_r.
    - rewrite (number_pattern_found pre "reference" ws post Hws).
      by rewrite !orb_true_r. }
  unfold fired_rule in Hmode. rewrite Hex in Hmode. cbn [negb andb] in Hmode.
  repeat match type of Hmode with
         | (if ?c then _ else _) = _ => destruct c; try discriminate
         end.
Qed.

Lemma number_prompt_not_statistical_witness :
  detect_query_mode "Sum of amounts for account number 1234" sample_docs
  <> STATISTICAL.
Proof.
  apply (number_prompt_not_statistical "Sum of amounts for account number 1234"
           sample_docs "sum of amounts for " "account" " " " 1234").
  - vm_compute. reflexivity.
  - cbn. tauto.
  - reflexivity.
Defined.

(** ** Counting prompts at the endpoint *)

Lemma endpoint_patterns_counting (s : string) :
  existsb (fun pattern => Re.found pattern s) endpoint_counting_patterns = true ->
  is_counting s = true.
Proof.
  unfold is_counting, endpoint_counting_patterns, counting_patterns.
  cbn [existsb]. rewrite !orb_true_iff. tauto.
Qed.

(** X13. Every prompt in which the endpoint sees a counting pattern is one
    that the Mode Classifier routes to VECTOR_SEARCH by its counting rule;
    so, unless the request forces a mode, the endpoint answers it from the
    analytical digest of the whole record set: the number of matching
    transactions that it reports is the number of all the documents, and it
    caches the answer with an empty record set. *)
Theorem counting_prompt_uses_all_documents {T : Type} (env : collaborators T)
    (clk : clock) (req : request) (query_id : string) (filters : filters)
    (documents : list txn) (query_cache : cache) (result : string) :
  existsb (fun pattern => Re.found pattern (lower (req_prompt req)))
    endpoint_counting_patterns = true ->
  req_use_full_data req = None ->
  process_analytical_query env documents (req_prompt req) = Ok result ->
  fired_rule (req_prompt req) = Counting
  /\ fresh_response env clk req query_id filters documents query_cache
     = (Ok {| r_query_id := query_id;
              r_mode := VECTOR_SEARCH;
              r_matching_transactions_count := length documents;
              r_filters_applied := None;
              r_answer := result;
              r_transactions := None;
              r_pagination := None;
              r_statistics := None |},
        cache_query_results (t_put clk) query_id result VECTOR_SEARCH [] None None
          query_cache).
Proof.
  intros Hc Hfull Hres.
  assert (fired_rule (req_prompt req) = Counting) as Hrule.
  { unfold fired_rule. by rewrite (endpoint_patterns_counting _ Hc). }
  split; [done|].
  unfold fresh_response. rewrite Hfull. unfold detect_query_mode. rewrite Hrule.
  cbn [mode_of_rule]. unfold endpoint_is_analytical. rewrite Hc, orb_true_r.
  by rewrite Hres.
Qed.

Lemma counting_prompt_uses_all_documents_witness :
  fired_rule "Count of transactions this year" = Counting
  /\ fresh_response sample_env sample_clock
       {| req_prompt := "Count of transactions this year"; req_page := 1;
          req_page_size := 20; req_show_all := true; req_use_full_data := None;
          req_query_id := None |}
       "q1" no_filters sample_docs ∅
     = (Ok {| r_query_id := "q1";
              r_mode := VECTOR_SEARCH;
              r_matching_transactions_count := length sample_docs;
              r_filters_applied := None;
              r_answer := "fresh analysis";
              r_transactions := None;
              r_pagination := None;
              r_statistics := None |},
        cache_query_results (t_put sample_clock) "q1" "fresh analysis"
          VECTOR_SEARCH [] None None ∅).
Proof.
  apply (counting_prompt_uses_all_documents sample_env sample_clock
           {| req_prompt := "Count of transactions this year"; req_page := 1;
              req_page_size := 20; req_show_all := true; req_use_full_data := None;
              req_query_id := None |}
           "q1" no_filters sample_docs ∅ "fresh analysis").
  - vm_compute. reflexivity.
  - reflexivity.
  - reflexivity.
Defined.

(** ** Sweeps of the cache *)

(** X14. Sweeps compose: sweeping at an instant, then at a later one,
    leaves the store that the later sweep alone leaves; a sweep changes
    nothing when run twice at the same instant, never adds an entry and
    never changes one. *)
Theorem cleanup_expired_cache_compose (query_cache : cache) (t1 t2 : Z) :
  t1 <= t2 ->
  cleanup_expired_cache t2 (cleanup_expired_cache t1 query_cache)
  = cleanup_expired_cache t2 query_cache
  /\ cleanup_expired_cache t1 (cleanup_expired_cache t1 query_cache)
     = cleanup_expired_cache t1 query_cache
  /\ cleanup_expired_cache t1 query_cache ⊆ query_cache.
Proof.
  intros Ht.
  assert (forall a b, a <= b ->
            cleanup_expired_cache b (cleanup_expired_cache a query_cache)
            = cleanup_expired_cache b query_cache) as Hcomp.
  { intros a b Hab. apply map_eq. intros k. apply option_eq. intros e.
    rewrite !cleanup_lookup_Some. split; [tauto|]. intros [Hk Hle].
    repeat split; try done. lia. }
  split; [by apply Hcomp|]. split; [by apply Hcomp|].
  apply map_subseteq_spec. intros k e He.
  by apply cleanup_lookup_Some in He as [He _].
Qed.

Lemma cleanup_expired_cache_compose_witness :
  cleanup_expired_cache 2000000000 (cleanup_expired_cache 60000000 sample_cache)
  = cleanup_expired_cache 2000000000 sample_cache
  /\ cleanup_expired_cache 60000000 (cleanup_expired_cache 60000000 sample_cache)
     = cleanup_expired_cache 60000000 sample_cache
  /\ cleanup_expired_cache 60000000 sample_cache ⊆ sample_cache.
Proof.
  apply (cleanup_expired_cache_compose sample_cache 60000000 2000000000). lia.
Defined.

(** ** What the [/prompt] endpoint raises *)

Lemma internal_error_raise {A : Type} (m : result A) (e : exn) :
  internal_error m = Raise e -> e = HTTPException 500.
Proof. destruct m; cbn; congruence. Qed.

Lemma internal_error_ok {A : Type} (m : result A) (a : A) :
  internal_error m = Ok a -> m = Ok a.
Proof. destruct m; cbn; congruence. Qed.

(** X15. The [/prompt] endpoint raises nothing but an [HTTPException]: 503
    when the models are not set, 400 when no record is ingested, in both
    cases without touching the cache, and 500 for every exception of the
    pipeline, such as the [ValueError] of an amount that cannot be read. *)
Theorem query_with_prompt_status {T : Type} (env : collaborators T)
    (models_ready : bool) (documents : list txn) (clk : clock) (req : request)
    (query_cache : cache) :
  (models_ready = false ->
     query_with_prompt env models_ready documents clk req query_cache
     = (Raise (HTTPException 503), query_cache))
  /\ (models_ready = true -> documents = [] ->
        query_with_prompt env models_ready documents clk req query_cache
        = (Raise (HTTPException 400), query_cache))
  /\ (models_ready = true -> documents <> [] ->
        forall e,
          (query_with_prompt env models_ready documents clk req query_cache).1
          = Raise e ->
          e = HTTPException 500).
Proof.
  split; [by intros ->|]. split; [by intros -> ->|].
  intros -> Hdocs e. unfold query_with_prompt. cbn [negb].
  destruct documents as [|d documents]; [done|].
  change (negb (0 <? length (d :: documents))%nat) with false. cbv iota.
  destruct (get_cached_query _ _ _ _) as [[cd|] c'].
  - destruct (1 <? req_page req)%nat.
    + cbn [fst]. apply internal_error_raise.
    + destruct (fresh_response _ _ _ _ _ _ _) as [r c'']. cbn [fst].
      apply internal_error_raise.
  - destruct (fresh_response _ _ _ _ _ _ _) as [r c'']. cbn [fst].
    apply internal_error_raise.
Qed.

Lemma query_with_prompt_status_witness :
  query_with_prompt sample_env false sample_docs sample_clock (request_page 1)
    sample_cache
  = (Raise (HTTPException 503), sample_cache)
  /\ query_with_prompt sample_env true [] sample_clock (request_page 1)
       sample_cache
     = (Raise (HTTPException 400), sample_cache)
  /\ (query_with_prompt sample_env true [txn_unparsable] sample_clock
        {| req_prompt := "show all transactions above 100"; req_page := 1;
           req_page_size := 20; req_show_all := true;
           req_use_full_data := None; req_query_id := None |} ∅).1
     = Raise (HTTPException 500).
Proof.
  split; [|split].
  - apply (proj1 (query_with_prompt_status sample_env false sample_docs
                    sample_clock (request_page 1) sample_cache)).
    reflexivity.
  - apply (proj1 (proj2 (query_with_prompt_status sample_env true []
                           sample_clock (request_page 1) sample_cache)));
      reflexivity.
  - assert (exists e,
      (query_with_prompt sample_env true [txn_unparsable] sample_clock
         {| req_prompt := "show all transactions above 100"; req_page := 1;
            req_page_size := 20; req_show_all := true;
            req_use_full_data := None; req_query_id := None |} ∅).1
      = Raise e) as [e He].
    { eexists. vm_compute. reflexivity. }
    rewrite He. f_equal.
    apply (proj2 (proj2 (query_with_prompt_status sample_env true
             [txn_unparsable] sample_clock
             {| req_prompt := "show all transactions above 100"; req_page := 1;
                req_page_size := 20; req_show_all := true;
                req_use_full_data := None; req_query_id := None |} ∅))).
    + reflexivity.
    + discriminate.
    + exact He.
Defined.

(** ** A first page, then a later page *)

(** What the pipeline leaves in the cache when it returns a response in
    the mode STATISTICAL or SMART_FULL, or an analytical answer. *)
Lemma fresh_response_entry {T : Type} (env : collaborators T) (clk : clock)
    (req : request) (query_id : string) (documents : list txn)
    (query_cache c1 : cache) (r1 : response T) :
  fresh_response env clk req query_id (extract_filters_from_query (req_prompt req))
    documents query_cache = (Ok r1, c1) ->
  r_mode r1 <> VECTOR_SEARCH \/ endpoint_is_analytical (req_prompt req) = true ->
  r_query_id r1 = query_id
  /\ exists filtered_docs,
       c1 = <[query_id :=
                {| c_answer := r_answer r1;
                   c_mode := r_mode r1;
                   c_filtered_docs := filtered_docs;
                   c_filters_applied := r_filters_applied r1;
                   c_statistics := r_statistics r1;
                   c_timestamp := t_put clk |}]> query_cache
       /\ (r_mode r1 <> VECTOR_SEARCH ->
           length filtered_docs = r_matching_transactions_count r1)
       /\ (r_mode r1 = VECTOR_SEARCH ->
           filtered_docs = []
           /\ r_matching_transactions_count r1 = length documents
           /\ r_filters_applied r1 = None).
Proof.
  unfold fresh_response. intros H Hmode.
  destruct (match req_use_full_data req with
            | Some true => SMART_FULL
            | Some false => VECTOR_SEARCH
            | None => detect_query_mode (req_prompt req) documents
            end) eqn:Em.
  - (* VECTOR_SEARCH *)
    destruct (endpoint_is_analytical (req_prompt req)) eqn:Ea.
    + destruct (process_analytical_query env documents (req_prompt req)) as [res|];
        [|discriminate].
      inversion H; subst. cbn. split; [done|]. exists []. repeat split; done.
    + destruct (process_vector_search_query env _ _) as [res|]; cbn in H;
        [|discriminate].
      inversion H; subst. cbn in Hmode. destruct Hmode; [done|discriminate].
  - (* SMART_FULL *)
    destruct (process_smart_full_query env documents (req_prompt req)
                (req_show_all req)) as [[[answer filtered] fd]|]; [|discriminate].
    destruct (paginate_results env req filtered) as [[txs pg]|]; cbn in H;
      [|discriminate].
    inversion H; subst. cbn. split; [done|]. exists filtered.
    repeat split; try done; discriminate.
  - (* STATISTICAL *)
    destruct (process_statistical_query env documents (req_prompt req))
      as [[[[answer stats] fd] n]|] eqn:Ep; [|discriminate].
    destruct (apply_filters documents (extract_filters_from_query (req_prompt req))
                (req_prompt req)) as [[filtered ds]|] eqn:Ef; [|discriminate].
    inversion H; subst. cbn. split; [done|]. exists filtered.
    split; [done|]. split; [|discriminate]. intros _.
    unfold process_statistical_query in Ep.
    apply rbind_ok in Ep as (st & _ & Ep). rewrite Ef in Ep. cbn in Ep.
    by inversion Ep.
Qed.

Lemma query_with_prompt_first_page {T : Type} (env : collaborators T)
    (documents : list txn) (clk : clock) (req : request) (c0 c1 : cache)
    (r1 : response T) :
  query_with_prompt env true documents clk req c0 = (Ok r1, c1) ->
  (req_page req <= 1)%nat ->
  exists cA,
    fresh_response env clk req (request_key env req)
      (extract_filters_from_query (req_prompt req)) documents cA = (Ok r1, c1).
Proof.
  unfold query_with_prompt. cbn [negb]. intros H Hpage.
  destruct (negb (0 <? length documents)%nat); [discriminate|].
  fold (request_key env req) in H.
  destruct (get_cached_query _ _ _ _) as [cd cA]. exists cA.
  assert ((1 <? req_page req)%nat = false) as Hp by (apply Nat.ltb_ge; lia).
  rewrite Hp in H.
  destruct (fresh_response _ _ _ _ _ _ _) as [r c].
  assert (internal_error r = Ok r1 /\ c = c1) as [Hr ->]
    by (destruct cd; by inversion H).
  by rewrite (internal_error_ok _ _ Hr).
Qed.

Lemma query_with_prompt_next_page {T : Type} (env : collaborators T)
    (documents : list txn) (clk : clock) (req : request) (c : cache)
    (e : cache_data) (r2 : response T) :
  documents <> [] ->
  c !! request_key env req = Some e ->
  t_sweep clk - c_timestamp e <= TTL ->
  t_check clk - c_timestamp e <= TTL ->
  (1 < req_page req)%nat ->
  (query_with_prompt env true documents clk req c).1 = Ok r2 ->
  cached_response env req (request_key env req) e = Ok r2
  /\ (query_with_prompt env true documents clk req c).2
     = cleanup_expired_cache (t_sweep clk) c.
Proof.
  intros Hdocs Hk H1 H2 Hpage.
  assert ((0 <? length documents)%nat = true) as Hd by (by destruct documents).
  apply Nat.ltb_lt in Hpage.
  unfold query_with_prompt. rewrite Hd. cbn [negb].
  fold (request_key env req).
  rewrite (get_cached_query_hit _ _ _ _ e Hk H1 H2), Hpage. cbn [fst snd].
  intros H. split; [by apply internal_error_ok|done].
Qed.

(** X16. A page after the first one repeats the first one.  When a first
    request returned a response in the mode STATISTICAL or SMART_FULL, a
    request for a page [> 1] that resolves to the same query identity within
    the time to live, and that returns, carries the same answer, mode,
    number of matching transactions, filter descriptions and statistics,
    even when other records were ingested in between; it only sweeps the
    cache. *)
Theorem next_page_repeats_first {T : Type} (env : collaborators T)
    (documents documents' : list txn) (clk1 clk2 : clock) (req1 req2 : request)
    (c0 c1 : cache) (r1 r2 : response T) :
  query_with_prompt env true documents clk1 req1 c0 = (Ok r1, c1) ->
  (req_page req1 <= 1)%nat ->
  r_mode r1 <> VECTOR_SEARCH ->
  request_key env req2 = r_query_id r1 ->
  (1 < req_page req2)%nat ->
  documents' <> [] ->
  t_sweep clk2 - t_put clk1 <= TTL ->
  t_check clk2 - t_put clk1 <= TTL ->
  (query_with_prompt env true documents' clk2 req2 c1).1 = Ok r2 ->
  r_query_id r2 = r_query_id r1
  /\ r_answer r2 = r_answer r1
  /\ r_mode r2 = r_mode r1
  /\ r_matching_transactions_count r2 = r_matching_transactions_count r1
  /\ r_filters_applied r2 = r_filters_applied r1
  /\ r_statistics r2 = r_statistics r1
  /\ (query_with_prompt env true documents' clk2 req2 c1).2
     = cleanup_expired_cache (t_sweep clk2) c1.
Proof.
  intros H1 Hp1 Hmode Hkey Hp2 Hdocs Ht1 Ht2 H2.
  apply query_with_prompt_first_page in H1 as [cA H1]; [|done].
  apply fresh_response_entry in H1 as (Hid & docsF & Hc1 & Hlen & _); [|by left].
  specialize (Hlen Hmode).
  assert (c1 !! request_key env req2
          = Some {| c_answer := r_answer r1; c_mode := r_mode r1;
                    c_filtered_docs := docsF;
                    c_filters_applied := r_filters_applied r1;
                    c_statistics := r_statistics r1;
                    c_timestamp := t_put clk1 |}) as Hlook.
  { rewrite Hkey, Hid, Hc1. apply lookup_insert_eq. }
  destruct (query_with_prompt_next_page env documents' clk2 req2 c1 _ r2
              Hdocs Hlook Ht1 Ht2 Hp2 H2) as [Hresp Hcache].
  unfold cached_response in Hresp. cbn in Hresp.
  destruct (paginate_results env req2 docsF) as [[txs pg]|]; cbn in Hresp;
    [|discriminate].
  inversion Hresp; subst r2. cbn. by rewrite Hkey, Hlen.
Qed.

Lemma next_page_repeats_first_witness :
  r_query_id next_page_response = r_query_id first_page_response
  /\ r_answer next_page_response = r_answer first_page_response
  /\ r_mode next_page_response = r_mode first_page_response
  /\ r_matching_transactions_count next_page_response
     = r_matching_transactions_count first_page_response
  /\ r_filters_applied next_page_response = r_filters_applied first_page_response
  /\ r_statistics next_page_response = r_statistics first_page_response
  /\ (query_with_prompt sample_env true [txn_tea] later_clock (request_page 2)
        first_page_cache).2
     = cleanup_expired_cache (t_sweep later_clock) first_page_cache.
Proof.
  apply (next_page_repeats_first sample_env sample_docs [txn_tea] sample_clock
           later_clock (request_page 1) (request_page 2) ∅ first_page_cache
           first_page_response next_page_response).
  - vm_compute. reflexivity.
  - cbn. lia.
  - discriminate.
  - vm_compute. reflexivity.
  - cbn. lia.
  - discriminate.
  - vm_compute. discriminate.
  - vm_compute. discriminate.
  - vm_compute. reflexivity.
Defined.

(** X17. An analytical answer is cached with an empty record set.  When a
    first request was answered from the analytical digest (mode
    VECTOR_SEARCH, an analytical keyword or a counting pattern in the
    prompt), it reported the number of all the documents; a request for a
    page [> 1] of the same query identity within the time to live repeats
    the answer, but reports no matching transaction, and carries neither
    transactions nor pagination. *)
Theorem next_page_of_analytical {T : Type} (env : collaborators T)
    (documents documents' : list txn) (clk1 clk2 : clock) (req1 req2 : request)
    (c0 c1 : cache) (r1 : response T) :
  query_with_prompt env true documents clk1 req1 c0 = (Ok r1, c1) ->
  (req_page req1 <= 1)%nat ->
  r_mode r1 = VECTOR_SEARCH ->
  endpoint_is_analytical (req_prompt req1) = true ->
  request_key env req2 = r_query_id r1 ->
  (1 < req_page req2)%nat ->
  documents' <> [] ->
  t_sweep clk2 - t_put clk1 <= TTL ->
  t_check clk2 - t_put clk1 <= TTL ->
  r_matching_transactions_count r1 = length documents
  /\ (query_with_prompt env true documents' clk2 req2 c1).1
     = Ok {| r_query_id := r_query_id r1;
             r_mode := VECTOR_SEARCH;
             r_matching_transactions_count := 0;
             r_filters_applied := None;
             r_answer := r_answer r1;
             r_transactions := None;
             r_pagination := None;
             r_statistics := r_statistics r1 |}.
Proof.
  intros H1 Hp1 Hmode Han Hkey Hp2 Hdocs Ht1 Ht2.
  apply query_with_prompt_first_page in H1 as [cA H1]; [|done].
  apply fresh_response_entry in H1 as (Hid & docsF & Hc1 & _ & Hvec); [|by right].
  destruct (Hvec Hmode) as (-> & Hcount & Hfilters).
  split; [done|].
  assert (c1 !! request_key env req2
          = Some {| c_answer := r_answer r1; c_mode := r_mode r1;
                    c_filtered_docs := [];
                    c_filters_applied := r_filters_applied r1;
                    c_statistics := r_statistics r1;
                    c_timestamp := t_put clk1 |}) as Hlook.
  { rewrite Hkey, Hid, Hc1. apply lookup_insert_eq. }
  assert ((0 <? length documents')%nat = true) as Hd by (by destruct documents').
  apply Nat.ltb_lt in Hp2.
  unfold query_with_prompt. rewrite Hd. cbn [negb].
  fold (request_key env req2).
  rewrite (get_cached_query_hit _ _ _ _ _ Hlook Ht1 Ht2), Hp2. cbn [fst].
  unfold cached_response, paginate_results. cbn.
  rewrite andb_false_r. cbn. by rewrite Hkey, Hmode, Hfilters.
Qed.

Lemma next_page_of_analytical_witness :
  r_matching_transactions_count counting_response = length sample_docs
  /\ (query_with_prompt sample_env true [txn_tea] later_clock (counting_request 2)
        counting_cache).1
     = Ok {| r_query_id := r_query_id counting_response;
             r_mode := VECTOR_SEARCH;
             r_matching_transactions_count := 0;
             r_filters_applied := None;
             r_answer := r_answer counting_response;
             r_transactions := None;
             r_pagination := None;
             r_statistics := r_statistics counting_response |}.
Proof.
  apply (next_page_of_analytical sample_env sample_docs [txn_tea] sample_clock
           later_clock (counting_request 1) (counting_request 2) ∅ counting_cache
           counting_response).
  - vm_compute. reflexivity.
  - cbn. lia.
  - reflexivity.
  - vm_compute. reflexivity.
  - vm_compute. reflexivity.
  - cbn. lia.
  - discriminate.
  - vm_compute. discriminate.
  - vm_compute. discriminate.
Defined.

(** ** The sample of the analytical digest *)

Lemma sample_fold_raise (cap : option nat) (l : list txn) (e : exn) :
  fold_left (sample_step cap) l (Raise e) = Raise e.
Proof. induction l as [|t l IH]; cbn; [done|exact IH]. Qed.

Lemma existsb_false_elem {A : Type} (f : A -> bool) (l : list A) (x : A) :
  existsb f l = false -> x ∈ l -> f x = false.
Proof.
  intros H Hx. destruct (f x) eqn:E; [|done].
  assert (existsb f l = true) as H'; [|congruence].
  apply existsb_exists. exists x. split; [by apply list_elem_of_In|done].
Qed.

(** One turn of a loop: the record is appended, with an id that was not
    seen, or the state is left as it is. *)
Lemma sample_step_ok (cap : option nat) (seen seen' : list pyval)
    (sample sample' : list txn) (t : txn) :
  sample_step cap (Ok (seen, sample)) t = Ok (seen', sample') ->
  (seen' = seen /\ sample' = sample)
  \/ (seen' = txn_id_of t :: seen /\ sample' = (sample ++ [t])%list
      /\ existsb (py_eq (txn_id_of t)) seen = false).
Proof.
  unfold sample_step. destruct (hashable (txn_id_of t)); [|discriminate].
  destruct (existsb (py_eq (txn_id_of t)) seen) eqn:E; cbn [negb andb].
  - intros H. inversion H; subst. by left.
  - destruct (match cap with Some c => (length sample <? c)%nat | None => true end).
    + intros H. inversion H; subst. by right.
    + intros H. inversion H; subst. by left.
Qed.

Lemma distinct_ids_snoc (sample : list txn) (t : txn) :
  distinct_ids sample ->
  existsb (py_eq (txn_id_of t)) (rev (txn_id_of <$> sample)) = false ->
  distinct_ids (sample ++ [t]).
Proof.
  intros Hd He i j ti tj Hij Hi Hj.
  destruct (decide (j < length sample)%nat) as [Hlt|Hge].
  - rewrite lookup_app_l in Hi by lia. rewrite lookup_app_l in Hj by lia.
    exact (Hd i j ti tj Hij Hi Hj).
  - pose proof (lookup_lt_Some _ _ _ Hj) as Hjlen. rewrite length_app in Hjlen.
    cbn in Hjlen. assert (j = length sample) as -> by lia.
    rewrite lookup_app_r in Hj by lia. rewrite Nat.sub_diag in Hj. cbn in Hj.
    inversion Hj; subst tj.
    rewrite lookup_app_l in Hi by lia.
    apply (existsb_false_elem _ _ _ He).
    apply list_elem_of_In, in_rev. rewrite rev_involutive. apply list_elem_of_In.
    apply list_elem_of_fmap. exists ti. split; [done|].
    by eapply list_elem_of_lookup_2.
Qed.

Lemma sample_fold_spec (cap : option nat) (l : list txn) :
  forall seen sample seen' sample',
    seen = rev (txn_id_of <$> sample) -> distinct_ids sample ->
    fold_left (sample_step cap) l (Ok (seen, sample)) = Ok (seen', sample') ->
    seen' = rev (txn_id_of <$> sample')
    /\ distinct_ids sample'
    /\ (length sample' <= length sample + length l)%nat
    /\ (forall t, t ∈ sample' -> t ∈ sample \/ t ∈ l)
    /\ sample `prefix_of` sample'.
Proof.
  induction l as [|t l IH]; intros seen sample seen' sample' Hs Hd H.
  - cbn in H. inversion H; subst. repeat split; try done.
    + cbn. lia.
    + intros t Ht. by left.
  - cbn [fold_left] in H.
    destruct (sample_step cap (Ok (seen, sample)) t) as [[s1 a1]|e] eqn:E;
      [|by rewrite sample_fold_raise in H].
    apply sample_step_ok in E as [[-> ->]|(-> & -> & Hnew)].
    + destruct (IH _ _ _ _ Hs Hd H) as (I1 & I2 & I3 & I4 & I5).
      repeat split; try done.
      * cbn [length]. lia.
      * intros x Hx. destruct (I4 x Hx) as [?|?]; [by left|right; by right].
    + assert (txn_id_of t :: seen = rev (txn_id_of <$> (sample ++ [t])%list)) as Hs'.
      { rewrite fmap_app, rev_app_distr. cbn. by rewrite Hs. }
      assert (distinct_ids (sample ++ [t])) as Hd'.
      { apply distinct_ids_snoc; [done|]. by rewrite <- Hs. }
      destruct (IH _ _ _ _ Hs' Hd' H) as (I1 & I2 & I3 & I4 & I5).
      repeat split; try done.
      * rewrite length_app in I3. cbn [length] in *. lia.
      * intros x Hx. destruct (I4 x Hx) as [Hx'|?]; [|right; by right].
        apply elem_of_app in Hx' as [?|Hx']; [by left|].
        apply list_elem_of_singleton in Hx' as ->. right. by left.
      * etransitivity; [|exact I5]. by apply prefix_app_r.
Qed.

(** The test on the length of the sample never fails as long as the records
    still to come cannot fill the sample up to the bound. *)
Lemma sample_fold_cap (c : nat) (l : list txn) :
  forall seen sample,
    (length sample + length l <= c)%nat ->
    fold_left (sample_step (Some c)) l (Ok (seen, sample))
    = fold_left (sample_step None) l (Ok (seen, sample)).
Proof.
  induction l as [|t l IH]; intros seen sample Hlen; [done|].
  cbn [fold_left length] in *.
  assert (sample_step (Some c) (Ok (seen, sample)) t
          = sample_step None (Ok (seen, sample)) t) as ->.
  { unfold sample_step.
    assert ((length sample <? c)%nat = true) as -> by (apply Nat.ltb_lt; lia).
    done. }
  destruct (sample_step None (Ok (seen, sample)) t) as [[s1 a1]|e] eqn:E;
    [|by rewrite !sample_fold_raise].
  apply IH. apply sample_step_ok in E as [[-> ->]|(-> & -> & _)].
  - lia.
  - rewrite length_app. cbn. lia.
Qed.

Lemma length_last_n {A : Type} (n : nat) (l : list A) : (length (last_n n l) <= n)%nat.
Proof. unfold last_n. rewrite length_drop. lia. Qed.

(** X18. The sample of the analytical digest, when it is built: it has at
    most 30 records, each of them among the first ten by amount, the last
    five by amount or the first fifteen by date; no two of them have the
    same transaction id; the record of the greatest amount comes first; and
    the two tests on the length of the sample never reject a record: the
    sample is the one that the three loops give without them. *)
Theorem sample_transactions_spec (by_amount by_date sample : list txn) :
  sample_transactions by_amount by_date = Ok sample ->
  (length sample <= 30)%nat
  /\ distinct_ids sample
  /\ (forall t, t ∈ sample ->
        t ∈ take 10 by_amount \/ t ∈ last_n 5 by_amount \/ t ∈ take 15 by_date)
  /\ (forall t, head by_amount = Some t -> head sample = Some t)
  /\ exists seen_ids,
       fold_left (sample_step None)
         (take 10 by_amount ++ last_n 5 by_amount ++ take 15 by_date)
         (Ok ([], []))
       = Ok (seen_ids, sample).
Proof.
  unfold sample_transactions. intros H.
  destruct (fold_left (sample_step None) (take 10 by_amount) (Ok ([], [])))
    as [[s1 a1]|e] eqn:E1; [|by rewrite !sample_fold_raise in H].
  assert (distinct_ids []) as Hnil by (intros i j ti tj _ Hi; done).
  destruct (sample_fold_spec _ _ _ _ _ _ eq_refl Hnil E1)
    as (S1 & D1 & L1 & M1 & P1).
  pose proof (length_take_le by_amount 10) as Lt10. cbn [length] in L1.
  assert (length (take 10 by_amount) <= 10)%nat as Lt by (rewrite length_take; lia).
  pose proof (length_last_n 5 by_amount) as Ll.
  rewrite sample_fold_cap in H by lia.
  destruct (fold_left (sample_step None) (last_n 5 by_amount) (Ok (s1, a1)))
    as [[s2 a2]|e] eqn:E2; [|by rewrite !sample_fold_raise in H].
  destruct (sample_fold_spec _ _ _ _ _ _ S1 D1 E2) as (S2 & D2 & L2 & M2 & P2).
  assert (length (take 15 by_date) <= 15)%nat as Ld by (rewrite length_take; lia).
  rewrite sample_fold_cap in H by lia.
  destruct (fold_left (sample_step None) (take 15 by_date) (Ok (s2, a2)))
    as [[s3 a3]|e] eqn:E3; [|discriminate].
  destruct (sample_fold_spec _ _ _ _ _ _ S2 D2 E3) as (S3 & D3 & L3 & M3 & P3).
  inversion H; subst a3. clear H.
  split; [lia|]. split; [done|]. split; [|split].
  - intros t Ht. destruct (M3 t Ht) as [Ht2|?]; [|by right; right].
    destruct (M2 t Ht2) as [Ht1|?]; [|by right; left].
    destruct (M1 t Ht1) as [Ht0|?]; [|by left].
    by apply elem_of_nil in Ht0.
  - intros t Hhead. destruct by_amount as [|t' rest]; [discriminate|].
    cbn in Hhead. inversion Hhead; subst t'.
    cbn [take fold_left] in E1.
    destruct (sample_step None (Ok ([], [])) t) as [[s0 a0]|e] eqn:E0;
      [|by rewrite sample_fold_raise in E1].
    unfold sample_step in E0. cbn [existsb negb andb] in E0.
    destruct (hashable (txn_id_of t)); [|discriminate].
    inversion E0; subst s0 a0. cbn [app] in E1.
    assert (distinct_ids [t]) as Hd0
      by (intros i j ti tj Hij Hi Hj; destruct i, j; cbn in *; try lia; done).
    destruct (sample_fold_spec _ _ _ _ _ _ eq_refl Hd0 E1) as (_ & _ & _ & _ & P0).
    assert ([t] `prefix_of` sample) as [k ->].
    { etransitivity; [exact P0|]. etransitivity; [exact P2|exact P3]. }
    done.
  - exists s3. rewrite !fold_left_app, E1, E2. exact E3.
Qed.

Lemma sample_transactions_spec_witness :
  (length [txn_salary; txn_rent; txn_tea] <= 30)%nat
  /\ distinct_ids [txn_salary; txn_rent; txn_tea]
  /\ (forall t, t ∈ [txn_salary; txn_rent; txn_tea] ->
        t ∈ take 10 sample_by_amount \/ t ∈ last_n 5 sample_by_amount
        \/ t ∈ take 15 sample_by_date)
  /\ (forall t, head sample_by_amount = Some t ->
                head [txn_salary; txn_rent; txn_tea] = Some t)
  /\ exists seen_ids,
       fold_left (sample_step None)
         (take 10 sample_by_amount ++ last_n 5 sample_by_amount
          ++ take 15 sample_by_date)
         (Ok ([], []))
       = Ok (seen_ids, [txn_salary; txn_rent; txn_tea]).
Proof.
  apply (sample_transactions_spec sample_by_amount sample_by_date
           [txn_salary; txn_rent; txn_tea]).
  vm_compute. reflexivity.
Defined.

(** ** The two endpoints on the same records *)

Lemma process_statistical_query_filters {T : Type} (env : collaborators T)
    (documents : list txn) (prompt : string) (e : exn) :
  apply_filters documents (extract_filters_from_query prompt) prompt = Raise e ->
  exists e', process_statistical_query env documents prompt = Raise e'.
Proof.
  intros H. unfold process_statistical_query.
  destruct (calculate_statistics _ _) as [st|e']; cbn [mbind result_bind rbind];
    [|eauto].
  rewrite H. cbn [mbind result_bind rbind]. eauto.
Qed.

(** What the pipeline of [/prompt] returns is what the body of [/query]
    computes once the similarity index is built. *)
Lemma fresh_response_query {T : Type} (env : collaborators T)
    (create_vector_store : list txn -> result unit)
    (vector_search : list txn -> string -> nat -> result string)
    (clk : clock) (req : request) (documents : list txn) (query_cache : cache) :
  create_vector_store documents = Ok tt ->
  (forall prompt k,
     vector_search documents prompt k = process_vector_search_query env prompt k) ->
  query_transactions env create_vector_store vector_search true documents req
  = internal_error
      (fresh_response env clk req
         (generate_query_id env (req_prompt req)
            (extract_filters_from_query (req_prompt req)))
         (extract_filters_from_query (req_prompt req)) documents query_cache).1.
Proof.
  intros Hcvs Hvs. unfold query_transactions, fresh_response. cbn [negb].
  rewrite Hcvs. cbn [mbind result_bind rbind]. f_equal.
  destruct (match req_use_full_data req with
            | Some true => SMART_FULL
            | Some false => VECTOR_SEARCH
            | None => detect_query_mode (req_prompt req) documents
            end).
  - destruct (endpoint_is_analytical (req_prompt req)).
    + by destruct (process_analytical_query env documents (req_prompt req)).
    + rewrite Hvs. by destruct (process_vector_search_query env _ _).
  - destruct (process_smart_full_query env documents (req_prompt req)
                (req_show_all req)) as [[[answer filtered] fd]|]; [|done].
    cbn. by destruct (paginate_results env req filtered) as [[txs pg]|].
  - destruct (apply_filters documents (extract_filters_from_query (req_prompt req))
                (req_prompt req)) as [[filtered ds]|e] eqn:Ef.
    + by destruct (process_statistical_query env documents (req_prompt req))
        as [[[[answer stats] fd] n]|].
    + destruct (process_statistical_query_filters env _ _ _ Ef) as [e' ->]. done.
Qed.

(** X19. The two endpoints agree.  On the same records, once the
    similarity index of the request is built and searches as the ingested
    one does, [/query] returns what a first page of [/prompt] without
    [query_id] returns, whatever the cache holds: the same response, or the
    same error 500. *)
Theorem query_agrees_with_prompt {T : Type} (env : collaborators T)
    (create_vector_store : list txn -> result unit)
    (vector_search : list txn -> string -> nat -> result string)
    (documents : list txn) (clk : clock) (req : request) (query_cache : cache) :
  documents <> [] ->
  create_vector_store documents = Ok tt ->
  (forall prompt k,
     vector_search documents prompt k = process_vector_search_query env prompt k) ->
  get_str (req_query_id req) = None ->
  (req_page req <= 1)%nat ->
  query_transactions env create_vector_store vector_search true documents req
  = (query_with_prompt env true documents clk req query_cache).1.
Proof.
  intros Hdocs Hcvs Hvs Hid Hpage.
  assert ((0 <? length documents)%nat = true) as Hd by (by destruct documents).
  assert ((1 <? req_page req)%nat = false) as Hp by (apply Nat.ltb_ge; lia).
  unfold query_with_prompt. rewrite Hd, Hid, Hp. cbn [negb].
  destruct (get_cached_query _ _ _ _) as [cd cA].
  rewrite (fresh_response_query env create_vector_store vector_search clk req
             documents cA Hcvs Hvs).
  destruct (fresh_response _ _ _ _ _ _ _) as [r c]. by destruct cd.
Qed.

Lemma query_agrees_with_prompt_witness :
  query_transactions sample_env sample_create_vector_store sample_vector_search
    true sample_docs (request_page 1)
  = (query_with_prompt sample_env true sample_docs sample_clock (request_page 1)
       sample_cache).1.
Proof.
  apply (query_agrees_with_prompt sample_env sample_create_vector_store
           sample_vector_search sample_docs sample_clock (request_page 1)
           sample_cache).
  - discriminate.
  - reflexivity.
  - reflexivity.
  - reflexivity.
  - cbn. lia.
Defined.

(** ** The type and the mode of a card payment *)

Lemma startswith_app (a r : string) : startswith a (a +:+ r) = true.
Proof.
  induction a as [|c a IH]; [by destruct r|].
  rewrite append_cons. cbn. by rewrite is_char_refl.
Qed.

Lemma str_in_app (pre a post : string) : str_in a (pre +:+ a +:+ post) = true.
Proof.
  induction pre as [|c pre IH].
  - rewrite append_nil. destruct (a +:+ post) eqn:E; cbn;
      rewrite <- E, startswith_app; done.
  - rewrite append_cons. cbn. rewrite IH. apply orb_true_r.
Qed.

Lemma append_assoc (a b c : string) : (a +:+ b) +:+ c = a +:+ b +:+ c.
Proof. induction a as [|x a IH]; [done|]. rewrite !append_cons. by f_equal. Qed.

(** X20. A question that names a credit card is read as a question about
    credits: the Filter Extractor sets the type CREDIT, even when the
    question also holds the word debit, and sets a mode; the Filter
    Applicator then only keeps records whose type tag holds CREDIT. *)
Theorem credit_card_sets_credit (question pre post : string) :
  lower question = pre +:+ "credit card" +:+ post ->
  type (extract_filters_from_query question) = Some "CREDIT"
  /\ mode (extract_filters_from_query question) <> None
  /\ forall D R ds q d,
       apply_filters D (extract_filters_from_query question) q = Ok (R, ds) ->
       d ∈ R -> type_match "CREDIT" d = Ok true.
Proof.
  intros Hq.
  assert (type (extract_filters_from_query question) = Some "CREDIT") as Ht.
  { unfold extract_filters_from_query.
    destruct (extract_amounts _) as [[? ?] ?]. destruct (extract_person _).
    cbn [type]. unfold extract_type, any_in. cbn [existsb]. rewrite Hq.
    change "credit card" with ("credit" +:+ " card"). rewrite append_assoc.
    by rewrite str_in_app. }
  split; [done|]. split.
  - unfold extract_filters_from_query.
    destruct (extract_amounts _) as [[? ?] ?]. destruct (extract_person _).
    cbn [mode]. unfold extract_mode. intros Hnone.
    pose proof (find_none _ _ Hnone "CREDIT CARD") as Hf.
    cbv beta in Hf. rewrite Hq in Hf.
    change (lower "CREDIT CARD") with "credit card" in Hf.
    rewrite str_in_app in Hf. discriminate Hf. unfold modes. cbn. tauto.
  - intros D R ds q d H Hd. apply apply_filters_filter in H. subst R.
    apply list_elem_of_In, filter_In in Hd as [_ Hd].
    unfold passes_all, active_tests in Hd. cbn [forallb] in Hd.
    rewrite !andb_true_iff in Hd. destruct Hd as (_ & _ & Hty & _).
    unfold type_test in Hty. rewrite Ht in Hty. cbn in Hty.
    unfold holds in Hty. by destruct (type_match "CREDIT" d) as [[]|].
Qed.

Lemma credit_card_sets_credit_witness :
  type (extract_filters_from_query "Debits paid by credit card in March")
  = Some "CREDIT"
  /\ mode (extract_filters_from_query "Debits paid by credit card in March") <> None
  /\ forall D R ds q d,
       apply_filters D
         (extract_filters_from_query "Debits paid by credit card in March") q
       = Ok (R, ds) ->
       d ∈ R -> type_match "CREDIT" d = Ok true.
Proof.
  apply (credit_card_sets_credit "Debits paid by credit card in March"
           "debits paid by " " in march").
  vm_compute. reflexivity.
Defined.

(** ** Amounts that look like a year *)

(** X21. A numeric token that reads 2020 to 2029 once its thousands
    separators are taken out is never an amount: the Filter Extractor skips
    it, so that such a number cannot be a threshold. *)
Theorem year_like_amount_skipped (num_str : string) (d : ascii) :
  is_digit d = true ->
  lower (remove_char "," num_str) = String "2" (String "0" (String "2" (String d ""))) ->
  process_number num_str = None.
Proof.
  intros Hd Hclean. unfold process_number. rewrite Hclean.
  destruct d as [[] [] [] [] [] [] [] []]; try discriminate Hd;
    vm_compute; reflexivity.
Qed.

Lemma year_like_amount_skipped_witness : process_number "2,024" = None.
Proof.
  apply (year_like_amount_skipped "2,024" "4"); vm_compute; reflexivity.
Defined.

Example year_like_threshold_lost :
  amount_above (extract_filters_from_query "transactions above 2,024") = None
  /\ amount_above (extract_filters_from_query "transactions above 2,030")
     = Some (Fin 2030%Q).
Proof. split; vm_compute; reflexivity. Qed.

(** ** A page past the last one *)

(** X22. A page past the last one is empty, not an error: when [show_all]
    is set and the record set is not empty and sorts, a page that starts at
    or after the end gets an empty transaction list, with a pagination that
    has no next page and has a previous one. *)
Theorem page_past_the_end {T : Type} (env : collaborators T) (req : request)
    (filtered_docs sorted_docs : list txn) :
  req_show_all req = true ->
  filtered_docs <> [] ->
  sorted_by_amount filtered_docs = Ok sorted_docs ->
  (1 <= req_page_size req)%nat ->
  (length filtered_docs <= (req_page req - 1) * req_page_size req)%nat ->
  exists pg,
    paginate_results env req filtered_docs = Ok (Some [], Some pg)
    /\ has_next pg = false /\ has_prev pg = true
    /\ total_items pg = length filtered_docs
    /\ (total_pages pg < req_page req)%nat.
Proof.
  intros Hshow Hne Hs Hps Hpast.
  unfold paginate_results. rewrite Hshow.
  rewrite (bool_decide_eq_true_2 _ Hne). cbn [andb].
  rewrite Hs. cbn [mbind result_bind rbind].
  assert (paginate sorted_docs (req_page req) (req_page_size req) = []) as ->.
  { rewrite paginate_eq. apply length_zero_iff_nil.
    rewrite length_take, length_drop, (sorted_by_amount_length _ _ Hs). lia. }
  cbn [rmap mbind result_bind rbind]. eexists. split; [reflexivity|].
  cbn [has_next has_prev total_items total_pages pagination_of].
  assert (0 < length filtered_docs)%nat as Hpos
    by (destruct filtered_docs; [done|cbn; lia]).
  pose proof (total_pages_bounds (length filtered_docs) (req_page_size req) Hps)
    as [B1 B2]. cbn zeta in B1, B2.
  repeat split.
  - apply Nat.ltb_ge. unfold end_idx, start_idx. lia.
  - apply Nat.ltb_lt. nia.
  - nia.
Qed.

Lemma page_past_the_end_witness :
  exists pg,
    paginate_results sample_env (request_page 3) sample_docs = Ok (Some [], Some pg)
    /\ has_next pg = false /\ has_prev pg = true
    /\ total_items pg = length sample_docs
    /\ (total_pages pg < req_page (request_page 3))%nat.
Proof.
  apply (page_past_the_end sample_env (request_page 3) sample_docs
           [txn_salary; txn_rent; txn_tea]).
  - reflexivity.
  - discriminate.
  - vm_compute. reflexivity.
  - cbn. lia.
  - cbn. lia.
Defined.
